(** * Model-class transformers of the mypy Django plugin

    A shallow embedding of [mypy_django_plugin/transformers/models.py]:
    the eight [ModelClassInitializer] subclasses and the controller
    [process_model_class] that runs them, with the analyzer state they
    mutate threaded explicitly and Python exceptions as a result type. *)

From Stdlib Require Import Ascii.
From stdpp Require Import base strings gmap list option fin_maps.

Set Default Proof Using "Type".

(** ** mypy's types and symbol-table nodes *)

Inductive TypeOfAny := explicit | from_omitted_generics | unannotated.

(** [Instance] refers to its [TypeInfo] by full name: a [TypeInfo] is a
    shared mutable object, and the name is the reference to it. *)
#[warnings="-register-all"]
Inductive MypyType :=
| AnyType (type_of_any : TypeOfAny)
| TypeVarType (name : string)
| Instance (type_fullname : string) (args : list MypyType).

Inductive ArgKind := ARG_POS | ARG_STAR2.

Record Argument := {
  arg_name : string;
  arg_type : MypyType;
  arg_kind : ArgKind;
}.

Record Var := {
  var_name : string;
  var_type : option MypyType;
  var_info : string;
  var_fullname : string;
  is_initialized_in_class : bool;
  is_inferred : bool;
}.

Record FuncDef := {
  func_name : string;
  func_self_type : MypyType;
  func_arguments : list Argument;
  func_ret_type : MypyType;
  func_info : string;
}.

(** A class nested in the declaration (the [Meta] options class): only
    the flag the transformers write is kept. *)
Record NestedInfo := {
  nested_fullname : string;
  fallback_to_any : bool;
}.

Inductive Node :=
| VarNode (v : Var)
| FuncDefNode (f : FuncDef)
| TypeInfoNode (ti : NestedInfo)
| OtherNode (line : nat).

Inductive SymKind := MDEF | GDEF.

Record SymbolTableNode := {
  kind : SymKind;
  node : option Node;
  plugin_generated : bool;
}.

Abbreviation SymbolTable := (gmap string SymbolTableNode).

(** The transitive bases of a class: [base.type.bases] is reached through
    object references in Python; a class hierarchy is finite and acyclic,
    and the transformers never change the bases of an existing class, so
    each base carries the bases of its own class. *)
#[warnings="-register-all"]
Inductive Bases :=
| BaseNode (base_type_fullname : string) (base_args : list MypyType)
           (type_bases : list Bases).

Record TypeInfo := {
  fullname : string;
  bases : list Bases;
  names : SymbolTable;
  from_queryset_managers : option (gmap string string);
}.

(** Where a diagnostic is reported: the class definition or a node. *)
Inductive Context :=
| CtxClassDef (cls : string)
| CtxNode (n : Node).

(** ** Django's runtime objects, as the introspection layer shows them *)

Record RelatedModel := {
  related_fullname : string;
  related_abstract : bool;
}.

Record Field := {
  field_name : string;
  attname : string;
  field_class_fullname : string;
  isinstance_ForeignKey : bool;
  isinstance_DateField_DateTimeField : bool;
  null : bool;
  choices : list (string * string);
  related_model_repr : string;
}.

Inductive RelationClass := OneToOneRel | ManyToOneRel | ManyToManyRel | OtherRel.

Record Relation := {
  relation_class : RelationClass;
  get_accessor_name : option string;
}.

Record Manager := {
  manager_class_name : string;
  manager_class_fullname : string;
  manager_first_base_fullname : string;
  manager_model_name : string;
}.

Record ModelCls := {
  auto_field : option Field;
  get_fields : list Field;
  managers_map : list (string * Manager);
  default_manager_class_fullname : string;
}.

(** [DjangoContext]: the introspection layer, an external collaborator. *)
Record DjangoContext := {
  get_model_class_by_fullname : string → option ModelCls;
  get_model_fields : ModelCls → list Field;
  get_model_relations : ModelCls → list Relation;
  get_field_related_model_cls : Field → option RelatedModel;
  get_relation_related_model_cls : Relation → option RelatedModel;
  get_primary_key_field : RelatedModel → Field;
  get_field_nullability : Field → bool;
}.

(** ** The analyzer state and exceptions *)

(** What one call of the pipeline can change: the declaration's symbol
    table ([self.model_classdef.info.names]), the types the analyzer
    knows by full name, the reported diagnostics and the deferral flag. *)
Record State := {
  info_names : SymbolTable;
  modules : gmap string TypeInfo;
  messages : list (string * Context);
  deferred : bool;
}.

(** What stays fixed during a call: the class being processed, the
    symbol tables of the other classes of its MRO, and the pass flag. *)
Record ClassDefContext := {
  cls_fullname : string;
  cls_name : string;
  cls_module_name : string;
  mro_tail : list SymbolTable;
  final_iteration : bool;
}.

Inductive Exc := IncompleteDefnException | IndexError.

(** A Python call either returns or raises; what it wrote to the state
    before raising stays written. *)
Inductive Result (A : Type) :=
| Ok (a : A) (st : State)
| Raise (e : Exc) (st : State).
Arguments Ok {A} a st.
Arguments Raise {A} e st.

Definition M (A : Type) : Type := State → Result A.

Definition ret {A} (a : A) : M A := λ st, Ok a st.

Definition bind {A B} (m : M A) (k : A → M B) : M B :=
  λ st, match m st with
        | Ok a st' => k a st'
        | Raise e st' => Raise e st'
        end.

Definition raise {A} (e : Exc) : M A := λ st, Raise e st.

Definition result_state {A} (r : Result A) : State :=
  match r with Ok _ st => st | Raise _ st => st end.

Notation "x <- m ;; k" := (bind m (λ x, k))
  (at level 100, m at next level, right associativity, only parsing).
Notation "m ;;; k" := (bind m (λ _, k))
  (at level 100, right associativity, only parsing).

(** [for x in xs: body(x)]; a [continue] is the body returning early. *)
Fixpoint for_each {A} (body : A → M unit) (xs : list A) : M unit :=
  match xs with
  | [] => ret tt
  | x :: xs' => body x ;;; for_each body xs'
  end.

(** [try: m  except IncompleteDefnException: handler] *)
Definition try_except {A} (m : M A) (handler : M A) : M A :=
  λ st, match m st with
        | Raise IncompleteDefnException st' => handler st'
        | r => r
        end.

Definition get_state : M State := λ st, Ok st st.

Definition modify (f : State → State) : M unit := λ st, Ok tt (f st).

(** A pure computation that may raise, run inside [M]. *)
Definition lift {A} (r : Exc + A) : M A :=
  λ st, match r with inl e => Raise e st | inr a => Ok a st end.

Definition set_info_names (f : SymbolTable → SymbolTable) (st : State) : State :=
  {| info_names := f (info_names st); modules := modules st;
     messages := messages st; deferred := deferred st |}.

Definition set_modules (f : gmap string TypeInfo → gmap string TypeInfo)
    (st : State) : State :=
  {| info_names := info_names st; modules := f (modules st);
     messages := messages st; deferred := deferred st |}.

Definition add_message (msg : string) (context : Context) (st : State) : State :=
  {| info_names := info_names st; modules := modules st;
     messages := messages st ++ [(msg, context)];
     deferred := deferred st |}.

(** [api.fail(msg, ctx=context)] *)
Definition fail (msg : string) (context : Context) : M unit :=
  modify (add_message msg context).

Definition set_deferred (st : State) : State :=
  {| info_names := info_names st; modules := modules st;
     messages := messages st; deferred := true |}.

(** [api.defer()] *)
Definition defer : M unit := modify set_deferred.

(** [s.rsplit('.', maxsplit=1)[1]]: what follows the last dot;
    [None] stands for the IndexError of a string without a dot. *)
Fixpoint rsplit_dot_1 (s : string) : option string :=
  match s with
  | EmptyString => None
  | String c s' =>
      match rsplit_dot_1 s' with
      | Some t => Some t
      | None => if Ascii.eqb c "."%char then Some s' else None
      end
  end.

(** Python's [repr] of a plain string. *)
Definition repr (s : string) : string := "'" +:+ s +:+ "'".

(** ** Example declarations

    A small application, [app.models], used to run the transformers on
    concrete declarations. *)

Definition MANAGER_CLASSES_0 : list string :=
  ["django.db.models.manager.Manager"; "django.db.models.manager.BaseManager"].
Definition RELATED_MANAGER_CLASS_0 : string :=
  "django.db.models.manager.RelatedManager".
Definition OPTIONS_CLASS_FULLNAME_0 : string :=
  "django.db.models.options.Options".

Definition int_type : MypyType := Instance "builtins.int" [].

Definition descriptor_types_0 (info : TypeInfo) (is_nullable : bool)
    : MypyType * MypyType :=
  if is_nullable then (Instance "typing.Optional" [int_type],
                       Instance "typing.Optional" [int_type])
  else (int_type, int_type).

Definition plain_class (name : string) : TypeInfo :=
  {| fullname := name; bases := []; names := ∅; from_queryset_managers := None |}.

Definition plain_field (name : string) : Field :=
  {| field_name := name; attname := name;
     field_class_fullname := "django.db.models.fields.CharField";
     isinstance_ForeignKey := false;
     isinstance_DateField_DateTimeField := false;
     null := false; choices := []; related_model_repr := "None" |}.

Definition no_model_context : DjangoContext :=
  {| get_model_class_by_fullname := λ _, None;
     get_model_fields := λ _, [];
     get_model_relations := λ _, [];
     get_field_related_model_cls := λ _, None;
     get_relation_related_model_cls := λ _, None;
     get_primary_key_field := λ _, plain_field "id";
     get_field_nullability := null |}.

Definition book_ctx (final : bool) : ClassDefContext :=
  {| cls_fullname := "app.models.Book"; cls_name := "Book";
     cls_module_name := "app.models"; mro_tail := [];
     final_iteration := final |}.

Definition meta_symbol (flag : bool) : SymbolTableNode :=
  {| kind := MDEF;
     node := Some (TypeInfoNode {| nested_fullname := "app.models.Book.Meta";
                                   fallback_to_any := flag |});
     plugin_generated := false |}.

(** An abstract base declaration with a nested [Meta] and nothing else. *)
Definition abstract_base_state : State :=
  {| info_names := {[ "Meta" := meta_symbol false ]};
     modules := ∅; messages := []; deferred := false |}.

(** The classes the analyzer already knows. *)
Definition manager_class : TypeInfo :=
  {| fullname := "django.db.models.manager.Manager";
     bases := [BaseNode "django.db.models.manager.BaseManager" [TypeVarType "_T"] []];
     names := ∅; from_queryset_managers := None |}.

Definition published_method : SymbolTableNode :=
  {| kind := MDEF;
     node := Some (FuncDefNode
       {| func_name := "published";
          func_self_type := Instance "app.models.BookManager" [];
          func_arguments := [];
          func_ret_type := AnyType unannotated;
          func_info := "app.models.BookManager" |});
     plugin_generated := false |}.

Definition use_in_migrations_var : SymbolTableNode :=
  {| kind := MDEF;
     node := Some (VarNode
       {| var_name := "use_in_migrations";
          var_type := Some (Instance "builtins.bool" []);
          var_info := "app.models.BookManager";
          var_fullname := "app.models.BookManager.use_in_migrations";
          is_initialized_in_class := true; is_inferred := true |});
     plugin_generated := false |}.

(** [class BookManager(models.Manager)]: its base is [Manager[Any]]. *)
Definition book_manager_class : TypeInfo :=
  {| fullname := "app.models.BookManager";
     bases := [BaseNode "django.db.models.manager.Manager"
                 [AnyType from_omitted_generics]
                 [BaseNode "django.db.models.manager.BaseManager"
                    [TypeVarType "_T"] []]];
     names := {[ "published" := published_method;
                 "use_in_migrations" := use_in_migrations_var ]};
     from_queryset_managers := None |}.

Definition known_classes : gmap string TypeInfo :=
  list_to_map
    [ ("builtins.str", plain_class "builtins.str");
      ("django.db.models.fields.AutoField",
         plain_class "django.db.models.fields.AutoField");
      ("django.db.models.manager.Manager", manager_class);
      ("django.db.models.manager.RelatedManager",
         plain_class "django.db.models.manager.RelatedManager");
      ("django.db.models.options.Options",
         plain_class "django.db.models.options.Options");
      ("app.models.BookManager", book_manager_class);
      ("app.models.Author", plain_class "app.models.Author");
      ("app.models.Chapter", plain_class "app.models.Chapter") ].

(** The fields of [Book]. *)
Definition id_field : Field :=
  {| field_name := "id"; attname := "id";
     field_class_fullname := "django.db.models.fields.AutoField";
     isinstance_ForeignKey := false;
     isinstance_DateField_DateTimeField := false;
     null := false; choices := []; related_model_repr := "None" |}.

Definition genre_field : Field :=
  {| field_name := "genre"; attname := "genre";
     field_class_fullname := "django.db.models.fields.CharField";
     isinstance_ForeignKey := false;
     isinstance_DateField_DateTimeField := false;
     null := false; choices := [("A", "Alpha"); ("B", "Beta")];
     related_model_repr := "None" |}.

Definition foreign_key (name related : string) : Field :=
  {| field_name := name; attname := name +:+ "_id";
     field_class_fullname := "django.db.models.fields.related.ForeignKey";
     isinstance_ForeignKey := true;
     isinstance_DateField_DateTimeField := false;
     null := false; choices := []; related_model_repr := related |}.

Definition author_field : Field := foreign_key "author" "<class 'app.models.Author'>".
Definition reviewer_field : Field := foreign_key "reviewer" "<class 'reviews.models.Reviewer'>".
Definition publisher_field : Field := foreign_key "publisher" "'press.Publisher'".

Definition author_model : RelatedModel :=
  {| related_fullname := "app.models.Author"; related_abstract := false |}.
Definition reviewer_model : RelatedModel :=
  {| related_fullname := "reviews.models.Reviewer"; related_abstract := false |}.
Definition chapter_model : RelatedModel :=
  {| related_fullname := "app.models.Chapter"; related_abstract := false |}.

(** The primary key of [Reviewer] is of a class not analyzed yet. *)
Definition reviewer_pk : Field :=
  {| field_name := "id"; attname := "id";
     field_class_fullname := "reviews.fields.ShortUUIDField";
     isinstance_ForeignKey := false;
     isinstance_DateField_DateTimeField := false;
     null := false; choices := []; related_model_repr := "None" |}.

Definition chapter_set : Relation :=
  {| relation_class := ManyToOneRel; get_accessor_name := Some "chapter_set" |}.
Definition cover : Relation :=
  {| relation_class := OneToOneRel; get_accessor_name := Some "cover" |}.
Definition hidden_relation : Relation :=
  {| relation_class := ManyToManyRel; get_accessor_name := None |}.

Definition book_manager : Manager :=
  {| manager_class_name := "BookManager";
     manager_class_fullname := "app.models.BookManager";
     manager_first_base_fullname := "django.db.models.manager.Manager";
     manager_model_name := "Book" |}.

Definition book_model (fields : list Field) (managers : list (string * Manager))
    : ModelCls :=
  {| auto_field := Some id_field;
     get_fields := fields;
     managers_map := managers;
     default_manager_class_fullname :=
       match managers with
       | (_, manager) :: _ => manager_class_fullname manager
       | [] => "django.db.models.manager.Manager"
       end |}.

(** The introspection layer for an application whose [Book] model has
    the given fields and managers. *)
Definition book_context (fields : list Field) (managers : list (string * Manager))
    : DjangoContext :=
  {| get_model_class_by_fullname := λ name,
       if String.eqb name "app.models.Book" then Some (book_model fields managers)
       else None;
     get_model_fields := get_fields;
     get_model_relations := λ _, [hidden_relation; cover; chapter_set];
     get_field_related_model_cls := λ field,
       if String.eqb (field_name field) "author" then Some author_model
       else if String.eqb (field_name field) "reviewer" then Some reviewer_model
       else None;
     get_relation_related_model_cls := λ relation,
       match get_accessor_name relation with
       | Some _ => Some chapter_model
       | None => None
       end;
     get_primary_key_field := λ related_model_cls,
       if String.eqb (related_fullname related_model_cls) "reviews.models.Reviewer"
       then reviewer_pk else id_field;
     get_field_nullability := null |}.

Definition field_symbol (name : string) (line : nat) : SymbolTableNode :=
  {| kind := MDEF; node := Some (OtherNode line); plugin_generated := false |}.

(** [Book] as written, before any synthesis: its fields are class-level
    assignments; it has no [objects] of its own. *)
Definition book_state : State :=
  {| info_names := {[ "genre" := field_symbol "genre" 12;
                      "author" := field_symbol "author" 13;
                      "reviewer" := field_symbol "reviewer" 14;
                      "Meta" := meta_symbol false ]};
     modules := known_classes; messages := []; deferred := false |}.

Definition book_fields : list Field :=
  [id_field; genre_field; author_field; reviewer_field; publisher_field].

(** The application: [Book] with its five fields and its manager. *)
Definition library : DjangoContext :=
  book_context book_fields [("objects", book_manager)].

(** [Book] with [publisher] written in the class body, at line 15. *)
Definition declared_publisher_state : State :=
  set_info_names <["publisher" := field_symbol "publisher" 15]> book_state.

(** [Book] with [objects] written in the class body. *)
Definition declared_objects_state : State :=
  set_info_names <["objects" := field_symbol "objects" 16]> book_state.

(** A manager made by [Manager.from_queryset]: its class exists at run
    time only, and the base manager class remembers the name it was
    given in the source. *)
Definition generated_manager : Manager :=
  {| manager_class_name := "ManagerFromBookQuerySet";
     manager_class_fullname := "django.db.models.manager.ManagerFromBookQuerySet";
     manager_first_base_fullname := "django.db.models.manager.Manager";
     manager_model_name := "Book" |}.

Definition manager_class_with_mapping : TypeInfo :=
  {| fullname := "django.db.models.manager.Manager";
     bases := [BaseNode "django.db.models.manager.BaseManager" [TypeVarType "_T"] []];
     names := ∅;
     from_queryset_managers :=
       Some {[ "django.db.models.manager.ManagerFromBookQuerySet"
               := "app.models.BookManager" ]} |}.

Definition generated_manager_state : State :=
  set_modules <["django.db.models.manager.Manager" := manager_class_with_mapping]>
    book_state.

(** [Book] with every dependency known: the fields whose types and
    related models the analyzer has. *)
Definition resolved_fields : list Field := [id_field; genre_field; author_field].

Definition custom_manager_library : DjangoContext :=
  book_context resolved_fields [("objects", book_manager)].

(** The same application, when the primary key of [Author] is of a class
    called [Book_BookManager], written in the module of [Book]. *)
Definition author_pk : Field :=
  {| field_name := "id"; attname := "id";
     field_class_fullname := "app.models.Book_BookManager";
     isinstance_ForeignKey := false;
     isinstance_DateField_DateTimeField := false;
     null := false; choices := []; related_model_repr := "None" |}.

Definition name_clash_library : DjangoContext :=
  {| get_model_class_by_fullname := get_model_class_by_fullname custom_manager_library;
     get_model_fields := get_model_fields custom_manager_library;
     get_model_relations := get_model_relations custom_manager_library;
     get_field_related_model_cls := get_field_related_model_cls custom_manager_library;
     get_relation_related_model_cls :=
       get_relation_related_model_cls custom_manager_library;
     get_primary_key_field := λ _, author_pk;
     get_field_nullability := null |}.

(** [objects = models.Manager()]: the manager class is Django's own. *)
Definition default_manager : Manager :=
  {| manager_class_name := "Manager";
     manager_class_fullname := "django.db.models.manager.Manager";
     manager_first_base_fullname := "django.db.models.manager.BaseManager";
     manager_model_name := "Book" |}.

Definition default_manager_library : DjangoContext :=
  book_context resolved_fields [("objects", default_manager)].

(** [class SpecialBookManager(BookManager)]: [Manager[Any]] is a base of
    its base only. *)
Definition special_manager_class : TypeInfo :=
  {| fullname := "app.models.SpecialBookManager";
     bases := [BaseNode "app.models.BookManager" [] (bases book_manager_class)];
     names := ∅; from_queryset_managers := None |}.

(** An attribute of [Book] made by the plugin. *)
Definition book_attribute (name : string) (typ : MypyType) : SymbolTableNode :=
  {| kind := MDEF;
     node := Some (VarNode
       {| var_name := name;
          var_type := Some typ;
          var_info := "app.models.Book";
          var_fullname := "app.models.Book" +:+ "." +:+ name;
          is_initialized_in_class := true; is_inferred := true |});
     plugin_generated := true |}.

Definition auto_field_type : MypyType :=
  Instance "django.db.models.fields.AutoField" [int_type; int_type].

(** [Book] when the foreign keys step starts: [Meta] is marked and [id]
    is bound. *)
Definition book_state_before_foreign_keys : State :=
  set_info_names
    (λ names, <["id" := book_attribute "id" auto_field_type]>
                (<["Meta" := meta_symbol true]> names))
    book_state.

(** [Book] when the foreign keys step raises on [reviewer]: [author_id]
    is bound. *)
Definition book_state_at_raise : State :=
  set_info_names <["author_id" := book_attribute "author_id" auto_field_type]>
    book_state_before_foreign_keys.

(** [Book] analyzed before [builtins.str], and before [AutoField]. *)
Definition no_str_state : State :=
  set_modules (delete "builtins.str") book_state.

Definition no_auto_field_state : State :=
  set_modules (delete "django.db.models.fields.AutoField") book_state.

(** [Book] analyzed before the related-manager class. *)
Definition no_related_manager_state : State :=
  set_modules (delete "django.db.models.manager.RelatedManager") book_state.

(** Two fields whose generated method names meet: the choice accessor of
    [next_by_pub] and the next-by method of the date [pub_display] are
    both called [get_next_by_pub_display]. *)
Definition next_by_pub_field : Field :=
  {| field_name := "next_by_pub"; attname := "next_by_pub";
     field_class_fullname := "django.db.models.fields.CharField";
     isinstance_ForeignKey := false;
     isinstance_DateField_DateTimeField := false;
     null := false; choices := [("A", "Alpha"); ("B", "Beta")];
     related_model_repr := "None" |}.

Definition pub_display_field : Field :=
  {| field_name := "pub_display"; attname := "pub_display";
     field_class_fullname := "django.db.models.fields.DateField";
     isinstance_ForeignKey := false;
     isinstance_DateField_DateTimeField := true;
     null := false; choices := []; related_model_repr := "None" |}.

Definition clashing_fields : list Field :=
  [id_field; next_by_pub_field; pub_display_field].

Definition clashing_library : DjangoContext :=
  book_context clashing_fields [("objects", book_manager)].

(** A generic relation: a reverse relation of none of the three kinds. *)
Definition other_relation : Relation :=
  {| relation_class := OtherRel; get_accessor_name := Some "tags" |}.

(** The first table of the list that has the name. *)
Fixpoint mro_lookup (tables : list SymbolTable) (name : string)
    : option SymbolTableNode :=
  match tables with
  | [] => None
  | t :: tables' =>
      match t !! name with
      | Some n => Some n
      | None => mro_lookup tables' name
      end
  end.

(** ** The transformers *)

Section Transformers.

(** [fullnames.MANAGER_CLASSES], [fullnames.RELATED_MANAGER_CLASS] and
    [fullnames.OPTIONS_CLASS_FULLNAME] are constants of a module that is
    not part of the source at hand; so is the field-type oracle
    [fields.get_field_descriptor_types]. *)
Variable MANAGER_CLASSES : list string.
Variable RELATED_MANAGER_CLASS : string.
Variable OPTIONS_CLASS_FULLNAME : string.
Variable get_field_descriptor_types : TypeInfo → bool → MypyType * MypyType.

Variable django_context : DjangoContext.
Variable ctx : ClassDefContext.

(** *** ModelClassInitializer *)

(** Modelled from the spec: [helpers.lookup_fully_qualified_typeinfo] is
    missing; the Type Descriptor Resolver looks a previously-known type up
    by its fully qualified name, answers [None] when it is not yet known
    and has no side effect. *)
Definition lookup_typeinfo (fullname : string) : M (option TypeInfo) :=
  λ st, Ok (modules st !! fullname) st.

Definition lookup_typeinfo_or_incomplete_defn_error (fullname : string)
    : M TypeInfo :=
  info <- lookup_typeinfo fullname ;;
  match info with
  | None => raise IncompleteDefnException
  | Some info => ret info
  end.

(** [klass] is given by [helpers.get_class_fullname(klass)]. *)
Definition lookup_class_typeinfo_or_incomplete_defn_error (klass : string)
    : M TypeInfo :=
  lookup_typeinfo_or_incomplete_defn_error klass.

Definition create_new_var (name : string) (typ : MypyType) : Var :=
  {| var_name := name;
     var_type := Some typ;
     var_info := cls_fullname ctx;
     var_fullname := cls_fullname ctx +:+ "." +:+ name;
     is_initialized_in_class := true;
     is_inferred := true |}.

(** Modelled from the spec: [helpers.add_new_sym_for_info] is missing; the
    Symbol Table Mutator inserts the attribute under its name, marked
    class-level and already initialized, as [create_new_var] builds it. *)
Definition new_sym (name : string) (sym_type : MypyType) : SymbolTableNode :=
  {| kind := MDEF;
     node := Some (VarNode (create_new_var name sym_type));
     plugin_generated := true |}.

Definition add_new_sym_for_info (name : string) (sym_type : MypyType) : M unit :=
  modify (set_info_names <[name := new_sym name sym_type]>).

Definition add_new_node_to_model_class (name : string) (typ : MypyType) : M unit :=
  add_new_sym_for_info name typ.

Definition run (run_with_model_cls : ModelCls → M unit) : M unit :=
  match get_model_class_by_fullname django_context (cls_fullname ctx) with
  | None => ret tt
  | Some model_cls => run_with_model_cls model_cls
  end.

(** mypy's [TypeInfo.get]: the first symbol of that name along the MRO,
    the class itself first. *)
Definition info_get (st : State) (name : string) : option SymbolTableNode :=
  match info_names st !! name with
  | Some n => Some n
  | None => mro_lookup (mro_tail ctx) name
  end.

(** mypy's [TypeInfo.has_readable_member]. *)
Definition has_readable_member (st : State) (name : string) : bool :=
  bool_decide (is_Some (info_get st name)).

(** *** InjectAnyAsBaseForNestedMeta *)

(** Modelled from the spec: [helpers.get_nested_meta_node_for_current_class]
    is missing; the nested options sub-declaration is the class bound to
    [Meta] in the declaration's own symbol table, if there is one. *)
Definition get_nested_meta_node_for_current_class (st : State) : option NestedInfo :=
  match info_names st !! "Meta" with
  | Some {| node := Some (TypeInfoNode meta_node) |} => Some meta_node
  | _ => None
  end.

(** [meta_node.fallback_to_any = True], written through the symbol that
    holds the nested class. *)
Definition set_fallback_to_any (sym : SymbolTableNode) : SymbolTableNode :=
  match node sym with
  | Some (TypeInfoNode meta_node) =>
      {| kind := kind sym;
         node := Some (TypeInfoNode {| nested_fullname := nested_fullname meta_node;
                                       fallback_to_any := true |});
         plugin_generated := plugin_generated sym |}
  | _ => sym
  end.

Definition InjectAnyAsBaseForNestedMeta_run : M unit :=
  st <- get_state ;;
  match get_nested_meta_node_for_current_class st with
  | None => ret tt
  | Some meta_node => modify (set_info_names (alter set_fallback_to_any "Meta"))
  end.

(** *** AddDefaultPrimaryKey *)

Definition AddDefaultPrimaryKey_run_with_model_cls (model_cls : ModelCls) : M unit :=
  st <- get_state ;;
  match auto_field model_cls with
  | Some auto_field =>
      if negb (has_readable_member st (attname auto_field)) then
        let auto_field_fullname := field_class_fullname auto_field in
        auto_field_info <- lookup_typeinfo_or_incomplete_defn_error auto_field_fullname ;;
        let '(set_type, get_type) := get_field_descriptor_types auto_field_info false in
        add_new_node_to_model_class (attname auto_field)
          (Instance (fullname auto_field_info) [set_type; get_type])
      else ret tt
  | None => ret tt
  end.

(** *** AddRelatedModelsId *)

(** [f'Cannot find model {field.related_model!r} referenced in field {field.name!r} '] *)
Definition cannot_find_model (field : Field) : string :=
  "Cannot find model " +:+ related_model_repr field +:+
  " referenced in field " +:+ repr (field_name field) +:+ " ".

(** [error_context]: the class definition, unless the class has a symbol
    for the field and the symbol has a node. *)
Definition field_error_context (st : State) (field : Field) : Context :=
  match info_get st (field_name field) with
  | Some {| node := Some field_sym_node |} => CtxNode field_sym_node
  | _ => CtxClassDef (cls_fullname ctx)
  end.

(** The body of the loop over [model_cls._meta.get_fields()]. *)
Definition AddRelatedModelsId_field (field : Field) : M unit :=
  if isinstance_ForeignKey field then
    match get_field_related_model_cls django_context field with
    | None =>
        st <- get_state ;;
        let error_context := field_error_context st field in
        fail (cannot_find_model field) error_context ;;;
        add_new_node_to_model_class (attname field) (AnyType explicit)
    | Some related_model_cls =>
        if related_abstract related_model_cls then ret tt
        else
          let rel_primary_key_field :=
            get_primary_key_field django_context related_model_cls in
          field_info <- try_except
            (info <- lookup_class_typeinfo_or_incomplete_defn_error
                       (field_class_fullname rel_primary_key_field) ;;
             ret (Some info))
            (if negb (final_iteration ctx) then raise IncompleteDefnException
             else ret None) ;;
          match field_info with
          | None => ret tt
          | Some field_info =>
              let is_nullable := get_field_nullability django_context field in
              let '(set_type, get_type) :=
                get_field_descriptor_types field_info is_nullable in
              add_new_node_to_model_class (attname field)
                (Instance (fullname field_info) [set_type; get_type])
          end
    end
  else ret tt.

Definition AddRelatedModelsId_run_with_model_cls (model_cls : ModelCls) : M unit :=
  for_each AddRelatedModelsId_field (get_fields model_cls).

(** *** AddManagers *)

(** [typ.type.fullname in MANAGER_CLASSES and isinstance(typ.args[0], AnyType)];
    [typ.args[0]] on an empty argument list is an IndexError. *)
Definition is_any_parametrized_manager (type_fullname : string)
    (args : list MypyType) : Exc + bool :=
  if bool_decide (type_fullname ∈ MANAGER_CLASSES) then
    match args with
    | [] => inl IndexError
    | AnyType _ :: _ => inr true
    | _ :: _ => inr false
    end
  else inr false.

(** Modelled from the spec: [helpers.iter_bases] is missing; it yields
    each base of the class followed by the bases of that base's class. *)
Fixpoint iter_bases_of (b : Bases) : list (string * list MypyType) :=
  match b with
  | BaseNode type_fullname args type_bases =>
      (type_fullname, args) :: flat_map iter_bases_of type_bases
  end.

Definition iter_bases (info : TypeInfo) : list (string * list MypyType) :=
  flat_map iter_bases_of (bases info).

Fixpoint any_parametrized_manager_in (l : list (string * list MypyType))
    : Exc + bool :=
  match l with
  | [] => inr false
  | (type_fullname, args) :: l' =>
      match is_any_parametrized_manager type_fullname args with
      | inl e => inl e
      | inr true => inr true
      | inr false => any_parametrized_manager_in l'
      end
  end.

Definition has_any_parametrized_manager_as_base (info : TypeInfo) : Exc + bool :=
  any_parametrized_manager_in (iter_bases info).

Definition get_generated_manager_mappings (base_manager_fullname : string)
    : M (gmap string string) :=
  base_manager_info <- lookup_typeinfo base_manager_fullname ;;
  match base_manager_info with
  | None => ret ∅
  | Some base_manager_info =>
      match from_queryset_managers base_manager_info with
      | None => ret ∅
      | Some mappings => ret mappings
      end
  end.

(** The loop over [base_manager_info.bases]: a base that is a manager
    class parametrized with [Any] is reparametrized with the model
    ([helpers.reparametrize_instance] keeps the type and replaces the
    arguments).  The test [original_base.type is None] comes after
    [is_any_parametrized_manager] has read [original_base.type.fullname],
    and an [Instance] always has a type here: it never fires. *)
Fixpoint reparametrize_bases (original_bases : list Bases) : Exc + list Bases :=
  match original_bases with
  | [] => inr []
  | BaseNode type_fullname args type_bases :: rest =>
      match is_any_parametrized_manager type_fullname args with
      | inl e => inl e
      | inr b =>
          let original_base :=
            if b then BaseNode type_fullname [Instance (cls_fullname ctx) []] type_bases
            else BaseNode type_fullname args type_bases in
          match reparametrize_bases rest with
          | inl e => inl e
          | inr bases => inr (original_base :: bases)
          end
      end
  end.

(** Modelled from the spec: [helpers.add_new_class_for_module] is missing;
    the Class Forge allocates a new type under the owning module, with the
    computed base list, and the type is known by its name from then on. *)
Definition add_new_class_for_module (module_name name : string)
    (bases : list Bases) : M TypeInfo :=
  let new_typeinfo :=
    {| fullname := module_name +:+ "." +:+ name;
       bases := bases;
       names := ∅;
       from_queryset_managers := None |} in
  modify (set_modules <[fullname new_typeinfo := new_typeinfo]>) ;;;
  ret new_typeinfo.

(** Modelled from the spec: [helpers.copy_method_to_another_class] is
    missing; a method of the template is duplicated onto the new type
    under its name, with its receiver type rebound to the new type
    instantiated with the model. *)
Definition copy_method_to_another_class (new_class : string) (self_type : MypyType)
    (new_method_name : string) (method_node : FuncDef) : SymbolTableNode :=
  {| kind := MDEF;
     node := Some (FuncDefNode
       {| func_name := new_method_name;
          func_self_type := self_type;
          func_arguments := func_arguments method_node;
          func_ret_type := func_ret_type method_node;
          func_info := new_class |});
     plugin_generated := true |}.

(** One round of the loop over [base_manager_info.names.items()]: the
    entry written to [custom_manager_info.names]. *)
Definition copy_member (custom_manager_fullname : string)
    (custom_manager_type : MypyType) (name : string) (sym : SymbolTableNode)
    : SymbolTableNode :=
  match node sym with
  | Some (FuncDefNode method_node) =>
      copy_method_to_another_class custom_manager_fullname custom_manager_type
        name method_node
  | Some (VarNode v) =>
      {| kind := kind sym;
         node := Some (VarNode
           {| var_name := name;
              var_type := var_type v;
              var_info := custom_manager_fullname;
              var_fullname := custom_manager_fullname +:+ "." +:+ name;
              is_initialized_in_class := false;
              is_inferred := false |});
         plugin_generated := plugin_generated sym |}
  | _ => sym
  end.

Definition copy_members (custom_manager_fullname : string)
    (custom_manager_type : MypyType) (template_names : SymbolTable) : SymbolTable :=
  map_fold (λ name sym custom_names,
              <[name := copy_member custom_manager_fullname custom_manager_type
                          name sym]> custom_names)
           ∅ template_names.

(** The module of the class being processed is loaded, so
    [self.api.modules[...module_name]] finds it.  The new class is
    registered empty and its symbol table is filled afterwards, through
    the same object. *)
Definition create_new_model_parametrized_manager (name : string)
    (base_manager_info : TypeInfo) : M MypyType :=
  bases <- lift (reparametrize_bases (bases base_manager_info)) ;;
  custom_manager_info <- add_new_class_for_module (cls_module_name ctx) name bases ;;
  let custom_manager_type :=
    Instance (fullname custom_manager_info) [Instance (cls_fullname ctx) []] in
  modify (set_modules
    <[fullname custom_manager_info :=
        {| fullname := fullname custom_manager_info;
           bases := bases;
           names := copy_members (fullname custom_manager_info) custom_manager_type
                      (names base_manager_info);
           from_queryset_managers := None |}]>) ;;;
  ret custom_manager_type.

(** The [try] block at the head of the loop body: the manager's
    [TypeInfo] and class name, or [None] where the body [continue]s. *)
Definition resolve_manager (manager : Manager) : M (option (TypeInfo * string)) :=
  let manager_class_name := manager_class_name manager in
  let manager_fullname := manager_class_fullname manager in
  try_except
    (manager_info <- lookup_typeinfo_or_incomplete_defn_error manager_fullname ;;
     ret (Some (manager_info, manager_class_name)))
    (if negb (final_iteration ctx) then raise IncompleteDefnException
     else
       let base_manager_fullname := manager_first_base_fullname manager in
       generated_managers <- get_generated_manager_mappings base_manager_fullname ;;
       match generated_managers !! manager_fullname with
       | None => ret None
       | Some real_manager_fullname =>
           manager_info <- lookup_typeinfo real_manager_fullname ;;
           match manager_info with
           | None => ret None
           | Some manager_info =>
               match rsplit_dot_1 real_manager_fullname with
               | None => raise IndexError
               | Some manager_class_name => ret (Some (manager_info, manager_class_name))
               end
           end
       end).

(** The body of the loop over [model_cls._meta.managers_map.items()]. *)
Definition AddManagers_manager (item : string * Manager) : M unit :=
  let '(manager_name, manager) := item in
  resolved <- resolve_manager manager ;;
  match resolved with
  | None => ret tt
  | Some (manager_info, manager_class_name) =>
      st <- get_state ;;
      if bool_decide (info_names st !! manager_name = None) then
        let manager_type :=
          Instance (fullname manager_info) [Instance (cls_fullname ctx) []] in
        add_new_node_to_model_class manager_name manager_type
      else
        has_any <- lift (has_any_parametrized_manager_as_base manager_info) ;;
        if negb has_any then ret tt
        else
          let custom_model_manager_name :=
            manager_model_name manager +:+ "_" +:+ manager_class_name in
          custom_manager_type <- try_except
            (t <- create_new_model_parametrized_manager custom_model_manager_name
                    manager_info ;;
             ret (Some t))
            (ret None) ;;
          match custom_manager_type with
          | None => ret tt
          | Some custom_manager_type =>
              add_new_node_to_model_class manager_name custom_manager_type
          end
  end.

Definition AddManagers_run_with_model_cls (model_cls : ModelCls) : M unit :=
  for_each AddManagers_manager (managers_map model_cls).

(** *** AddDefaultManagerAttribute *)

Definition AddDefaultManagerAttribute_run_with_model_cls (model_cls : ModelCls)
    : M unit :=
  st <- get_state ;;
  if bool_decide (info_names st !! "_default_manager" = None) then
    let default_manager_fullname := default_manager_class_fullname model_cls in
    default_manager_info <-
      lookup_typeinfo_or_incomplete_defn_error default_manager_fullname ;;
    let default_manager :=
      Instance (fullname default_manager_info) [Instance (cls_fullname ctx) []] in
    add_new_node_to_model_class "_default_manager" default_manager
  else ret tt.

(** *** AddRelatedManagers *)

Definition isinstance_OneToOneRel (relation : Relation) : bool :=
  match relation_class relation with OneToOneRel => true | _ => false end.

(** [isinstance(relation, (ManyToOneRel, ManyToManyRel))]; Django's
    [OneToOneRel] is a subclass of [ManyToOneRel]. *)
Definition isinstance_ManyToOneRel_ManyToManyRel (relation : Relation) : bool :=
  match relation_class relation with
  | OneToOneRel | ManyToOneRel | ManyToManyRel => true
  | OtherRel => false
  end.

(** The body of the loop over [get_model_relations(model_cls)]. *)
Definition AddRelatedManagers_relation (relation : Relation) : M unit :=
  match get_accessor_name relation with
  | None => ret tt
  | Some attname =>
      match get_relation_related_model_cls django_context relation with
      | None => ret tt
      | Some related_model_cls =>
          related_model_info <- try_except
            (info <- lookup_class_typeinfo_or_incomplete_defn_error
                       (related_fullname related_model_cls) ;;
             ret (Some info))
            (if negb (final_iteration ctx) then raise IncompleteDefnException
             else ret None) ;;
          match related_model_info with
          | None => ret tt
          | Some related_model_info =>
              if isinstance_OneToOneRel relation then
                add_new_node_to_model_class attname
                  (Instance (fullname related_model_info) [])
              else if isinstance_ManyToOneRel_ManyToManyRel relation then
                manager_info <- try_except
                  (info <- lookup_typeinfo_or_incomplete_defn_error
                             RELATED_MANAGER_CLASS ;;
                   ret (Some info))
                  (if negb (final_iteration ctx) then raise IncompleteDefnException
                   else ret None) ;;
                match manager_info with
                | None => ret tt
                | Some manager_info =>
                    add_new_node_to_model_class attname
                      (Instance (fullname manager_info)
                         [Instance (fullname related_model_info) []])
                end
              else ret tt
          end
      end
  end.

Definition AddRelatedManagers_run_with_model_cls (model_cls : ModelCls) : M unit :=
  for_each AddRelatedManagers_relation (get_model_relations django_context model_cls).

(** *** AddExtraFieldMethods *)

(** mypy's [common.add_method] belongs to the host analyzer: it binds
    [name] in the class to a plugin-generated method with the given
    arguments and return type, whose receiver is the class itself. *)
Definition new_method (name : string) (args : list Argument)
    (return_type : MypyType) : SymbolTableNode :=
  {| kind := MDEF;
     node := Some (FuncDefNode
       {| func_name := name;
          func_self_type := Instance (cls_fullname ctx) [];
          func_arguments := args;
          func_ret_type := return_type;
          func_info := cls_fullname ctx |});
     plugin_generated := true |}.

Definition add_method (name : string) (args : list Argument)
    (return_type : MypyType) : M unit :=
  modify (set_info_names <[name := new_method name args return_type]>).

(** ['get_{}_display'.format(field.attname)] *)
Definition display_method_name (field : Field) : string :=
  "get_" +:+ attname field +:+ "_display".

(** The body of the first loop: [get_FOO_display] for choices. *)
Definition AddExtraFieldMethods_display (field : Field) : M unit :=
  match choices field with
  | [] => ret tt
  | _ :: _ =>
      info <- lookup_typeinfo_or_incomplete_defn_error "builtins.str" ;;
      let return_type := Instance (fullname info) [] in
      add_method (display_method_name field) [] return_type
  end.

Definition kwargs_argument : Argument :=
  {| arg_name := "kwargs"; arg_type := AnyType explicit; arg_kind := ARG_STAR2 |}.

(** The body of the second loop: [get_next_by], [get_previous_by]. *)
Definition AddExtraFieldMethods_date (field : Field) : M unit :=
  if isinstance_DateField_DateTimeField field && negb (null field) then
    let return_type := Instance (cls_fullname ctx) [] in
    add_method ("get_next_by_" +:+ attname field) [kwargs_argument] return_type ;;;
    add_method ("get_previous_by_" +:+ attname field) [kwargs_argument] return_type
  else ret tt.

Definition AddExtraFieldMethods_run_with_model_cls (model_cls : ModelCls) : M unit :=
  for_each AddExtraFieldMethods_display (get_model_fields django_context model_cls) ;;;
  for_each AddExtraFieldMethods_date (get_model_fields django_context model_cls).

(** *** AddMetaOptionsAttribute *)

Definition AddMetaOptionsAttribute_run_with_model_cls (model_cls : ModelCls)
    : M unit :=
  st <- get_state ;;
  if bool_decide (info_names st !! "_meta" = None) then
    options_info <- lookup_typeinfo_or_incomplete_defn_error OPTIONS_CLASS_FULLNAME ;;
    add_new_node_to_model_class "_meta"
      (Instance (fullname options_info) [Instance (cls_fullname ctx) []])
  else ret tt.

(** *** process_model_class *)

Inductive Initializer :=
| InjectAnyAsBaseForNestedMeta
| AddDefaultPrimaryKey
| AddRelatedModelsId
| AddManagers
| AddDefaultManagerAttribute
| AddRelatedManagers
| AddExtraFieldMethods
| AddMetaOptionsAttribute.

(** [initializer_cls(ctx, django_context).run()] *)
Definition initializer_run (initializer_cls : Initializer) : M unit :=
  match initializer_cls with
  | InjectAnyAsBaseForNestedMeta => InjectAnyAsBaseForNestedMeta_run
  | AddDefaultPrimaryKey => run AddDefaultPrimaryKey_run_with_model_cls
  | AddRelatedModelsId => run AddRelatedModelsId_run_with_model_cls
  | AddManagers => run AddManagers_run_with_model_cls
  | AddDefaultManagerAttribute => run AddDefaultManagerAttribute_run_with_model_cls
  | AddRelatedManagers => run AddRelatedManagers_run_with_model_cls
  | AddExtraFieldMethods => run AddExtraFieldMethods_run_with_model_cls
  | AddMetaOptionsAttribute => run AddMetaOptionsAttribute_run_with_model_cls
  end.

Definition initializers : list Initializer :=
  [ InjectAnyAsBaseForNestedMeta;
    AddDefaultPrimaryKey;
    AddRelatedModelsId;
    AddManagers;
    AddDefaultManagerAttribute;
    AddRelatedManagers;
    AddExtraFieldMethods;
    AddMetaOptionsAttribute ].

(** The body of the controller's loop: one step under its [try]. *)
Definition process_initializer (initializer_cls : Initializer) : M unit :=
  try_except (initializer_run initializer_cls)
             (if negb (final_iteration ctx) then defer else ret tt).

Definition process_initializers (l : list Initializer) : M unit :=
  for_each process_initializer l.

Definition process_model_class : M unit :=
  process_initializers initializers.


(** *** What the steps write

    Definitions used to state and to prove the properties below. *)

(** A foreign key whose related model is not found. *)
Definition related_model_missing (field : Field) : bool :=
  isinstance_ForeignKey field &&
  match get_field_related_model_cls django_context field with
  | None => true
  | Some _ => false
  end.

(** How the forged type's bases relate to the template's, one by one. *)
Definition specialized_base (original forged : Bases) : Prop :=
  match original with
  | BaseNode type_fullname args type_bases =>
      (is_any_parametrized_manager type_fullname args = inr true ∧
       forged = BaseNode type_fullname [Instance (cls_fullname ctx) []] type_bases) ∨
      (is_any_parametrized_manager type_fullname args = inr false ∧
       forged = original)
  end.

(** What a step does to the symbol table is a sequence of writes of three
    kinds: bind a name ([names[name] = sym]), bind a name that is not yet
    bound ([if name not in names: names[name] = sym]), and mark the nested
    [Meta] class. *)
Inductive Write :=
| WSet (name : string) (sym : SymbolTableNode)
| WFill (name : string) (sym : SymbolTableNode)
| WMeta.

Definition apply_write (w : Write) (names : SymbolTable) : SymbolTable :=
  match w with
  | WSet name sym => <[name := sym]> names
  | WFill name sym =>
      match names !! name with
      | None => <[name := sym]> names
      | Some _ => names
      end
  | WMeta => alter set_fallback_to_any "Meta" names
  end.

Definition apply_writes (ws : list Write) (names : SymbolTable) : SymbolTable :=
  foldl (λ names w, apply_write w names) names ws.

(** The symbols the steps write are variables and methods: marking them
    permissive changes nothing. *)
Definition write_ok (w : Write) : Prop :=
  match w with
  | WSet _ sym | WFill _ sym => set_fallback_to_any sym = sym
  | WMeta => True
  end.

(** What a write does to the entry of one name. *)
Definition key_write (w : Write) (k : string) (x : option SymbolTableNode)
    : option SymbolTableNode :=
  match w with
  | WSet name sym => if decide (name = k) then Some sym else x
  | WFill name sym =>
      if decide (name = k) then match x with None => Some sym | Some _ => x end
      else x
  | WMeta => if decide ("Meta" = k) then set_fallback_to_any <$> x else x
  end.

Definition key_writes (ws : list Write) (k : string) (x : option SymbolTableNode)
    : option SymbolTableNode :=
  foldl (λ x w, key_write w k x) x ws.

(** What holds of the effect [F] of any sequence of writes on one entry:
    a bound name stays bound; what comes out is left alone when it goes
    in again; if the name can stay unbound then no write binds it
    unconditionally, so a written symbol would pass unchanged; and [F]
    commutes with the marking on bound names. *)
Record entry_effect (F : option SymbolTableNode → option SymbolTableNode) : Prop := {
  effect_bound : ∀ sym, is_Some (F (Some sym));
  effect_fixed : ∀ x sym, F x = Some sym → F (Some sym) = Some sym;
  effect_unbound : ∀ x, F x = None →
    ∀ sym, set_fallback_to_any sym = sym → F (Some sym) = Some sym;
  effect_marking : ∀ sym,
    F (Some (set_fallback_to_any sym)) = set_fallback_to_any <$> F (Some sym);
}.

Definition outcome (out : option Exc) (st : State) : Result unit :=
  match out with
  | None => Ok tt st
  | Some e => Raise e st
  end.

(** What [resolve_manager] answers, as a function of the known types. *)
Definition resolve_manager_result (mods : gmap string TypeInfo) (manager : Manager)
    : Exc + option (TypeInfo * string) :=
  match mods !! manager_class_fullname manager with
  | Some info => inr (Some (info, manager_class_name manager))
  | None =>
      if negb (final_iteration ctx) then inl IncompleteDefnException
      else
        let generated :=
          match mods !! manager_first_base_fullname manager with
          | None => ∅
          | Some base =>
              match from_queryset_managers base with
              | None => ∅
              | Some mappings => mappings
              end
          end in
        match generated !! manager_class_fullname manager with
        | None => inr None
        | Some real =>
            match mods !! real with
            | None => inr None
            | Some info =>
                match rsplit_dot_1 real with
                | None => inl IndexError
                | Some n => inr (Some (info, n))
                end
            end
        end
  end.

(** The name under which the managers step registers the type it forges
    for a manager: [<module>.<Model>_<ManagerClassName>]. *)
Definition forged_fullname (manager : Manager) (manager_class_name : string)
    : string :=
  cls_module_name ctx +:+ "." +:+
  (manager_model_name manager +:+ "_" +:+ manager_class_name).

(** The name that the base manager class remembers for a manager made at
    run time, if it remembers one. *)
Definition generated_real_names (mods : gmap string TypeInfo) (manager : Manager)
    : list string :=
  match mods !! manager_first_base_fullname manager with
  | Some base =>
      match from_queryset_managers base with
      | Some mappings =>
          match mappings !! manager_class_fullname manager with
          | Some real => [real]
          | None => []
          end
      | None => []
      end
  | None => []
  end.

(** The fully qualified names that the steps look up among the known
    types for a model, when the known types are [mods]: the options
    class; the class of the default manager; the class of the automatic
    primary key; for a foreign key to a model that is not abstract, the
    class of that model's primary key; the class of each manager and, on
    the final pass, for a class that is not known, its first base and
    the name that this base remembers; for a reverse relation with an
    accessor name, the class of the related model and, unless the
    relation is one-to-one, the related-manager class; and [builtins.str]
    for a field with choices. *)
Definition model_looked_up_names (mods : gmap string TypeInfo) (model_cls : ModelCls)
    : list string :=
  OPTIONS_CLASS_FULLNAME ::
  default_manager_class_fullname model_cls ::
  ((match auto_field model_cls with
    | Some field => [field_class_fullname field]
    | None => []
    end) ++
   flat_map (λ field,
     if isinstance_ForeignKey field then
       match get_field_related_model_cls django_context field with
       | Some related_model_cls =>
           if related_abstract related_model_cls then []
           else [field_class_fullname
                   (get_primary_key_field django_context related_model_cls)]
       | None => []
       end
     else []) (get_fields model_cls) ++
   flat_map (λ item : string * Manager,
     manager_class_fullname item.2 ::
     (if final_iteration ctx then
        match mods !! manager_class_fullname item.2 with
        | None => manager_first_base_fullname item.2 ::
                  generated_real_names mods item.2
        | Some _ => []
        end
      else [])) (managers_map model_cls) ++
   flat_map (λ relation,
     match get_accessor_name relation,
           get_relation_related_model_cls django_context relation with
     | Some _, Some related_model_cls =>
         related_fullname related_model_cls ::
         (if isinstance_OneToOneRel relation then []
          else if isinstance_ManyToOneRel_ManyToManyRel relation
               then [RELATED_MANAGER_CLASS]
               else [])
     | _, _ => []
     end) (get_model_relations django_context model_cls) ++
   flat_map (λ field,
     match choices field with
     | [] => []
     | _ :: _ => ["builtins.str"]
     end) (get_model_fields django_context model_cls)).

(** A declaration without a model looks nothing up. *)
Definition looked_up_names (mods : gmap string TypeInfo) : list string :=
  match get_model_class_by_fullname django_context (cls_fullname ctx) with
  | Some model_cls => model_looked_up_names mods model_cls
  | None => []
  end.

(** The names of the managers that the managers step binds directly on a
    first run and to a forged type on the next: the managers whose type
    does not test free of [Any]-parametrized manager bases and whose name
    is not a symbol in [names0]. *)
Definition rebound_manager_names (mods : gmap string TypeInfo)
    (names0 : SymbolTable) : list string :=
  match get_model_class_by_fullname django_context (cls_fullname ctx) with
  | Some model_cls =>
      flat_map (λ item : string * Manager,
        match resolve_manager_result mods item.2 with
        | inr (Some (manager_info, _)) =>
            match has_any_parametrized_manager_as_base manager_info with
            | inr false => []
            | _ =>
                match names0 !! item.1 with
                | None => [item.1]
                | Some _ => []
                end
            end
        | _ => []
        end) (managers_map model_cls)
  | None => []
  end.

(** What the second run needs of a manager whose type is found, when the
    first run starts from the known types [mods] and the symbols
    [names0].  Nothing, if the type tests free of [Any]-parametrized
    manager bases.  Otherwise the name of the forged type is not one of
    the names that the steps look up; and if the manager's name is not
    yet a symbol, the test and the forge raise no [IndexError]. *)
Definition manager_settled (mods : gmap string TypeInfo) (names0 : SymbolTable)
    (item : string * Manager) : Prop :=
  match resolve_manager_result mods item.2 with
  | inr (Some (manager_info, manager_class_name)) =>
      match has_any_parametrized_manager_as_base manager_info with
      | inr false => True
      | has_any =>
          (forged_fullname item.2 manager_class_name ∉ looked_up_names mods) ∧
          (names0 !! item.1 = None →
           has_any = inr true ∧
           ∃ bases', reparametrize_bases (bases manager_info) = inr bases')
      end
  | _ => True
  end.

Definition managers_settled (mods : gmap string TypeInfo) (names0 : SymbolTable)
    : Prop :=
  ∀ model_cls,
    get_model_class_by_fullname django_context (cls_fullname ctx) = Some model_cls →
    Forall (manager_settled mods names0) (managers_map model_cls).

(** A state in which every name that the steps look up resolves as in
    [mods], and every symbol of [names0] is still a symbol. *)
Definition settled_state (mods : gmap string TypeInfo) (names0 : SymbolTable)
    (st : State) : Prop :=
  (∀ name, name ∈ looked_up_names mods → modules st !! name = mods !! name) ∧
  (∀ name, is_Some (names0 !! name) → is_Some (info_names st !! name)).

(** [m] ends as [out] and, apart from the names of the rebound managers,
    performs the writes [ws], whatever settled state it starts from; and
    it ends in a settled state. *)
Definition writes (mods : gmap string TypeInfo) (names0 : SymbolTable)
    (m : M unit) (ws : list Write) (out : option Exc) : Prop :=
  ∀ st, settled_state mods names0 st →
    ∃ st', m st = outcome out st' ∧
           (∀ name, name ∉ rebound_manager_names mods names0 →
              info_names st' !! name = key_writes ws name (info_names st !! name)) ∧
           settled_state mods names0 st'.

Definition steady (mods : gmap string TypeInfo) (names0 : SymbolTable)
    (m : M unit) : Prop :=
  ∃ ws out, Forall write_ok ws ∧ writes mods names0 m ws out.

(** A relation between the state before and the state after that every
    primitive write of the transformers satisfies: binding a name,
    marking [Meta], registering a type, reporting that the related model
    of a foreign key of the model is missing, and (before the final pass
    only) asking for another pass. *)
Record kept (R : State → State → Prop) : Prop := {
  kept_refl : ∀ st, R st st;
  kept_trans : ∀ st1 st2 st3, R st1 st2 → R st2 st3 → R st1 st3;
  kept_bind_name : ∀ name sym st, R st (set_info_names <[name := sym]> st);
  kept_mark_meta : ∀ st,
    R st (set_info_names (alter set_fallback_to_any "Meta") st);
  kept_register : ∀ name info st, R st (set_modules <[name := info]> st);
  kept_diagnostic : ∀ model_cls field context st,
    get_model_class_by_fullname django_context (cls_fullname ctx) = Some model_cls →
    field ∈ get_fields model_cls →
    related_model_missing field = true →
    R st (add_message (cannot_find_model field) context st);
  kept_defer : final_iteration ctx = false → ∀ st, R st (set_deferred st);
}.

(** [m] relates the state it starts from to the state it ends in,
    whether it returns or raises. *)
Definition keeps {A} (R : State → State → Prop) (m : M A) : Prop :=
  ∀ st, R st (result_state (m st)).

(** A diagnostic for a foreign key of the model whose related model is
    missing. *)
Definition missing_model_diagnostic (d : string * Context) : Prop :=
  ∃ model_cls field,
    get_model_class_by_fullname django_context (cls_fullname ctx) = Some model_cls ∧
    field ∈ get_fields model_cls ∧
    related_model_missing field = true ∧
    d.1 = cannot_find_model field.

(** The names the second loop of [AddExtraFieldMethods] binds, in the
    order it binds them. *)
Definition date_method_names (fields : list Field) : list string :=
  flat_map (λ field,
    if isinstance_DateField_DateTimeField field && negb (null field)
    then ["get_next_by_" +:+ attname field; "get_previous_by_" +:+ attname field]
    else []) fields.

(** Whether a name has a dot in it. *)
Fixpoint contains_dot (s : string) : bool :=
  match s with
  | EmptyString => false
  | String c s' => Ascii.eqb c "."%char || contains_dot s'
  end.

(** ** Properties *)

(** *** The monad and the loop *)

Lemma bind_Ok {A B} (m : M A) (k : A → M B) st a st' :
  m st = Ok a st' → bind m k st = k a st'.
Proof. unfold bind. by intros ->. Qed.

Lemma bind_Raise {A B} (m : M A) (k : A → M B) st e st' :
  m st = Raise e st' → bind m k st = Raise e st'.
Proof. unfold bind. by intros ->. Qed.

Lemma for_each_app {A} (body : A → M unit) (xs ys : list A) st st' :
  for_each body xs st = Ok tt st' →
  for_each body (xs ++ ys) st = for_each body ys st'.
Proof.
  revert st. induction xs as [|x xs IH]; intros st; simpl.
  - unfold ret. by intros [= ->].
  - unfold bind. destruct (body x st) as [[] st1|e st1]; [|done]. apply IH.
Qed.

(** A loop stops at the first round that raises: the rounds after it
    are not run, and the state is the one the failing round left. *)
Lemma for_each_raise {A} (body : A → M unit) (xs ys : list A) x st st1 e st2 :
  for_each body xs st = Ok tt st1 →
  body x st1 = Raise e st2 →
  for_each body (xs ++ x :: ys) st = Raise e st2.
Proof.
  intros Hxs Hx. rewrite (for_each_app _ _ _ _ _ Hxs). simpl.
  by rewrite (bind_Raise _ _ _ _ _ Hx).
Qed.

(** *** Declarations without a model *)

(** What the nested-options step does, whatever the model. *)
Lemma InjectAnyAsBaseForNestedMeta_run_spec st :
  InjectAnyAsBaseForNestedMeta_run st
  = Ok tt (set_info_names (alter set_fallback_to_any "Meta") st).
Proof.
  unfold InjectAnyAsBaseForNestedMeta_run, bind, get_state,
    get_nested_meta_node_for_current_class.
  destruct st as [nm mods msgs d]; simpl.
  assert (Hid : ∀ sym, nm !! "Meta" = Some sym → set_fallback_to_any sym = sym →
                alter set_fallback_to_any "Meta" nm = nm).
  { intros sym Hs Hf. apply map_eq. intros k. rewrite lookup_alter.
    case_decide; [subst; rewrite Hs; simpl; by rewrite Hf|done]. }
  destruct (nm !! "Meta") as [[k [[v|f|ti|l]|] pg]|] eqn:E; simpl;
    unfold ret, modify, set_info_names; simpl; try done;
    try (by erewrite Hid; [| done | done]).
  f_equal. f_equal. symmetry. apply map_eq. intros k. rewrite lookup_alter.
  case_decide; [subst; by rewrite E|done].
Qed.

(** C5 (as amended): every step other than the nested-options step leaves
    the whole state untouched, and returns, when the declaration is not
    backed by a model class; the nested-options step does not look at the
    model and marks a nested [Meta] class all the same. *)
Theorem run_without_model_is_noop (initializer_cls : Initializer) (st : State) :
  get_model_class_by_fullname django_context (cls_fullname ctx) = None →
  (initializer_cls ≠ InjectAnyAsBaseForNestedMeta →
   initializer_run initializer_cls st = Ok tt st) ∧
  initializer_run InjectAnyAsBaseForNestedMeta st
  = Ok tt (set_info_names (alter set_fallback_to_any "Meta") st).
Proof.
  intros Hnone. split.
  - intros Hne. destruct initializer_cls; try done;
      simpl; unfold run; by rewrite Hnone.
  - apply InjectAnyAsBaseForNestedMeta_run_spec.
Qed.


(** *** The default primary key *)

(** C6: with an automatic identity field whose attribute name is not a
    readable member, and once the field's class is known, the step binds
    that name to the field's type instantiated with the oracle's
    (set, get) pair at nullability false, and changes nothing else; with
    no automatic field, or a readable member, the step changes nothing. *)
Theorem default_primary_key_synthesis (model_cls : ModelCls) (st : State) :
  get_model_class_by_fullname django_context (cls_fullname ctx) = Some model_cls →
  (∀ field auto_field_info,
     auto_field model_cls = Some field →
     has_readable_member st (attname field) = false →
     modules st !! field_class_fullname field = Some auto_field_info →
     initializer_run AddDefaultPrimaryKey st
     = Ok tt (set_info_names
                <[attname field :=
                    new_sym (attname field)
                      (Instance (fullname auto_field_info)
                         [ (get_field_descriptor_types auto_field_info false).1;
                           (get_field_descriptor_types auto_field_info false).2 ])]>
                st)) ∧
  ((auto_field model_cls = None ∨
    ∃ field, auto_field model_cls = Some field ∧
                  has_readable_member st (attname field) = true) →
   initializer_run AddDefaultPrimaryKey st = Ok tt st).
Proof.
  intros Hm. simpl. unfold run. rewrite Hm.
  unfold AddDefaultPrimaryKey_run_with_model_cls, bind, get_state. split.
  - intros f info -> -> Hl. simpl.
    unfold lookup_typeinfo_or_incomplete_defn_error, lookup_typeinfo, bind.
    rewrite Hl. unfold ret.
    by destruct (get_field_descriptor_types info false).
  - intros [-> | (f & -> & ->)]; done.
Qed.

(** *** Reverse relations *)

(** C7 (as amended): a relation without an accessor name adds nothing;
    with an accessor name and a related model whose class is known, a
    one-to-one relation binds the accessor to the related model's type; a
    many-to-one or many-to-many relation binds it to the related-manager
    type instantiated with the related model's type when the
    related-manager type is known, and binds nothing when it is not: the
    loop body then raises the unresolved-dependency exception before the
    final pass, and passes the relation over on the final pass. *)
Theorem related_manager_kind_dispatch (relation : Relation) (st : State) :
  (get_accessor_name relation = None →
   AddRelatedManagers_relation relation st = Ok tt st) ∧
  (∀ accessor related_model_cls related_model_info,
     get_accessor_name relation = Some accessor →
     get_relation_related_model_cls django_context relation = Some related_model_cls →
     modules st !! related_fullname related_model_cls = Some related_model_info →
     (relation_class relation = OneToOneRel →
      AddRelatedManagers_relation relation st
      = Ok tt (set_info_names
                 <[accessor := new_sym accessor
                                (Instance (fullname related_model_info) [])]> st)) ∧
     (relation_class relation = ManyToOneRel ∨
      relation_class relation = ManyToManyRel →
      ∀ manager_info,
        modules st !! RELATED_MANAGER_CLASS = Some manager_info →
        AddRelatedManagers_relation relation st
        = Ok tt (set_info_names
                   <[accessor := new_sym accessor
                                  (Instance (fullname manager_info)
                                     [Instance (fullname related_model_info) []])]>
                   st)) ∧
     (relation_class relation = ManyToOneRel ∨
      relation_class relation = ManyToManyRel →
      modules st !! RELATED_MANAGER_CLASS = None →
      AddRelatedManagers_relation relation st
      = if final_iteration ctx then Ok tt st
        else Raise IncompleteDefnException st)).
Proof.
  unfold AddRelatedManagers_relation. split.
  - by intros ->.
  - intros a rm info -> -> Hl.
    unfold try_except, bind, lookup_class_typeinfo_or_incomplete_defn_error,
      lookup_typeinfo_or_incomplete_defn_error, lookup_typeinfo, bind.
    rewrite Hl. unfold ret. simpl. split; [|split].
    + unfold isinstance_OneToOneRel. by intros ->.
    + unfold isinstance_OneToOneRel, isinstance_ManyToOneRel_ManyToManyRel.
      intros [-> | ->] minfo Hm; simpl; by rewrite Hm.
    + unfold isinstance_OneToOneRel, isinstance_ManyToOneRel_ManyToManyRel.
      intros [-> | ->] Hm; simpl; rewrite Hm; unfold raise;
        by destruct (final_iteration ctx).
Qed.


(** *** Choice accessors *)

Lemma append_length (s t : string) :
  String.length (s +:+ t) = String.length s + String.length t.
Proof.
  induction s as [|c s IH]; [done|].
  change (String c s +:+ t) with (String c (s +:+ t)). simpl. by rewrite IH.
Qed.

Lemma append_inj_r (s1 s2 t : string) : s1 +:+ t = s2 +:+ t → s1 = s2.
Proof.
  revert s2. induction s1 as [|c s1 IH]; intros [|d s2] H; [done| | |].
  - apply (f_equal String.length) in H. rewrite !append_length in H.
    simpl in H. exfalso. lia.
  - apply (f_equal String.length) in H. rewrite !append_length in H.
    simpl in H. exfalso. lia.
  - change (String c (s1 +:+ t) = String d (s2 +:+ t)) in H.
    injection H as -> H. f_equal. by apply IH.
Qed.

Lemma display_method_name_inj (f g : Field) :
  display_method_name f = display_method_name g → attname f = attname g.
Proof.
  unfold display_method_name. intros H.
  apply (inj (String.app "get_")) in H. by apply append_inj_r in H.
Qed.

Lemma AddExtraFieldMethods_display_spec (field : Field) (st : State) info :
  modules st !! "builtins.str" = Some info →
  AddExtraFieldMethods_display field st
  = Ok tt (if bool_decide (choices field = []) then st
           else set_info_names
                  <[display_method_name field :=
                      new_method (display_method_name field) []
                        (Instance (fullname info) [])]> st).
Proof.
  intros Hl. unfold AddExtraFieldMethods_display.
  destruct (choices field); [done|].
  unfold bind, lookup_typeinfo_or_incomplete_defn_error, lookup_typeinfo, bind.
  by rewrite Hl.
Qed.

(** The first loop of the step, as a whole: it returns, touches the
    symbol table only, binds the accessor name of every field with
    choices, and leaves every other name as it was. *)
Lemma display_loop_spec (fields : list Field) (st : State) info :
  modules st !! "builtins.str" = Some info →
  ∃ names',
    for_each AddExtraFieldMethods_display fields st
    = Ok tt (set_info_names (λ _, names') st) ∧
    (∀ field, field ∈ fields → choices field ≠ [] →
       names' !! display_method_name field
       = Some (new_method (display_method_name field) []
                 (Instance (fullname info) []))) ∧
    (∀ name, (∀ field, field ∈ fields → choices field ≠ [] →
                display_method_name field ≠ name) →
       names' !! name = info_names st !! name).
Proof.
  intros Hl. induction fields as [|f fields IH] using rev_ind.
  - exists (info_names st). split; [by destruct st|]. split; [|done].
    intros field Hin. by apply elem_of_nil in Hin.
  - destruct IH as (nm & Hrun & Hsome & Hother).
    rewrite (for_each_app _ _ _ _ _ Hrun). simpl. unfold bind.
    rewrite (AddExtraFieldMethods_display_spec f _ info); [|done].
    unfold ret. case_bool_decide as Hc.
    + exists nm. split; [done|]. split.
      * intros field Hin Hne. apply elem_of_app in Hin as [Hin|Hin]; [by apply Hsome|].
        apply list_elem_of_singleton in Hin. by subst.
      * intros name Hn. apply Hother. intros field Hin. apply Hn.
        apply elem_of_app. by left.
    + eexists. split; [reflexivity|]. simpl. split.
      * intros field Hin Hne.
        destruct (decide (display_method_name f = display_method_name field)) as [He|He].
        -- rewrite He. by rewrite lookup_insert_eq.
        -- rewrite lookup_insert_ne; [|done].
           apply elem_of_app in Hin as [Hin|Hin]; [by apply Hsome|].
           apply list_elem_of_singleton in Hin. by subst.
      * intros name Hn. rewrite lookup_insert_ne.
        -- apply Hother. intros field Hin. apply Hn. apply elem_of_app. by left.
        -- apply Hn; [|done]. apply elem_of_app. right. by apply list_elem_of_singleton.
Qed.

Lemma date_method_names_snoc (fields : list Field) (field : Field) :
  date_method_names (fields ++ [field])
  = date_method_names fields ++
    (if isinstance_DateField_DateTimeField field && negb (null field)
     then ["get_next_by_" +:+ attname field; "get_previous_by_" +:+ attname field]
     else []).
Proof.
  unfold date_method_names. rewrite flat_map_app. simpl. by rewrite app_nil_r.
Qed.

(** The second loop of the step always returns, touches the symbol table
    only, and leaves every name that is not the name of a date method as
    it was. *)
Lemma date_loop_frame (fields : list Field) (st : State) :
  ∃ names',
    for_each AddExtraFieldMethods_date fields st
    = Ok tt (set_info_names (λ _, names') st) ∧
    ∀ name, name ∉ date_method_names fields →
      names' !! name = info_names st !! name.
Proof.
  induction fields as [|field fields IH] using rev_ind.
  - exists (info_names st). split; [by destruct st|done].
  - destruct IH as (nm & Hrun & Hnm).
    rewrite (for_each_app _ _ _ _ _ Hrun). simpl. unfold bind.
    rewrite date_method_names_snoc. unfold AddExtraFieldMethods_date.
    destruct (isinstance_DateField_DateTimeField field && negb (null field)).
    + eexists. split; [reflexivity|]. simpl. intros name Hname.
      rewrite elem_of_app, !elem_of_cons in Hname.
      rewrite !lookup_insert_ne; [apply Hnm|..]; intros H; apply Hname;
        first [by left|right; subst; auto].
    + exists nm. split; [done|]. intros name Hname. apply Hnm.
      by rewrite app_nil_r in Hname.
Qed.

(** C8 (as amended): for a declaration backed by a model, once
    [builtins.str] is known, the step returns and gives every field with
    a non-empty choice set, whose accessor name is not also the name of a
    date method of the model, a method [get_<attname>_display] without
    arguments that returns [str]; for a field without choices, whose
    attribute name no field with choices shares and whose accessor name
    is not the name of a date method either, the name
    [get_<attname>_display] is left as it was. *)
Theorem choice_accessor_synthesis (model_cls : ModelCls) (st : State) info :
  get_model_class_by_fullname django_context (cls_fullname ctx) = Some model_cls →
  modules st !! "builtins.str" = Some info →
  ∃ st',
    initializer_run AddExtraFieldMethods st = Ok tt st' ∧
    (∀ field, field ∈ get_model_fields django_context model_cls →
       choices field ≠ [] →
       display_method_name field
         ∉ date_method_names (get_model_fields django_context model_cls) →
       info_names st' !! display_method_name field
       = Some (new_method (display_method_name field) []
                 (Instance (fullname info) []))) ∧
    (∀ field, field ∈ get_model_fields django_context model_cls →
       choices field = [] →
       (∀ other, other ∈ get_model_fields django_context model_cls →
          choices other ≠ [] → attname other ≠ attname field) →
       display_method_name field
         ∉ date_method_names (get_model_fields django_context model_cls) →
       info_names st' !! display_method_name field
       = info_names st !! display_method_name field).
Proof.
  intros Hmodel Hl. simpl. unfold run. rewrite Hmodel.
  unfold AddExtraFieldMethods_run_with_model_cls.
  destruct (display_loop_spec (get_model_fields django_context model_cls) st info Hl)
    as (nm & Hrun & Hsome & Hother).
  destruct (date_loop_frame (get_model_fields django_context model_cls)
              (set_info_names (λ _, nm) st)) as (nm' & Hrun' & Hframe).
  eexists. split; [by rewrite (bind_Ok _ _ _ _ _ Hrun)|]. simpl. split.
  - intros field Hin Hne Hdate. rewrite (Hframe _ Hdate). by apply Hsome.
  - intros field _ _ Hdistinct Hdate. rewrite (Hframe _ Hdate). apply Hother.
    intros other Hin Hne Heq.
    apply (Hdistinct other Hin Hne). by apply display_method_name_inj.
Qed.


(** *** Foreign keys to a model that does not exist *)

(** C2 (as amended): for a foreign key whose related model is not found,
    the loop body returns (it raises nothing), reports exactly one
    diagnostic, and binds the field's attname to [Any]; the diagnostic is
    placed at the node of the field's symbol when the class (through its
    MRO) has such a symbol with a node, and at the class definition
    otherwise. *)
Theorem related_model_not_found (field : Field) (st : State) :
  isinstance_ForeignKey field = true →
  get_field_related_model_cls django_context field = None →
  AddRelatedModelsId_field field st
  = Ok tt (set_info_names
             <[attname field := new_sym (attname field) (AnyType explicit)]>
             (add_message (cannot_find_model field)
                          (field_error_context st field) st)) ∧
  (∀ field_sym field_sym_node,
     info_get st (field_name field) = Some field_sym →
     node field_sym = Some field_sym_node →
     field_error_context st field = CtxNode field_sym_node) ∧
  ((info_get st (field_name field) = None ∨
    ∃ field_sym, info_get st (field_name field) = Some field_sym ∧
                 node field_sym = None) →
   field_error_context st field = CtxClassDef (cls_fullname ctx)).
Proof.
  intros Hfk Hrel. unfold AddRelatedModelsId_field. rewrite Hfk, Hrel.
  split; [done|]. unfold field_error_context. split.
  - intros [k n pg] nd -> Hn. simpl in Hn. by subst.
  - intros [-> | ([k n pg] & -> & Hn)]; [done|]. simpl in Hn. by subst.
Qed.

(** On the final pass a round of the foreign keys loop always returns;
    it reports one diagnostic for a missing related model and none
    otherwise. *)
Lemma AddRelatedModelsId_field_on_final_pass (field : Field) (st : State) :
  final_iteration ctx = true →
  ∃ st', AddRelatedModelsId_field field st = Ok tt st' ∧
         modules st' = modules st ∧
         length (messages st')
         = length (messages st) + (if related_model_missing field then 1 else 0).
Proof.
  intros Hf. unfold AddRelatedModelsId_field, related_model_missing.
  destruct (isinstance_ForeignKey field); simpl; [|exists st; split_and!; [done..|lia]].
  destruct (get_field_related_model_cls django_context field) as [rm|].
  - destruct (related_abstract rm); [exists st; split_and!; [done..|lia]|].
    unfold bind, try_except, bind, lookup_class_typeinfo_or_incomplete_defn_error,
      lookup_typeinfo_or_incomplete_defn_error, lookup_typeinfo, bind.
    destruct (modules st !! _) as [info|]; simpl.
    + destruct (get_field_descriptor_types info _).
      eexists. split; [reflexivity|]. simpl. split; [done|lia].
    + rewrite Hf. simpl. exists st. split_and!; [done..|lia].
  - eexists. split; [reflexivity|]. simpl. split; [done|].
    by rewrite length_app.
Qed.

(** X21: On the final pass the whole foreign keys step (lines 105-136)
    returns, and reports exactly as many diagnostics as the model has
    foreign keys to a missing model. *)
Lemma foreign_keys_step_on_final_pass (fields : list Field) (st : State) :
  final_iteration ctx = true →
  ∃ st', for_each AddRelatedModelsId_field fields st = Ok tt st' ∧
         modules st' = modules st ∧
         length (messages st')
         = length (messages st) + length (filter related_model_missing fields).
Proof.
  intros Hf. revert st. induction fields as [|field fields IH]; intros st.
  - exists st. split_and!; [done..|simpl; lia].
  - destruct (AddRelatedModelsId_field_on_final_pass field st Hf)
      as (st1 & Hrun1 & Hm1 & Hl1).
    destruct (IH st1) as (st2 & Hrun2 & Hm2 & Hl2).
    exists st2. split; [|split].
    + simpl. unfold bind. by rewrite Hrun1.
    + congruence.
    + rewrite Hl2, Hl1, filter_cons.
      case_decide as Hd; destruct (related_model_missing field);
        simpl in *; try done; lia.
Qed.

(** *** Managers whose type is not known *)

Lemma get_generated_manager_mappings_total base_manager_fullname st :
  ∃ generated_managers,
    get_generated_manager_mappings base_manager_fullname st
    = Ok generated_managers st.
Proof.
  unfold get_generated_manager_mappings, bind, lookup_typeinfo.
  destruct (modules st !! base_manager_fullname) as [info|]; [|by eexists].
  destruct (from_queryset_managers info); by eexists.
Qed.

(** Before the final pass an unknown manager type is not looked up any
    other way: the exception is raised again. *)
Lemma unresolved_manager_before_final_pass (manager : Manager) (st : State) :
  final_iteration ctx = false →
  modules st !! manager_class_fullname manager = None →
  resolve_manager manager st = Raise IncompleteDefnException st.
Proof.
  intros Hf Hl. unfold resolve_manager, try_except, bind,
    lookup_typeinfo_or_incomplete_defn_error, lookup_typeinfo, bind.
  by rewrite Hl, Hf.
Qed.

(** C9 (as amended): on the final pass, for a manager whose type is not
    known, the step consults the generated-name to real-name mapping kept
    on the manager's first base class: when the mapping has the manager
    and the real name is known, the manager is resolved to it; when the
    mapping lacks the manager, or the real name is unknown too, the
    manager is skipped: the whole state, diagnostics included, stays as
    it was. *)
Theorem unresolved_manager_on_final_pass (manager_name : string)
    (manager : Manager) (st : State) (generated_managers : gmap string string) :
  final_iteration ctx = true →
  modules st !! manager_class_fullname manager = None →
  get_generated_manager_mappings (manager_first_base_fullname manager) st
  = Ok generated_managers st →
  (∀ real_manager_fullname manager_info manager_class_name,
     generated_managers !! manager_class_fullname manager
     = Some real_manager_fullname →
     modules st !! real_manager_fullname = Some manager_info →
     rsplit_dot_1 real_manager_fullname = Some manager_class_name →
     resolve_manager manager st = Ok (Some (manager_info, manager_class_name)) st) ∧
  ((generated_managers !! manager_class_fullname manager = None ∨
    ∃ real_manager_fullname,
      generated_managers !! manager_class_fullname manager
      = Some real_manager_fullname ∧
      modules st !! real_manager_fullname = None) →
   AddManagers_manager (manager_name, manager) st = Ok tt st).
Proof.
  intros Hf Hl Hg.
  assert (Hres : resolve_manager manager st
    = match generated_managers !! manager_class_fullname manager with
      | None => Ok None st
      | Some real =>
          match modules st !! real with
          | None => Ok None st
          | Some info =>
              match rsplit_dot_1 real with
              | None => Raise IndexError st
              | Some n => Ok (Some (info, n)) st
              end
          end
      end).
  { unfold resolve_manager, try_except.
    unfold bind at 1. unfold lookup_typeinfo_or_incomplete_defn_error at 1.
    unfold bind at 1. unfold lookup_typeinfo at 1. rewrite Hl. simpl.
    unfold raise. rewrite Hf. simpl. unfold bind at 1. rewrite Hg.
    destruct (generated_managers !! manager_class_fullname manager) as [real|];
      [|done].
    unfold bind, lookup_typeinfo. destruct (modules st !! real) as [info|]; [|done].
    by destruct (rsplit_dot_1 real). }
  split.
  - intros real info n Hr Hi Hn. by rewrite Hres, Hr, Hi, Hn.
  - intros Hskip. unfold AddManagers_manager, bind. rewrite Hres.
    destruct Hskip as [-> | (real & -> & ->)]; done.
Qed.

(** *** The controller *)

Lemma process_initializer_raise (initializer_cls : Initializer) st st' :
  initializer_run initializer_cls st = Raise IncompleteDefnException st' →
  process_initializer initializer_cls st
  = Ok tt (if final_iteration ctx then st' else set_deferred st').
Proof.
  intros H. unfold process_initializer, try_except. rewrite H.
  by destruct (final_iteration ctx).
Qed.

Lemma process_initializer_Ok (initializer_cls : Initializer) st st' :
  initializer_run initializer_cls st = Ok tt st' →
  process_initializer initializer_cls st = Ok tt st'.
Proof. intros H. unfold process_initializer, try_except. by rewrite H. Qed.

(** C1 (as amended): when a step raises the unresolved-dependency
    exception, the controller goes on with the steps after it, from the
    state the failing step had reached when it raised (what the step
    wrote before failing is kept); before the final pass it first asks for
    another pass, on the final pass it asks for nothing; either way it
    reports no diagnostic. *)
Theorem controller_on_unresolved_dependency (before after : list Initializer)
    (initializer_cls : Initializer) (st st1 st2 : State) :
  initializers = before ++ initializer_cls :: after →
  process_initializers before st = Ok tt st1 →
  initializer_run initializer_cls st1 = Raise IncompleteDefnException st2 →
  ∃ st3,
    process_model_class st = process_initializers after st3 ∧
    info_names st3 = info_names st2 ∧
    modules st3 = modules st2 ∧
    messages st3 = messages st2 ∧
    deferred st3 = (if final_iteration ctx then deferred st2 else true).
Proof.
  intros Hsplit Hbefore Hraise.
  exists (if final_iteration ctx then st2 else set_deferred st2).
  split.
  - unfold process_model_class, process_initializers. rewrite Hsplit.
    rewrite (for_each_app _ _ _ _ _ Hbefore). simpl. unfold bind.
    by rewrite (process_initializer_raise _ _ _ Hraise).
  - by destruct (final_iteration ctx).
Qed.


(** *** A step that raises part-way through its loop *)

(** C10: before the final pass, when the round for one foreign key, one
    manager or one reverse relation cannot resolve the type it needs, the
    step stops there: the controller catches the exception outside the
    step, asks for another pass, and the state is the one reached after
    the rounds before the failing one; the items after it are not
    processed, whatever they are. *)
Theorem rest_of_step_not_processed (model_cls : ModelCls) (st st1 : State) :
  final_iteration ctx = false →
  get_model_class_by_fullname django_context (cls_fullname ctx) = Some model_cls →
  (∀ before field after related_model_cls,
     get_fields model_cls = before ++ field :: after →
     for_each AddRelatedModelsId_field before st = Ok tt st1 →
     isinstance_ForeignKey field = true →
     get_field_related_model_cls django_context field = Some related_model_cls →
     related_abstract related_model_cls = false →
     modules st1 !! field_class_fullname
                      (get_primary_key_field django_context related_model_cls) = None →
     process_initializer AddRelatedModelsId st = Ok tt (set_deferred st1)) ∧
  (∀ before manager_name manager after,
     managers_map model_cls = before ++ (manager_name, manager) :: after →
     for_each AddManagers_manager before st = Ok tt st1 →
     modules st1 !! manager_class_fullname manager = None →
     process_initializer AddManagers st = Ok tt (set_deferred st1)) ∧
  (∀ before relation after accessor related_model_cls,
     get_model_relations django_context model_cls = before ++ relation :: after →
     for_each AddRelatedManagers_relation before st = Ok tt st1 →
     get_accessor_name relation = Some accessor →
     get_relation_related_model_cls django_context relation = Some related_model_cls →
     modules st1 !! related_fullname related_model_cls = None →
     process_initializer AddRelatedManagers st = Ok tt (set_deferred st1)) ∧
  (∀ before relation after accessor related_model_cls related_model_info,
     get_model_relations django_context model_cls = before ++ relation :: after →
     for_each AddRelatedManagers_relation before st = Ok tt st1 →
     get_accessor_name relation = Some accessor →
     get_relation_related_model_cls django_context relation = Some related_model_cls →
     modules st1 !! related_fullname related_model_cls = Some related_model_info →
     relation_class relation = ManyToOneRel ∨
     relation_class relation = ManyToManyRel →
     modules st1 !! RELATED_MANAGER_CLASS = None →
     process_initializer AddRelatedManagers st = Ok tt (set_deferred st1)).
Proof.
  intros Hf Hm.
  assert (Hctl : ∀ i, initializer_run i st = Raise IncompleteDefnException st1 →
                      process_initializer i st = Ok tt (set_deferred st1)).
  { intros i Hi. rewrite (process_initializer_raise _ _ _ Hi). by rewrite Hf. }
  split; [|split; [|split]].
  - intros before field after rm Hsplit Hbefore Hfk Hrel Habs Hl.
    apply Hctl. simpl. unfold run. rewrite Hm.
    unfold AddRelatedModelsId_run_with_model_cls. rewrite Hsplit.
    apply (for_each_raise _ _ _ _ _ _ _ _ Hbefore).
    unfold AddRelatedModelsId_field. rewrite Hfk, Hrel, Habs.
    unfold bind, try_except, bind, lookup_class_typeinfo_or_incomplete_defn_error,
      lookup_typeinfo_or_incomplete_defn_error, lookup_typeinfo, bind.
    by rewrite Hl, Hf.
  - intros before manager_name manager after Hsplit Hbefore Hl.
    apply Hctl. simpl. unfold run. rewrite Hm.
    unfold AddManagers_run_with_model_cls. rewrite Hsplit.
    apply (for_each_raise _ _ _ _ _ _ _ _ Hbefore).
    unfold AddManagers_manager.
    by rewrite (bind_Raise _ _ _ _ _ (unresolved_manager_before_final_pass _ _ Hf Hl)).
  - intros before relation after accessor rm Hsplit Hbefore Hacc Hrel Hl.
    apply Hctl. simpl. unfold run. rewrite Hm.
    unfold AddRelatedManagers_run_with_model_cls. rewrite Hsplit.
    apply (for_each_raise _ _ _ _ _ _ _ _ Hbefore).
    unfold AddRelatedManagers_relation. rewrite Hacc, Hrel.
    unfold bind, try_except, bind, lookup_class_typeinfo_or_incomplete_defn_error,
      lookup_typeinfo_or_incomplete_defn_error, lookup_typeinfo, bind.
    by rewrite Hl, Hf.
  - intros before relation after accessor rm info Hsplit Hbefore Hacc Hrel Hl Hkind Hm'.
    apply Hctl. simpl. unfold run. rewrite Hm.
    unfold AddRelatedManagers_run_with_model_cls. rewrite Hsplit.
    apply (for_each_raise _ _ _ _ _ _ _ _ Hbefore).
    unfold AddRelatedManagers_relation. rewrite Hacc, Hrel.
    unfold bind, try_except, bind, lookup_class_typeinfo_or_incomplete_defn_error,
      lookup_typeinfo_or_incomplete_defn_error, lookup_typeinfo, bind.
    rewrite Hl. simpl.
    unfold isinstance_OneToOneRel, isinstance_ManyToOneRel_ManyToManyRel.
    destruct Hkind as [-> | ->]; by rewrite Hm', Hf.
Qed.

(** *** Forging a manager type for the model *)

Lemma copy_members_dom custom_manager_fullname custom_manager_type
    (template_names : SymbolTable) :
  dom (copy_members custom_manager_fullname custom_manager_type template_names)
  = dom template_names.
Proof.
  unfold copy_members.
  apply (map_fold_weak_ind (λ r (m : SymbolTable), dom r = dom m)).
  - by rewrite !dom_empty_L.
  - intros i x m r _ IH. by rewrite !dom_insert_L, IH.
Qed.

Lemma reparametrize_bases_spec (original_bases bases' : list Bases) :
  reparametrize_bases original_bases = inr bases' →
  Forall2 specialized_base original_bases bases'.
Proof.
  revert bases'. induction original_bases as [|[fn args sub] rest IH];
    intros bases' H; simpl in H.
  - injection H as <-. constructor.
  - destruct (is_any_parametrized_manager fn args) as [e|b] eqn:E; [done|].
    destruct (reparametrize_bases rest) as [e|bs]; [done|].
    injection H as <-. constructor; [|by apply IH].
    unfold specialized_base. rewrite E. destruct b; [by left|by right].
Qed.

(** C4 (as amended): for a manager whose name is already a symbol of the
    declaration and whose type has an [Any]-parametrized manager class
    among its transitive bases, the round forges a new type named
    [<Model>_<ManagerClassName>] in the module of the declaration and
    binds the manager's name to it, instantiated with the model; each
    direct base of the template that is an [Any]-parametrized manager
    class is specialized to the model, the other bases are kept; and the
    forged type has exactly the member names of the template. *)
Theorem manager_specialization (manager_name : string) (manager : Manager)
    (st : State) (manager_info : TypeInfo) (manager_class_name : string)
    (bases' : list Bases) :
  resolve_manager manager st = Ok (Some (manager_info, manager_class_name)) st →
  is_Some (info_names st !! manager_name) →
  has_any_parametrized_manager_as_base manager_info = inr true →
  reparametrize_bases (bases manager_info) = inr bases' →
  let custom_manager_fullname :=
    cls_module_name ctx +:+ "." +:+
    (manager_model_name manager +:+ "_" +:+ manager_class_name) in
  let custom_manager_type :=
    Instance custom_manager_fullname [Instance (cls_fullname ctx) []] in
  ∃ custom_manager_info,
    AddManagers_manager (manager_name, manager) st
    = Ok tt (set_info_names
               <[manager_name := new_sym manager_name custom_manager_type]>
               (set_modules <[custom_manager_fullname := custom_manager_info]> st)) ∧
    fullname custom_manager_info = custom_manager_fullname ∧
    bases custom_manager_info = bases' ∧
    Forall2 specialized_base (bases manager_info) (bases custom_manager_info) ∧
    dom (names custom_manager_info) = dom (names manager_info).
Proof.
  intros Hres [sym Hsym] Hany Hbases. simpl.
  eexists {| fullname := _; bases := bases'; names := _;
             from_queryset_managers := None |}.
  split; [|split; [reflexivity|split; [reflexivity|split]]].
  - unfold AddManagers_manager. rewrite (bind_Ok _ _ _ _ _ Hres).
    unfold bind at 1. unfold get_state. rewrite Hsym.
    rewrite bool_decide_eq_false_2; [|done].
    unfold bind at 1. unfold lift at 1. rewrite Hany. simpl.
    unfold bind at 1. unfold try_except, create_new_model_parametrized_manager.
    unfold bind at 1. unfold bind at 1. unfold lift. rewrite Hbases.
    unfold bind, add_new_class_for_module, bind, modify, ret,
      add_new_node_to_model_class, add_new_sym_for_info, modify,
      set_modules, set_info_names. simpl.
    rewrite insert_insert_eq. reflexivity.
  - simpl. by apply reparametrize_bases_spec.
  - simpl. apply copy_members_dom.
Qed.


(** *** Running the pipeline twice *)

Lemma set_fallback_to_any_idemp sym :
  set_fallback_to_any (set_fallback_to_any sym) = set_fallback_to_any sym.
Proof. by destruct sym as [k [[v|f|ti|l]|] pg]. Qed.

Lemma lookup_apply_write w (names : SymbolTable) k :
  apply_write w names !! k = key_write w k (names !! k).
Proof.
  destruct w as [name sym|name sym|]; simpl.
  - rewrite lookup_insert. by repeat case_decide.
  - destruct (names !! name) eqn:E.
    + case_decide; [subst; by rewrite E|done].
    + rewrite lookup_insert. case_decide; [subst; by rewrite E|done].
  - rewrite lookup_alter. case_decide; [by subst|done].
Qed.

Lemma lookup_apply_writes ws (names : SymbolTable) k :
  apply_writes ws names !! k = key_writes ws k (names !! k).
Proof.
  revert names. induction ws as [|w ws IH]; intros names; [done|].
  simpl. unfold apply_writes, key_writes in *. simpl.
  by rewrite IH, lookup_apply_write.
Qed.

Lemma entry_effect_id : entry_effect (λ x, x).
Proof. split; eauto; done. Qed.

Lemma entry_effect_step F w k :
  entry_effect F → write_ok w → entry_effect (λ x, key_write w k (F x)).
Proof.
  intros [Hb Hf Hu Hm] Hok.
  destruct w as [name sym|name sym|]; simpl in *;
    (case_decide as Hk; [|by split]).
  - split; simpl.
    + eauto.
    + by intros x s [= <-].
    + done.
    + intros s. simpl. by rewrite Hok.
  - split; simpl.
    + intros s. destruct (Hb s) as [s' ->]. eauto.
    + intros x s. destruct (F x) as [s'|] eqn:E.
      * intros [= <-]. by rewrite (Hf _ _ E).
      * intros [= <-]. by rewrite (Hu _ E _ Hok).
    + intros x. by destruct (F x).
    + intros s. rewrite Hm. by destruct (Hb s) as [s' ->].
  - split; simpl.
    + intros s. destruct (Hb s) as [s' ->]. simpl. eauto.
    + intros x s. destruct (F x) as [s'|] eqn:E; [|done]. simpl.
      intros [= <-]. rewrite Hm, (Hf _ _ E). simpl.
      by rewrite set_fallback_to_any_idemp.
    + intros x. destruct (F x) as [s'|] eqn:E; [done|]. intros _ s Hs.
      rewrite (Hu _ E _ Hs). simpl. by rewrite Hs.
    + intros s. rewrite Hm. by destruct (F (Some s)).
Qed.

Lemma entry_effect_ext F G :
  (∀ x, F x = G x) → entry_effect F → entry_effect G.
Proof.
  intros Heq [Hb Hf Hu Hm]. split.
  - intros s. rewrite <-Heq. apply Hb.
  - intros x s. rewrite <-!Heq. apply Hf.
  - intros x. rewrite <-Heq. intros Hx s Hs. rewrite <-Heq. by apply (Hu x).
  - intros s. rewrite <-!Heq. apply Hm.
Qed.

Lemma key_writes_effect ws k :
  Forall write_ok ws → entry_effect (key_writes ws k).
Proof.
  induction ws as [|w ws IH] using rev_ind; intros Hok.
  - apply entry_effect_id.
  - apply Forall_app in Hok as [Hws Hw]. rewrite Forall_singleton in Hw.
    apply (entry_effect_ext (λ x, key_write w k (key_writes ws k x))).
    + intros x. unfold key_writes. by rewrite foldl_snoc.
    + apply entry_effect_step; [by apply IH|done].
Qed.

(** A sequence of writes applied a second time changes nothing. *)
Lemma apply_writes_idemp ws (names : SymbolTable) :
  Forall write_ok ws →
  apply_writes ws (apply_writes ws names) = apply_writes ws names.
Proof.
  intros Hok. apply map_eq. intros k. rewrite !lookup_apply_writes.
  destruct (key_writes_effect ws k Hok) as [Hb Hf Hu Hm].
  destruct (key_writes ws k (names !! k)) as [sym|] eqn:E.
  - by apply (Hf _ _ E).
  - destruct (names !! k) as [s|] eqn:En; [|done].
    destruct (Hb s) as [s' Hs]. congruence.
Qed.

Lemma apply_writes_app ws1 ws2 (names : SymbolTable) :
  apply_writes (ws1 ++ ws2) names = apply_writes ws2 (apply_writes ws1 names).
Proof. unfold apply_writes. by rewrite foldl_app. Qed.

Lemma resolve_manager_spec (manager : Manager) (st : State) :
  resolve_manager manager st
  = match resolve_manager_result (modules st) manager with
    | inl e => Raise e st
    | inr v => Ok v st
    end.
Proof.
  unfold resolve_manager, resolve_manager_result, try_except, bind,
    lookup_typeinfo_or_incomplete_defn_error, get_generated_manager_mappings,
    lookup_typeinfo, bind, ret, raise.
  destruct (modules st !! manager_class_fullname manager) as [info|]; [done|].
  destruct (final_iteration ctx); simpl; [|done].
  destruct (modules st !! manager_first_base_fullname manager) as [b|];
    [destruct (from_queryset_managers b) as [g|]|]; simpl.
  - destruct (g !! manager_class_fullname manager) as [real|]; [|done].
    destruct (modules st !! real); [|done]. by destruct (rsplit_dot_1 real).
  - by rewrite lookup_empty.
  - by rewrite lookup_empty.
Qed.

Lemma key_writes_app ws1 ws2 k x :
  key_writes (ws1 ++ ws2) k x = key_writes ws2 k (key_writes ws1 k x).
Proof. unfold key_writes. by rewrite foldl_app. Qed.

(** What a sequence of writes does to an entry, it does not do again. *)
Lemma key_writes_idemp ws k x :
  Forall write_ok ws →
  key_writes ws k (key_writes ws k x) = key_writes ws k x.
Proof.
  intros Hok. destruct (key_writes_effect ws k Hok) as [Hb Hf Hu Hm].
  destruct (key_writes ws k x) as [sym|] eqn:E.
  - by apply (Hf _ _ E).
  - destruct x as [s|]; [|done]. destruct (Hb s) as [s' Hs]. congruence.
Qed.

Lemma key_writes_is_Some ws k x : is_Some x → is_Some (key_writes ws k x).
Proof.
  unfold key_writes. revert x. induction ws as [|w ws IH]; intros x Hx; [done|].
  simpl. apply IH. destruct Hx as [s ->].
  destruct w; simpl; repeat case_decide; simpl; eauto.
Qed.

Section Settled.

Variable mods : gmap string TypeInfo.
Variable names0 : SymbolTable.

Lemma settled_eq st st' :
  modules st' = modules st →
  (∀ k, is_Some (info_names st !! k) → is_Some (info_names st' !! k)) →
  settled_state mods names0 st → settled_state mods names0 st'.
Proof.
  intros Hm Hn [Hlook Hdom]. split.
  - intros name Hname. rewrite Hm. by apply Hlook.
  - intros k Hk. by apply Hn, Hdom.
Qed.

Lemma settled_insert name sym st :
  settled_state mods names0 st →
  settled_state mods names0 (set_info_names <[name := sym]> st).
Proof.
  apply settled_eq; [done|]. intros k Hk. simpl.
  destruct (decide (name = k)) as [->|Hne].
  - rewrite lookup_insert_eq. eauto.
  - by rewrite lookup_insert_ne.
Qed.

(** Registering a type under a name that no step looks up. *)
Lemma settled_register name info st :
  name ∉ looked_up_names mods →
  settled_state mods names0 st →
  settled_state mods names0 (set_modules <[name := info]> st).
Proof.
  intros Hfresh [Hlook Hdom]. split; [|done].
  intros k Hk. simpl. rewrite lookup_insert_ne; [by apply Hlook|]. by intros ->.
Qed.

(** A computation that performs the writes [ws] and leaves the known
    types alone. *)
Lemma writes_plain m ws out :
  (∀ st, settled_state mods names0 st →
     ∃ st', m st = outcome out st' ∧
            info_names st' = apply_writes ws (info_names st) ∧
            modules st' = modules st) →
  writes mods names0 m ws out.
Proof.
  intros H st Hst. destruct (H st Hst) as (st' & Hrun & Hn & Hm).
  exists st'. split; [done|]. split.
  - intros k _. by rewrite Hn, lookup_apply_writes.
  - apply (settled_eq st); [done| |done]. intros k Hk.
    rewrite Hn, lookup_apply_writes. by apply key_writes_is_Some.
Qed.

Lemma steady_intro m ws out :
  Forall write_ok ws → writes mods names0 m ws out → steady mods names0 m.
Proof. intros. by exists ws, out. Qed.

Lemma steady_ret : steady mods names0 (ret tt).
Proof.
  apply (steady_intro _ [] None); [constructor|].
  apply writes_plain. intros st Hst. by exists st.
Qed.

Lemma steady_bind (m1 m2 : M unit) :
  steady mods names0 m1 → steady mods names0 m2 → steady mods names0 (m1 ;;; m2).
Proof.
  intros (ws1 & out1 & Hok1 & H1) (ws2 & out2 & Hok2 & H2).
  destruct out1 as [e|].
  - apply (steady_intro _ ws1 (Some e)); [done|]. intros st Hst.
    destruct (H1 st Hst) as (st1 & Hrun & Hn & Hs). exists st1.
    split; [|done]. unfold bind. by rewrite Hrun.
  - apply (steady_intro _ (ws1 ++ ws2) out2); [by apply Forall_app|].
    intros st Hst. destruct (H1 st Hst) as (st1 & Hrun1 & Hn1 & Hs1).
    destruct (H2 st1 Hs1) as (st2 & Hrun2 & Hn2 & Hs2). exists st2.
    split; [|split; [|done]].
    + unfold bind. by rewrite Hrun1.
    + intros k Hk. by rewrite key_writes_app, (Hn2 k Hk), (Hn1 k Hk).
Qed.

Lemma steady_for_each {A} (body : A → M unit) (xs : list A) :
  (∀ x, x ∈ xs → steady mods names0 (body x)) →
  steady mods names0 (for_each body xs).
Proof.
  induction xs as [|x xs IH]; intros Hbody; simpl.
  - apply steady_ret.
  - apply steady_bind.
    + apply Hbody, elem_of_cons. by left.
    + apply IH. intros y Hy. apply Hbody, elem_of_cons. by right.
Qed.

(** The controller's [try]: the unresolved-dependency exception ends
    there; asking for another pass writes no symbol. *)
Lemma steady_handled (m : M unit) :
  steady mods names0 m →
  steady mods names0
    (try_except m (if negb (final_iteration ctx) then defer else ret tt)).
Proof.
  intros (ws & out & Hok & H).
  apply (steady_intro _ ws
           (match out with Some IncompleteDefnException => None | _ => out end));
    [done|].
  intros st Hst. destruct (H st Hst) as (st1 & Hrun & Hn & Hs).
  unfold try_except. rewrite Hrun.
  destruct out as [[]|]; simpl; [|by exists st1..].
  destruct (final_iteration ctx); simpl; [by exists st1|].
  exists (set_deferred st1). split; [done|]. split; [done|].
  by apply (settled_eq st1).
Qed.

Lemma steady_run (run_with_model_cls : ModelCls → M unit) :
  (∀ model_cls,
     get_model_class_by_fullname django_context (cls_fullname ctx) = Some model_cls →
     steady mods names0 (run_with_model_cls model_cls)) →
  steady mods names0 (run run_with_model_cls).
Proof.
  intros H. unfold run.
  destruct (get_model_class_by_fullname django_context (cls_fullname ctx));
    [by apply H|apply steady_ret].
Qed.

(** mypy's [common.add_method], as it is taken here: a binding of the
    method's name, like [add_new_node_to_model_class]. *)
Lemma steady_add_method name args return_type :
  steady mods names0 (add_method name args return_type).
Proof.
  apply (steady_intro _ [WSet name (new_method name args return_type)] None);
    [by repeat constructor|].
  apply writes_plain. intros st Hst. eexists. split; [reflexivity|]. by split.
Qed.

(** A step of the shape [if name not in names: names[name] = sym], where
    [sym] needs a type that may be unknown: under the controller's [try]
    it fills the name, or does nothing. *)
Lemma steady_fill (m : M unit) name (sym : option SymbolTableNode) :
  (∀ s, sym = Some s → set_fallback_to_any s = s) →
  (∀ st, settled_state mods names0 st →
     m st = match info_names st !! name, sym with
            | Some _, _ => Ok tt st
            | None, Some s => Ok tt (set_info_names <[name := s]> st)
            | None, None => Raise IncompleteDefnException st
            end) →
  steady mods names0
    (try_except m (if negb (final_iteration ctx) then defer else ret tt)).
Proof.
  intros Hok Hm. destruct sym as [s|].
  - apply (steady_intro _ [WFill name s] None);
      [repeat constructor; by apply Hok|].
    apply writes_plain. intros st Hst. unfold try_except. rewrite (Hm st Hst). simpl.
    destruct (info_names st !! name) eqn:E; eexists; (split; [reflexivity|]);
      simpl; by rewrite ?E.
  - apply (steady_intro _ [] None); [constructor|].
    apply writes_plain. intros st Hst. unfold try_except. rewrite (Hm st Hst).
    destruct (info_names st !! name) eqn:E; [by exists st|].
    destruct (final_iteration ctx); simpl; [by exists st|].
    by exists (set_deferred st).
Qed.

(** The names that the steps look up. *)
Lemma looked_up_of_model model_cls name :
  get_model_class_by_fullname django_context (cls_fullname ctx) = Some model_cls →
  name ∈ model_looked_up_names mods model_cls →
  name ∈ looked_up_names mods.
Proof. intros Hmodel Hin. unfold looked_up_names. by rewrite Hmodel. Qed.

Lemma looked_up_options model_cls :
  get_model_class_by_fullname django_context (cls_fullname ctx) = Some model_cls →
  OPTIONS_CLASS_FULLNAME ∈ looked_up_names mods.
Proof.
  intros Hmodel. apply (looked_up_of_model model_cls); [done|].
  apply elem_of_cons. by left.
Qed.

Lemma looked_up_default model_cls :
  get_model_class_by_fullname django_context (cls_fullname ctx) = Some model_cls →
  default_manager_class_fullname model_cls ∈ looked_up_names mods.
Proof.
  intros Hmodel. apply (looked_up_of_model model_cls); [done|].
  apply elem_of_cons. right. apply elem_of_cons. by left.
Qed.

Lemma looked_up_auto model_cls field :
  get_model_class_by_fullname django_context (cls_fullname ctx) = Some model_cls →
  auto_field model_cls = Some field →
  field_class_fullname field ∈ looked_up_names mods.
Proof.
  intros Hmodel Ha. apply (looked_up_of_model model_cls); [done|].
  unfold model_looked_up_names. rewrite Ha.
  do 2 (apply elem_of_cons; right). apply elem_of_app. left.
  apply elem_of_cons. by left.
Qed.

Lemma looked_up_foreign_key model_cls field related_model_cls :
  get_model_class_by_fullname django_context (cls_fullname ctx) = Some model_cls →
  field ∈ get_fields model_cls →
  isinstance_ForeignKey field = true →
  get_field_related_model_cls django_context field = Some related_model_cls →
  related_abstract related_model_cls = false →
  field_class_fullname (get_primary_key_field django_context related_model_cls)
    ∈ looked_up_names mods.
Proof.
  intros Hmodel Hin Hfk Hr Ha. apply (looked_up_of_model model_cls); [done|].
  do 2 (apply elem_of_cons; right). apply elem_of_app. right.
  apply elem_of_app. left.
  apply list_elem_of_In, in_flat_map. exists field.
  split; [by apply list_elem_of_In|]. rewrite Hfk, Hr, Ha. by left.
Qed.

Lemma looked_up_manager_class model_cls item :
  get_model_class_by_fullname django_context (cls_fullname ctx) = Some model_cls →
  item ∈ managers_map model_cls →
  manager_class_fullname item.2 ∈ looked_up_names mods.
Proof.
  intros Hmodel Hin. apply (looked_up_of_model model_cls); [done|].
  do 2 (apply elem_of_cons; right). do 2 (apply elem_of_app; right).
  apply elem_of_app. left.
  apply list_elem_of_In, in_flat_map. exists item.
  split; [by apply list_elem_of_In|]. by left.
Qed.

Lemma looked_up_manager_base model_cls item name :
  get_model_class_by_fullname django_context (cls_fullname ctx) = Some model_cls →
  item ∈ managers_map model_cls →
  final_iteration ctx = true →
  mods !! manager_class_fullname item.2 = None →
  name ∈ manager_first_base_fullname item.2 :: generated_real_names mods item.2 →
  name ∈ looked_up_names mods.
Proof.
  intros Hmodel Hin Hfinal Hclass Hname. apply (looked_up_of_model model_cls); [done|].
  do 2 (apply elem_of_cons; right). do 2 (apply elem_of_app; right).
  apply elem_of_app. left.
  apply list_elem_of_In, in_flat_map. exists item.
  split; [by apply list_elem_of_In|]. rewrite Hfinal, Hclass.
  right. by apply list_elem_of_In.
Qed.

Lemma looked_up_relation model_cls relation accessor related_model_cls :
  get_model_class_by_fullname django_context (cls_fullname ctx) = Some model_cls →
  relation ∈ get_model_relations django_context model_cls →
  get_accessor_name relation = Some accessor →
  get_relation_related_model_cls django_context relation = Some related_model_cls →
  related_fullname related_model_cls ∈ looked_up_names mods.
Proof.
  intros Hmodel Hin Ha Hr. apply (looked_up_of_model model_cls); [done|].
  do 2 (apply elem_of_cons; right). do 3 (apply elem_of_app; right).
  apply elem_of_app. left.
  apply list_elem_of_In, in_flat_map. exists relation.
  split; [by apply list_elem_of_In|]. rewrite Ha, Hr. by left.
Qed.

Lemma looked_up_related_manager model_cls relation accessor related_model_cls :
  get_model_class_by_fullname django_context (cls_fullname ctx) = Some model_cls →
  relation ∈ get_model_relations django_context model_cls →
  get_accessor_name relation = Some accessor →
  get_relation_related_model_cls django_context relation = Some related_model_cls →
  isinstance_OneToOneRel relation = false →
  isinstance_ManyToOneRel_ManyToManyRel relation = true →
  RELATED_MANAGER_CLASS ∈ looked_up_names mods.
Proof.
  intros Hmodel Hin Ha Hr H1 H2. apply (looked_up_of_model model_cls); [done|].
  do 2 (apply elem_of_cons; right). do 3 (apply elem_of_app; right).
  apply elem_of_app. left.
  apply list_elem_of_In, in_flat_map. exists relation.
  split; [by apply list_elem_of_In|]. rewrite Ha, Hr, H1, H2. right. by left.
Qed.

Lemma looked_up_str model_cls field :
  get_model_class_by_fullname django_context (cls_fullname ctx) = Some model_cls →
  field ∈ get_model_fields django_context model_cls →
  choices field ≠ [] →
  "builtins.str" ∈ looked_up_names mods.
Proof.
  intros Hmodel Hin Hc. apply (looked_up_of_model model_cls); [done|].
  do 2 (apply elem_of_cons; right). do 4 (apply elem_of_app; right).
  apply list_elem_of_In, in_flat_map. exists field.
  split; [by apply list_elem_of_In|]. destruct (choices field); [done|by left].
Qed.

Lemma steady_InjectAnyAsBaseForNestedMeta :
  steady mods names0 InjectAnyAsBaseForNestedMeta_run.
Proof.
  apply (steady_intro _ [WMeta] None); [by repeat constructor|].
  apply writes_plain. intros st Hst. rewrite InjectAnyAsBaseForNestedMeta_run_spec.
  eexists. split; [reflexivity|]. by split.
Qed.

Lemma steady_AddRelatedModelsId_field model_cls field :
  get_model_class_by_fullname django_context (cls_fullname ctx) = Some model_cls →
  field ∈ get_fields model_cls →
  steady mods names0 (AddRelatedModelsId_field field).
Proof.
  intros Hmodel Hin. unfold AddRelatedModelsId_field.
  destruct (isinstance_ForeignKey field) eqn:Efk; [|apply steady_ret].
  destruct (get_field_related_model_cls django_context field) as [rm|] eqn:Erm.
  - destruct (related_abstract rm) eqn:Eabs; [apply steady_ret|].
    pose proof (looked_up_foreign_key model_cls field rm Hmodel Hin Efk Erm Eabs)
      as Hpk.
    set (pk := field_class_fullname (get_primary_key_field django_context rm)) in *.
    destruct (mods !! pk) as [info|] eqn:E.
    + destruct (get_field_descriptor_types info
                  (get_field_nullability django_context field)) as [s g] eqn:Et.
      apply (steady_intro _
               [WSet (attname field)
                  (new_sym (attname field) (Instance (fullname info) [s; g]))] None);
        [by repeat constructor|].
      apply writes_plain. intros st Hst.
      unfold bind, try_except, bind, lookup_class_typeinfo_or_incomplete_defn_error,
        lookup_typeinfo_or_incomplete_defn_error, lookup_typeinfo, bind.
      fold pk. rewrite (proj1 Hst pk Hpk), E. simpl. rewrite Et.
      eexists. split; [reflexivity|]. by split.
    + apply (steady_intro _ []
               (if final_iteration ctx then None else Some IncompleteDefnException));
        [constructor|].
      apply writes_plain. intros st Hst.
      unfold bind, try_except, bind, lookup_class_typeinfo_or_incomplete_defn_error,
        lookup_typeinfo_or_incomplete_defn_error, lookup_typeinfo, bind.
      fold pk. rewrite (proj1 Hst pk Hpk), E. simpl.
      destruct (final_iteration ctx); simpl; by exists st.
  - apply (steady_intro _
             [WSet (attname field) (new_sym (attname field) (AnyType explicit))] None);
      [by repeat constructor|].
    apply writes_plain. intros st Hst. eexists. split; [reflexivity|]. by split.
Qed.

(** In a settled state the managers of the model resolve as they do with
    the known types [mods]. *)
Lemma resolve_manager_settled model_cls item st :
  get_model_class_by_fullname django_context (cls_fullname ctx) = Some model_cls →
  item ∈ managers_map model_cls →
  settled_state mods names0 st →
  resolve_manager item.2 st
  = match resolve_manager_result mods item.2 with
    | inl e => Raise e st
    | inr v => Ok v st
    end.
Proof.
  intros Hmodel Hin [Hlook _]. rewrite resolve_manager_spec.
  assert (Heq : resolve_manager_result (modules st) item.2
                = resolve_manager_result mods item.2); [|by rewrite Heq].
  unfold resolve_manager_result.
  rewrite (Hlook (manager_class_fullname item.2));
    [|by apply (looked_up_manager_class model_cls item)].
  destruct (mods !! manager_class_fullname item.2) eqn:Ec; [done|].
  destruct (final_iteration ctx) eqn:Ef; [|done]. simpl.
  rewrite (Hlook (manager_first_base_fullname item.2));
    [|apply (looked_up_manager_base model_cls item);
       [done..|apply elem_of_cons; by left]].
  destruct (mods !! manager_first_base_fullname item.2) as [base|] eqn:Eb; [|done].
  destruct (from_queryset_managers base) as [g|] eqn:Eg; [|done].
  destruct (g !! manager_class_fullname item.2) as [real|] eqn:Er; [|done].
  rewrite (Hlook real); [done|].
  apply (looked_up_manager_base model_cls item); [done..|].
  apply elem_of_cons. right.
  unfold generated_real_names. rewrite Eb, Eg, Er. apply elem_of_cons. by left.
Qed.

Lemma rebound_manager_name model_cls manager_name manager info cn :
  get_model_class_by_fullname django_context (cls_fullname ctx) = Some model_cls →
  (manager_name, manager) ∈ managers_map model_cls →
  resolve_manager_result mods manager = inr (Some (info, cn)) →
  has_any_parametrized_manager_as_base info = inr true →
  names0 !! manager_name = None →
  manager_name ∈ rebound_manager_names mods names0.
Proof.
  intros Hmodel Hin Er Hany E0. unfold rebound_manager_names. rewrite Hmodel.
  apply list_elem_of_In, in_flat_map. exists (manager_name, manager).
  split; [by apply list_elem_of_In|]. simpl. rewrite Er, Hany, E0. by left.
Qed.

(** The two branches of the loop body for a manager whose type is found:
    the name is bound directly when it is not yet a symbol; when it is,
    and the type has an [Any]-parametrized manager base, the type is
    forged and the name is bound to it. *)
Lemma AddManagers_manager_direct manager_name manager st info cn :
  resolve_manager manager st = Ok (Some (info, cn)) st →
  info_names st !! manager_name = None →
  AddManagers_manager (manager_name, manager) st
  = Ok tt (set_info_names
             <[manager_name :=
                 new_sym manager_name
                   (Instance (fullname info) [Instance (cls_fullname ctx) []])]> st).
Proof.
  intros Hres Hname. unfold AddManagers_manager. rewrite (bind_Ok _ _ _ _ _ Hres).
  unfold bind at 1. unfold get_state. by rewrite Hname.
Qed.

Lemma AddManagers_manager_forge manager_name manager st info cn :
  resolve_manager manager st = Ok (Some (info, cn)) st →
  is_Some (info_names st !! manager_name) →
  has_any_parametrized_manager_as_base info = inr true →
  match reparametrize_bases (bases info) with
  | inl IncompleteDefnException =>
      AddManagers_manager (manager_name, manager) st = Ok tt st
  | inl e => AddManagers_manager (manager_name, manager) st = Raise e st
  | inr _ =>
      ∃ custom_manager_info,
        AddManagers_manager (manager_name, manager) st
        = Ok tt (set_info_names
                   <[manager_name :=
                       new_sym manager_name
                         (Instance (forged_fullname manager cn)
                            [Instance (cls_fullname ctx) []])]>
                   (set_modules
                      <[forged_fullname manager cn := custom_manager_info]> st))
  end.
Proof.
  intros Hres [sym Hsym] Hany.
  assert (Hrun : AddManagers_manager (manager_name, manager) st
                 = (custom_manager_type <- try_except
                      (t <- create_new_model_parametrized_manager
                              (manager_model_name manager +:+ "_" +:+ cn) info ;;
                       ret (Some t))
                      (ret None) ;;
                    match custom_manager_type with
                    | None => ret tt
                    | Some custom_manager_type =>
                        add_new_node_to_model_class manager_name custom_manager_type
                    end) st).
  { unfold AddManagers_manager. rewrite (bind_Ok _ _ _ _ _ Hres).
    unfold bind at 1. unfold get_state. rewrite Hsym.
    rewrite bool_decide_eq_false_2; [|done].
    unfold bind at 1. unfold lift at 1. by rewrite Hany. }
  rewrite Hrun. clear Hrun.
  unfold bind at 1. unfold try_except, create_new_model_parametrized_manager.
  unfold bind at 1. unfold bind at 1. unfold lift.
  destruct (reparametrize_bases (bases info)) as [[]|bases']; [done..|].
  eexists. unfold bind, add_new_class_for_module, bind, modify, ret,
    add_new_node_to_model_class, add_new_sym_for_info, modify,
    set_modules, set_info_names. simpl.
  rewrite insert_insert_eq. reflexivity.
Qed.

Lemma steady_AddManagers_manager model_cls item :
  managers_settled mods names0 →
  get_model_class_by_fullname django_context (cls_fullname ctx) = Some model_cls →
  item ∈ managers_map model_cls →
  steady mods names0 (AddManagers_manager item).
Proof.
  intros Hsettled Hmodel Hin.
  pose proof (proj1 (Forall_forall _ _) (Hsettled model_cls Hmodel) item Hin) as Hitem.
  pose proof (resolve_manager_settled model_cls item) as Hres.
  specialize (λ st, Hres st Hmodel Hin).
  unfold manager_settled in Hitem.
  destruct item as [manager_name manager]. simpl in Hitem, Hres.
  destruct (resolve_manager_result mods manager) as [e|[[info cn]|]] eqn:Er.
  - apply (steady_intro _ [] (Some e)); [constructor|].
    apply writes_plain. intros st Hst. unfold AddManagers_manager, bind.
    rewrite (Hres st Hst). by exists st.
  - destruct (has_any_parametrized_manager_as_base info) as [e|[|]] eqn:Hany.
    + (* the test raises *)
      destruct Hitem as [Hfresh Hno].
      destruct (names0 !! manager_name) as [sym0|] eqn:E0;
        [|by destruct (Hno eq_refl)].
      apply (steady_intro _ [] (Some e)); [constructor|].
      apply writes_plain. intros st Hst. unfold AddManagers_manager, bind.
      rewrite (Hres st Hst). unfold get_state.
      destruct (proj2 Hst manager_name) as [sym Hsym]; [by rewrite E0|].
      rewrite bool_decide_eq_false_2; [|by rewrite Hsym].
      unfold lift. rewrite Hany. by exists st.
    + (* the type is to be specialized *)
      destruct Hitem as [Hfresh Hno].
      destruct (names0 !! manager_name) as [sym0|] eqn:E0.
      * (* the name is a symbol from the start: the type is forged *)
        assert (Hforge : ∀ st, settled_state mods names0 st → _) by
          (intros st Hst;
           refine (AddManagers_manager_forge manager_name manager st info cn
                     (Hres st Hst) _ Hany);
           apply (proj2 Hst); by rewrite E0).
        destruct (reparametrize_bases (bases info)) as [e|bases'].
        -- apply (steady_intro _ []
                    (match e with
                     | IncompleteDefnException => None
                     | _ => Some e
                     end)); [constructor|].
           apply writes_plain. intros st Hst. specialize (Hforge st Hst).
           exists st. by destruct e.
        -- apply (steady_intro _
                    [WSet manager_name
                       (new_sym manager_name
                          (Instance (forged_fullname manager cn)
                             [Instance (cls_fullname ctx) []]))] None);
             [by repeat constructor|].
           intros st Hst. destruct (Hforge st Hst) as [custom Hrun].
           eexists. split; [exact Hrun|]. split.
           ++ intros k _. simpl. rewrite lookup_insert. by repeat case_decide.
           ++ by apply settled_insert, settled_register.
      * (* the name is not a symbol at the start: it is rebound *)
        destruct (Hno eq_refl) as [_ [bases' Hbases]].
        pose proof (rebound_manager_name model_cls manager_name manager info cn
                      Hmodel Hin Er Hany E0) as Hrebound.
        apply (steady_intro _ [] None); [constructor|].
        intros st Hst. destruct (info_names st !! manager_name) as [sym|] eqn:E.
        -- pose proof (AddManagers_manager_forge manager_name manager st info cn
                         (Hres st Hst) (ltac:(by rewrite E)) Hany) as Hforge.
           rewrite Hbases in Hforge. destruct Hforge as [custom Hrun].
           eexists. split; [exact Hrun|]. split.
           ++ intros k Hk. simpl. rewrite lookup_insert_ne; [done|]. by intros ->.
           ++ by apply settled_insert, settled_register.
        -- eexists. split;
             [exact (AddManagers_manager_direct manager_name manager st info cn
                       (Hres st Hst) E)|]. split.
           ++ intros k Hk. simpl. rewrite lookup_insert_ne; [done|]. by intros ->.
           ++ by apply settled_insert.
    + (* nothing to specialize: the name is filled *)
      apply (steady_intro _
               [WFill manager_name
                  (new_sym manager_name
                     (Instance (fullname info) [Instance (cls_fullname ctx) []]))]
               None); [by repeat constructor|].
      apply writes_plain. intros st Hst. unfold AddManagers_manager, bind.
      rewrite (Hres st Hst). unfold get_state.
      simpl. destruct (info_names st !! manager_name) eqn:E.
      * rewrite bool_decide_eq_false_2; [|done]. unfold lift. rewrite Hany. simpl.
        exists st. split; [done|]. split; [|done].
        unfold apply_writes. cbn [foldl apply_write]. by rewrite ?E.
      * rewrite bool_decide_eq_true_2; [|done].
        eexists. split; [reflexivity|]. split; [|done].
        unfold apply_writes. cbn [foldl apply_write]. by rewrite ?E.
  - apply (steady_intro _ [] None); [constructor|].
    apply writes_plain. intros st Hst. unfold AddManagers_manager, bind.
    rewrite (Hres st Hst). by exists st.
Qed.

Lemma steady_AddRelatedManagers_relation model_cls relation :
  get_model_class_by_fullname django_context (cls_fullname ctx) = Some model_cls →
  relation ∈ get_model_relations django_context model_cls →
  steady mods names0 (AddRelatedManagers_relation relation).
Proof.
  intros Hmodel Hin. unfold AddRelatedManagers_relation.
  destruct (get_accessor_name relation) as [accessor|] eqn:Eacc; [|apply steady_ret].
  destruct (get_relation_related_model_cls django_context relation) as [rm|] eqn:Erm;
    [|apply steady_ret].
  pose proof (looked_up_relation model_cls relation accessor rm Hmodel Hin Eacc Erm)
    as Hrm.
  destruct (mods !! related_fullname rm) as [info|] eqn:E.
  2:{ apply (steady_intro _ []
               (if final_iteration ctx then None else Some IncompleteDefnException));
        [constructor|].
      apply writes_plain. intros st Hst.
      unfold bind, try_except, bind, lookup_class_typeinfo_or_incomplete_defn_error,
        lookup_typeinfo_or_incomplete_defn_error, lookup_typeinfo, bind.
      rewrite (proj1 Hst _ Hrm), E. simpl.
      destruct (final_iteration ctx); simpl; by exists st. }
  destruct (isinstance_OneToOneRel relation) eqn:E1.
  { apply (steady_intro _
             [WSet accessor (new_sym accessor (Instance (fullname info) []))] None);
      [by repeat constructor|].
    apply writes_plain. intros st Hst.
    unfold bind, try_except, bind, lookup_class_typeinfo_or_incomplete_defn_error,
      lookup_typeinfo_or_incomplete_defn_error, lookup_typeinfo, bind.
    rewrite (proj1 Hst _ Hrm), E. simpl. eexists. split; [reflexivity|]. by split. }
  destruct (isinstance_ManyToOneRel_ManyToManyRel relation) eqn:E2.
  2:{ apply (steady_intro _ [] None); [constructor|].
      apply writes_plain. intros st Hst.
      unfold bind, try_except, bind, lookup_class_typeinfo_or_incomplete_defn_error,
        lookup_typeinfo_or_incomplete_defn_error, lookup_typeinfo, bind.
      rewrite (proj1 Hst _ Hrm), E. simpl. by exists st. }
  pose proof (looked_up_related_manager model_cls relation accessor rm
                Hmodel Hin Eacc Erm E1 E2) as Hrel.
  destruct (mods !! RELATED_MANAGER_CLASS) as [minfo|] eqn:E3.
  - apply (steady_intro _
             [WSet accessor
                (new_sym accessor
                   (Instance (fullname minfo) [Instance (fullname info) []]))] None);
      [by repeat constructor|].
    apply writes_plain. intros st Hst.
    unfold bind, try_except, bind, lookup_class_typeinfo_or_incomplete_defn_error,
      lookup_typeinfo_or_incomplete_defn_error, lookup_typeinfo, bind.
    rewrite (proj1 Hst _ Hrm), E. simpl. rewrite (proj1 Hst _ Hrel), E3. simpl.
    eexists. split; [reflexivity|]. by split.
  - apply (steady_intro _ []
             (if final_iteration ctx then None else Some IncompleteDefnException));
      [constructor|].
    apply writes_plain. intros st Hst.
    unfold bind, try_except, bind, lookup_class_typeinfo_or_incomplete_defn_error,
      lookup_typeinfo_or_incomplete_defn_error, lookup_typeinfo, bind.
    rewrite (proj1 Hst _ Hrm), E. simpl. rewrite (proj1 Hst _ Hrel), E3. simpl.
    destruct (final_iteration ctx); simpl; by exists st.
Qed.

Lemma steady_AddExtraFieldMethods_display model_cls field :
  get_model_class_by_fullname django_context (cls_fullname ctx) = Some model_cls →
  field ∈ get_model_fields django_context model_cls →
  steady mods names0 (AddExtraFieldMethods_display field).
Proof.
  intros Hmodel Hin. unfold AddExtraFieldMethods_display.
  destruct (choices field) eqn:Ec; [apply steady_ret|].
  assert (Hstr : "builtins.str" ∈ looked_up_names mods)
    by (apply (looked_up_str model_cls field); [done..|by rewrite Ec]).
  destruct (mods !! "builtins.str") as [info|] eqn:E.
  - apply (steady_intro _
             [WSet (display_method_name field)
                (new_method (display_method_name field) []
                   (Instance (fullname info) []))] None);
      [by repeat constructor|].
    apply writes_plain. intros st Hst.
    unfold bind, lookup_typeinfo_or_incomplete_defn_error, lookup_typeinfo, bind.
    rewrite (proj1 Hst _ Hstr), E. eexists. split; [reflexivity|]. by split.
  - apply (steady_intro _ [] (Some IncompleteDefnException)); [constructor|].
    apply writes_plain. intros st Hst.
    unfold bind, lookup_typeinfo_or_incomplete_defn_error, lookup_typeinfo, bind.
    rewrite (proj1 Hst _ Hstr), E. by exists st.
Qed.

Lemma steady_AddExtraFieldMethods_date field :
  steady mods names0 (AddExtraFieldMethods_date field).
Proof.
  unfold AddExtraFieldMethods_date.
  destruct (isinstance_DateField_DateTimeField field && negb (null field));
    [|apply steady_ret].
  apply steady_bind; apply steady_add_method.
Qed.

Lemma steady_AddDefaultPrimaryKey model_cls :
  get_model_class_by_fullname django_context (cls_fullname ctx) = Some model_cls →
  steady mods names0
    (try_except (AddDefaultPrimaryKey_run_with_model_cls model_cls)
       (if negb (final_iteration ctx) then defer else ret tt)).
Proof.
  intros Hmodel.
  destruct (auto_field model_cls) as [field|] eqn:Ea.
  2:{ apply (steady_intro _ [] None); [constructor|].
      apply writes_plain. intros st Hst.
      unfold try_except, AddDefaultPrimaryKey_run_with_model_cls,
        bind, get_state. rewrite Ea. by exists st. }
  destruct (mro_lookup (mro_tail ctx) (attname field)) as [inherited|] eqn:Em.
  { apply (steady_intro _ [] None); [constructor|].
    apply writes_plain. intros st Hst.
    unfold try_except, AddDefaultPrimaryKey_run_with_model_cls,
      bind, get_state. rewrite Ea.
    assert (Hr : has_readable_member st (attname field) = true).
    { unfold has_readable_member, info_get. rewrite Em.
      apply bool_decide_eq_true_2. destruct (info_names st !! attname field); eauto. }
    rewrite Hr. by exists st. }
  pose proof (looked_up_auto model_cls field Hmodel Ea) as Hauto.
  apply (steady_fill _ (attname field)
           (match mods !! field_class_fullname field with
            | Some info =>
                Some (new_sym (attname field)
                        (Instance (fullname info)
                           [ (get_field_descriptor_types info false).1;
                             (get_field_descriptor_types info false).2 ]))
            | None => None
            end)).
  - intros s. destruct (mods !! field_class_fullname field); [|done].
    by intros [= <-].
  - intros st Hst. unfold AddDefaultPrimaryKey_run_with_model_cls, bind, get_state.
    rewrite Ea. unfold has_readable_member, info_get. rewrite Em.
    destruct (info_names st !! attname field) eqn:E.
    + rewrite bool_decide_eq_true_2; [done|eauto].
    + rewrite bool_decide_eq_false_2; [|by intros [? ?]]. simpl.
      unfold lookup_typeinfo_or_incomplete_defn_error, lookup_typeinfo, bind.
      rewrite (proj1 Hst _ Hauto).
      destruct (mods !! field_class_fullname field) as [info|]; [|done].
      unfold ret. by destruct (get_field_descriptor_types info false).
Qed.

Lemma steady_AddDefaultManagerAttribute model_cls :
  get_model_class_by_fullname django_context (cls_fullname ctx) = Some model_cls →
  steady mods names0
    (try_except (AddDefaultManagerAttribute_run_with_model_cls model_cls)
       (if negb (final_iteration ctx) then defer else ret tt)).
Proof.
  intros Hmodel. pose proof (looked_up_default model_cls Hmodel) as Hdefault.
  apply (steady_fill _ "_default_manager"
           (match mods !! default_manager_class_fullname model_cls with
            | Some info =>
                Some (new_sym "_default_manager"
                        (Instance (fullname info) [Instance (cls_fullname ctx) []]))
            | None => None
            end)).
  - intros s. destruct (mods !! default_manager_class_fullname model_cls); [|done].
    by intros [= <-].
  - intros st Hst. unfold AddDefaultManagerAttribute_run_with_model_cls, bind, get_state.
    destruct (info_names st !! "_default_manager") eqn:E.
    + by rewrite bool_decide_eq_false_2.
    + rewrite bool_decide_eq_true_2; [|done].
      unfold lookup_typeinfo_or_incomplete_defn_error, lookup_typeinfo, bind.
      rewrite (proj1 Hst _ Hdefault).
      by destruct (mods !! default_manager_class_fullname model_cls).
Qed.

Lemma steady_AddMetaOptionsAttribute model_cls :
  get_model_class_by_fullname django_context (cls_fullname ctx) = Some model_cls →
  steady mods names0
    (try_except (AddMetaOptionsAttribute_run_with_model_cls model_cls)
       (if negb (final_iteration ctx) then defer else ret tt)).
Proof.
  intros Hmodel. pose proof (looked_up_options model_cls Hmodel) as Hoptions.
  apply (steady_fill _ "_meta"
           (match mods !! OPTIONS_CLASS_FULLNAME with
            | Some info =>
                Some (new_sym "_meta"
                        (Instance (fullname info) [Instance (cls_fullname ctx) []]))
            | None => None
            end)).
  - intros s. destruct (mods !! OPTIONS_CLASS_FULLNAME); [|done]. by intros [= <-].
  - intros st Hst. unfold AddMetaOptionsAttribute_run_with_model_cls, bind, get_state.
    destruct (info_names st !! "_meta") eqn:E.
    + by rewrite bool_decide_eq_false_2.
    + rewrite bool_decide_eq_true_2; [|done].
      unfold lookup_typeinfo_or_incomplete_defn_error, lookup_typeinfo, bind.
      rewrite (proj1 Hst _ Hoptions). by destruct (mods !! OPTIONS_CLASS_FULLNAME).
Qed.

(** [run] under the controller's [try], for a step given under its own. *)
Lemma steady_handled_run (run_with_model_cls : ModelCls → M unit) :
  (∀ model_cls,
     get_model_class_by_fullname django_context (cls_fullname ctx) = Some model_cls →
     steady mods names0
       (try_except (run_with_model_cls model_cls)
          (if negb (final_iteration ctx) then defer else ret tt))) →
  steady mods names0
    (try_except (run run_with_model_cls)
       (if negb (final_iteration ctx) then defer else ret tt)).
Proof.
  intros H. unfold run.
  destruct (get_model_class_by_fullname django_context (cls_fullname ctx));
    [by apply H|].
  apply steady_handled, steady_ret.
Qed.

Lemma steady_process_initializer (initializer_cls : Initializer) :
  managers_settled mods names0 →
  steady mods names0 (process_initializer initializer_cls).
Proof.
  intros Hsettled. unfold process_initializer.
  destruct initializer_cls; simpl.
  - apply steady_handled, steady_InjectAnyAsBaseForNestedMeta.
  - apply steady_handled_run. intros m Hm. by apply steady_AddDefaultPrimaryKey.
  - apply steady_handled, steady_run. intros m Hm. apply steady_for_each.
    intros field Hin. by apply (steady_AddRelatedModelsId_field m).
  - apply steady_handled, steady_run. intros m Hm. apply steady_for_each.
    intros item Hin. by apply (steady_AddManagers_manager m).
  - apply steady_handled_run. intros m Hm. by apply steady_AddDefaultManagerAttribute.
  - apply steady_handled, steady_run. intros m Hm. apply steady_for_each.
    intros relation Hin. by apply (steady_AddRelatedManagers_relation m).
  - apply steady_handled, steady_run. intros m Hm.
    apply steady_bind; apply steady_for_each; intros field Hin.
    + by apply (steady_AddExtraFieldMethods_display m).
    + apply steady_AddExtraFieldMethods_date.
  - apply steady_handled_run. intros m Hm. by apply steady_AddMetaOptionsAttribute.
Qed.

Lemma steady_process_model_class :
  managers_settled mods names0 → steady mods names0 process_model_class.
Proof.
  intros Hsettled. apply steady_for_each. intros i _.
  by apply steady_process_initializer.
Qed.

End Settled.

(** C3 (as amended): take mypy's [add_method] and the helpers that are
    not part of the source as plain bindings (the forged type is
    registered under the name [<Model>_<ManagerClassName>] as it is).
    Let every manager of the model whose type has an [Any]-parametrized
    manager class among its transitive bases be forged under a name that
    no step looks up, and, if its name is not yet a symbol of the
    declaration, let its bases be well formed.  Then running the whole
    pipeline a second time, right after a first run and in the same
    pass, leaves every entry of the declaration's symbol table as the
    first run left it, except possibly the entries of such managers
    whose name was not a symbol before the first run; when there is no
    such manager the symbol table is left exactly as it was; and the
    second run returns if the first did. *)
Theorem pipeline_idempotent (st : State) :
  managers_settled (modules st) (info_names st) →
  let st1 := result_state (process_model_class st) in
  let st2 := result_state (process_model_class st1) in
  (∀ name, name ∉ rebound_manager_names (modules st) (info_names st) →
     info_names st2 !! name = info_names st1 !! name) ∧
  (rebound_manager_names (modules st) (info_names st) = [] →
   info_names st2 = info_names st1) ∧
  (∀ st1', process_model_class st = Ok tt st1' →
           ∃ st2', process_model_class st1' = Ok tt st2').
Proof.
  intros Hsettled. simpl.
  destruct (steady_process_model_class (modules st) (info_names st) Hsettled)
    as (ws & out & Hok & Hw).
  assert (Hst : settled_state (modules st) (info_names st) st) by by split.
  destruct (Hw st Hst) as (st1 & Hrun1 & Hn1 & Hs1).
  rewrite Hrun1.
  assert (Hst1 : result_state (outcome out st1) = st1) by by destruct out.
  rewrite Hst1.
  destruct (Hw st1 Hs1) as (st2 & Hrun2 & Hn2 & Hs2).
  rewrite Hrun2.
  assert (Hst2 : result_state (outcome out st2) = st2) by by destruct out.
  rewrite Hst2.
  assert (Hkeys : ∀ name,
            name ∉ rebound_manager_names (modules st) (info_names st) →
            info_names st2 !! name = info_names st1 !! name).
  { intros k Hk. by rewrite (Hn2 k Hk), (Hn1 k Hk), key_writes_idemp. }
  split; [done|split].
  - intros Hnil. apply map_eq. intros k. apply Hkeys. rewrite Hnil.
    apply not_elem_of_nil.
  - intros st1' H. destruct out as [e|]; [done|]. simpl in *.
    injection H as <-. by exists st2.
Qed.

(** *** What no step ever does *)

Section Kept.

Variable R : State → State → Prop.
Hypothesis HR : kept R.

Local Set Default Proof Using "Type + HR*".

Lemma keeps_ret {A} (a : A) : keeps R (ret a).
Proof. intros st. apply (kept_refl R HR). Qed.

Lemma keeps_raise {A} (e : Exc) : keeps R (@raise A e).
Proof. intros st. apply (kept_refl R HR). Qed.

Lemma keeps_lift {A} (r : Exc + A) : keeps R (lift r).
Proof. intros st. unfold lift. destruct r; apply (kept_refl R HR). Qed.

Lemma keeps_bind {A B} (m : M A) (k : A → M B) :
  keeps R m → (∀ a, keeps R (k a)) → keeps R (bind m k).
Proof.
  intros Hm Hk st. unfold bind. specialize (Hm st).
  destruct (m st) as [a st1|e st1]; simpl in *; [|done].
  eapply (kept_trans R HR); [exact Hm|apply Hk].
Qed.

Lemma keeps_try_except {A} (m handler : M A) :
  keeps R m → keeps R handler → keeps R (try_except m handler).
Proof.
  intros Hm Hh st. unfold try_except. specialize (Hm st).
  destruct (m st) as [a st1|[] st1]; simpl in *; [done| |done].
  eapply (kept_trans R HR); [exact Hm|apply Hh].
Qed.

Lemma keeps_for_each {A} (body : A → M unit) (xs : list A) :
  (∀ x, x ∈ xs → keeps R (body x)) → keeps R (for_each body xs).
Proof.
  induction xs as [|x xs IH]; intros Hbody; simpl.
  - apply keeps_ret.
  - apply keeps_bind.
    + apply Hbody, elem_of_cons. by left.
    + intros _. apply IH. intros y Hy. apply Hbody, elem_of_cons. by right.
Qed.

Lemma keeps_get_state : keeps R get_state.
Proof. intros st. apply (kept_refl R HR). Qed.

Lemma keeps_lookup_typeinfo fullname : keeps R (lookup_typeinfo fullname).
Proof. intros st. apply (kept_refl R HR). Qed.

Lemma keeps_lookup_or_error fullname :
  keeps R (lookup_typeinfo_or_incomplete_defn_error fullname).
Proof.
  apply keeps_bind; [apply keeps_lookup_typeinfo|].
  intros [info|]; [apply keeps_ret|apply keeps_raise].
Qed.

Lemma keeps_add_new_node name typ : keeps R (add_new_node_to_model_class name typ).
Proof. intros st. apply (kept_bind_name R HR). Qed.

Lemma keeps_add_method name args return_type :
  keeps R (add_method name args return_type).
Proof. intros st. apply (kept_bind_name R HR). Qed.

Lemma keeps_handler : keeps R (if negb (final_iteration ctx) then defer else ret tt).
Proof.
  destruct (final_iteration ctx) eqn:Hf; simpl; [apply keeps_ret|].
  intros st. by apply (kept_defer R HR).
Qed.

Lemma keeps_reraise {A} (a : A) :
  keeps R (if negb (final_iteration ctx) then raise IncompleteDefnException
           else ret a).
Proof. destruct (negb (final_iteration ctx)); [apply keeps_raise|apply keeps_ret]. Qed.

Lemma keeps_run (run_with_model_cls : ModelCls → M unit) :
  (∀ model_cls,
     get_model_class_by_fullname django_context (cls_fullname ctx) = Some model_cls →
     keeps R (run_with_model_cls model_cls)) →
  keeps R (run run_with_model_cls).
Proof.
  intros H. unfold run.
  destruct (get_model_class_by_fullname django_context (cls_fullname ctx));
    [by apply H|apply keeps_ret].
Qed.

Lemma keeps_InjectAnyAsBaseForNestedMeta : keeps R InjectAnyAsBaseForNestedMeta_run.
Proof.
  intros st. rewrite InjectAnyAsBaseForNestedMeta_run_spec.
  apply (kept_mark_meta R HR).
Qed.

Lemma keeps_AddDefaultPrimaryKey model_cls :
  keeps R (AddDefaultPrimaryKey_run_with_model_cls model_cls).
Proof.
  unfold AddDefaultPrimaryKey_run_with_model_cls.
  apply keeps_bind; [apply keeps_get_state|]. intros st0.
  destruct (auto_field model_cls) as [field|]; [|apply keeps_ret].
  destruct (negb (has_readable_member st0 (attname field))); [|apply keeps_ret].
  apply keeps_bind; [apply keeps_lookup_or_error|]. intros info.
  destruct (get_field_descriptor_types info false). apply keeps_add_new_node.
Qed.

Lemma keeps_AddRelatedModelsId_field model_cls field :
  get_model_class_by_fullname django_context (cls_fullname ctx) = Some model_cls →
  field ∈ get_fields model_cls →
  keeps R (AddRelatedModelsId_field field).
Proof.
  intros Hmodel Hin. unfold AddRelatedModelsId_field.
  destruct (isinstance_ForeignKey field) eqn:Hfk; [|apply keeps_ret].
  destruct (get_field_related_model_cls django_context field) as [rm|] eqn:Hrel.
  - destruct (related_abstract rm); [apply keeps_ret|].
    apply keeps_bind.
    + apply keeps_try_except; [|apply keeps_reraise].
      apply keeps_bind; [apply keeps_lookup_or_error|]. intros info. apply keeps_ret.
    + intros [info|]; [|apply keeps_ret].
      destruct (get_field_descriptor_types info _). apply keeps_add_new_node.
  - apply keeps_bind; [apply keeps_get_state|]. intros st0.
    apply keeps_bind; [|intros _; apply keeps_add_new_node].
    intros st. apply (kept_diagnostic R HR model_cls); [done..|].
    unfold related_model_missing. by rewrite Hfk, Hrel.
Qed.

Lemma keeps_create_new_model_parametrized_manager name base_manager_info :
  keeps R (create_new_model_parametrized_manager name base_manager_info).
Proof.
  unfold create_new_model_parametrized_manager.
  apply keeps_bind; [apply keeps_lift|]. intros bases'.
  apply keeps_bind.
  - unfold add_new_class_for_module. apply keeps_bind; [|intros _; apply keeps_ret].
    intros st. apply (kept_register R HR).
  - intros info. apply keeps_bind; [|intros _; apply keeps_ret].
    intros st. apply (kept_register R HR).
Qed.

Lemma keeps_resolve_manager manager : keeps R (resolve_manager manager).
Proof.
  intros st. rewrite resolve_manager_spec.
  destruct (resolve_manager_result (modules st) manager); apply (kept_refl R HR).
Qed.

Lemma keeps_AddManagers_manager item : keeps R (AddManagers_manager item).
Proof.
  destruct item as [manager_name manager]. unfold AddManagers_manager.
  apply keeps_bind; [apply keeps_resolve_manager|].
  intros [[info cn]|]; [|apply keeps_ret].
  apply keeps_bind; [apply keeps_get_state|]. intros st0.
  destruct (bool_decide _); [apply keeps_add_new_node|].
  apply keeps_bind; [apply keeps_lift|]. intros b.
  destruct (negb b); [apply keeps_ret|].
  apply keeps_bind.
  - apply keeps_try_except; [|apply keeps_ret].
    apply keeps_bind; [apply keeps_create_new_model_parametrized_manager|].
    intros t. apply keeps_ret.
  - intros [t|]; [apply keeps_add_new_node|apply keeps_ret].
Qed.

Lemma keeps_AddDefaultManagerAttribute model_cls :
  keeps R (AddDefaultManagerAttribute_run_with_model_cls model_cls).
Proof.
  unfold AddDefaultManagerAttribute_run_with_model_cls.
  apply keeps_bind; [apply keeps_get_state|]. intros st0.
  destruct (bool_decide _); [|apply keeps_ret].
  apply keeps_bind; [apply keeps_lookup_or_error|]. intros info.
  apply keeps_add_new_node.
Qed.

Lemma keeps_AddRelatedManagers_relation relation :
  keeps R (AddRelatedManagers_relation relation).
Proof.
  unfold AddRelatedManagers_relation.
  destruct (get_accessor_name relation) as [accessor|]; [|apply keeps_ret].
  destruct (get_relation_related_model_cls django_context relation) as [rm|];
    [|apply keeps_ret].
  apply keeps_bind.
  - apply keeps_try_except; [|apply keeps_reraise].
    apply keeps_bind; [apply keeps_lookup_or_error|]. intros info. apply keeps_ret.
  - intros [info|]; [|apply keeps_ret].
    destruct (isinstance_OneToOneRel relation); [apply keeps_add_new_node|].
    destruct (isinstance_ManyToOneRel_ManyToManyRel relation); [|apply keeps_ret].
    apply keeps_bind.
    + apply keeps_try_except; [|apply keeps_reraise].
      apply keeps_bind; [apply keeps_lookup_or_error|]. intros minfo. apply keeps_ret.
    + intros [minfo|]; [apply keeps_add_new_node|apply keeps_ret].
Qed.

Lemma keeps_AddExtraFieldMethods model_cls :
  keeps R (AddExtraFieldMethods_run_with_model_cls model_cls).
Proof.
  unfold AddExtraFieldMethods_run_with_model_cls.
  apply keeps_bind; [|intros _]; apply keeps_for_each; intros field _.
  - unfold AddExtraFieldMethods_display.
    destruct (choices field); [apply keeps_ret|].
    apply keeps_bind; [apply keeps_lookup_or_error|]. intros info.
    apply keeps_add_method.
  - unfold AddExtraFieldMethods_date.
    destruct (_ && _); [|apply keeps_ret].
    apply keeps_bind; [|intros _]; apply keeps_add_method.
Qed.

Lemma keeps_AddMetaOptionsAttribute model_cls :
  keeps R (AddMetaOptionsAttribute_run_with_model_cls model_cls).
Proof.
  unfold AddMetaOptionsAttribute_run_with_model_cls.
  apply keeps_bind; [apply keeps_get_state|]. intros st0.
  destruct (bool_decide _); [|apply keeps_ret].
  apply keeps_bind; [apply keeps_lookup_or_error|]. intros info.
  apply keeps_add_new_node.
Qed.

Lemma keeps_initializer_run initializer_cls : keeps R (initializer_run initializer_cls).
Proof.
  destruct initializer_cls; simpl.
  - apply keeps_InjectAnyAsBaseForNestedMeta.
  - apply keeps_run. intros m _. apply keeps_AddDefaultPrimaryKey.
  - apply keeps_run. intros m Hm. apply keeps_for_each. intros field Hin.
    by apply (keeps_AddRelatedModelsId_field m).
  - apply keeps_run. intros m _. apply keeps_for_each. intros item _.
    apply keeps_AddManagers_manager.
  - apply keeps_run. intros m _. apply keeps_AddDefaultManagerAttribute.
  - apply keeps_run. intros m _. apply keeps_for_each. intros relation _.
    apply keeps_AddRelatedManagers_relation.
  - apply keeps_run. intros m _. apply keeps_AddExtraFieldMethods.
  - apply keeps_run. intros m _. apply keeps_AddMetaOptionsAttribute.
Qed.

Lemma keeps_process_initializer initializer_cls :
  keeps R (process_initializer initializer_cls).
Proof.
  apply keeps_try_except; [apply keeps_initializer_run|apply keeps_handler].
Qed.

Lemma keeps_process_initializers l : keeps R (process_initializers l).
Proof. apply keeps_for_each. intros i _. apply keeps_process_initializer. Qed.

End Kept.

Lemma kept_names_grow :
  kept (λ st st', dom (info_names st) ⊆ dom (info_names st')).
Proof.
  split; simpl; try done.
  - intros st1 st2 st3 H1 H2. by etrans.
  - intros name sym st. rewrite dom_insert_L. apply union_subseteq_r.
  - intros st. by rewrite dom_alter_L.
Qed.

Lemma kept_types_grow :
  kept (λ st st', dom (modules st) ⊆ dom (modules st')).
Proof.
  split; simpl; try done.
  - intros st1 st2 st3 H1 H2. by etrans.
  - intros name info st. rewrite dom_insert_L. apply union_subseteq_r.
Qed.

Lemma kept_deferred_on_final_pass :
  kept (λ st st', final_iteration ctx = true → deferred st' = deferred st).
Proof.
  split; simpl; try done.
  - intros st1 st2 st3 H1 H2 Hf. by rewrite H2, H1.
  - intros Hf st Hf'. congruence.
Qed.

Lemma kept_deferred_stays :
  kept (λ st st', deferred st = true → deferred st' = true).
Proof. split; simpl; try done. intros st1 st2 st3. tauto. Qed.

Lemma kept_diagnostics :
  kept (λ st st', ∃ l, messages st' = messages st ++ l ∧
                       Forall missing_model_diagnostic l).
Proof.
  split; simpl.
  - intros st. exists []. by rewrite app_nil_r.
  - intros st1 st2 st3 (l1 & H1 & Hl1) (l2 & H2 & Hl2). exists (l1 ++ l2).
    split; [by rewrite H2, H1, app_assoc|by apply Forall_app].
  - intros name sym st. exists []. by rewrite app_nil_r.
  - intros st. exists []. by rewrite app_nil_r.
  - intros name info st. exists []. by rewrite app_nil_r.
  - intros model_cls field context st Hm Hin Hmiss.
    exists [(cannot_find_model field, context)]. split; [done|].
    constructor; [|constructor]. by exists model_cls, field.
  - intros _ st. exists []. by rewrite app_nil_r.
Qed.

(** X1: The pipeline never unbinds a name: every symbol of the declaration
    before the run is a symbol after it (from lines 56-59 and every call
    of them: names are assigned, never deleted). *)
Theorem symbols_are_never_removed (st : State) :
  dom (info_names st) ⊆ dom (info_names (result_state (process_model_class st))).
Proof. apply (keeps_process_initializers _ kept_names_grow). Qed.

(** X2: The only diagnostics the pipeline reports are those of the foreign
    keys step: the run appends to the reported messages, and each appended
    message is the "Cannot find model" message of a foreign key of the
    model whose related model is missing. *)
Theorem only_missing_model_diagnostics (st : State) :
  ∃ l, messages (result_state (process_model_class st)) = messages st ++ l ∧
       Forall missing_model_diagnostic l.
Proof. apply (keeps_process_initializers _ kept_diagnostics). Qed.

(** X3: On the final pass the pipeline never asks for another pass: the
    deferral flag is as it was. *)
Theorem no_deferral_on_final_pass (st : State) :
  final_iteration ctx = true →
  deferred (result_state (process_model_class st)) = deferred st.
Proof. apply (keeps_process_initializers _ kept_deferred_on_final_pass). Qed.

Lemma process_initializers_outcome (l : list Initializer) (st : State) :
  (∃ st', process_initializers l st = Ok tt st') ∨
  (∃ st', process_initializers l st = Raise IndexError st').
Proof.
  revert st. induction l as [|i l IH]; intros st; simpl.
  - left. by exists st.
  - unfold process_initializers in *. simpl. unfold bind.
    assert (Hcase : (∃ st1, process_initializer i st = Ok tt st1) ∨
                    (∃ st1, process_initializer i st = Raise IndexError st1)).
    { unfold process_initializer, try_except.
      destruct (initializer_run i st) as [[] st1|[] st1]; [left; eauto| |right; eauto].
      left. destruct (negb (final_iteration ctx)); simpl; eauto. }
    destruct Hcase as [[st1 H]|[st1 H]]; rewrite H; [apply IH|right; eauto].
Qed.

(** X4: The unresolved-dependency exception never leaves the pipeline
    (lines 336-341): a run returns, or raises the IndexError of an
    ill-formed manager type. *)
Theorem unresolved_dependency_never_escapes (st : State) :
  (∃ st', process_model_class st = Ok tt st') ∨
  (∃ st', process_model_class st = Raise IndexError st').
Proof. apply process_initializers_outcome. Qed.

(** X5: For a declaration that is not backed by a model the whole pipeline
    returns and does one thing only: it marks the nested [Meta]. *)
Theorem pipeline_without_model (st : State) :
  get_model_class_by_fullname django_context (cls_fullname ctx) = None →
  process_model_class st
  = Ok tt (set_info_names (alter set_fallback_to_any "Meta") st).
Proof.
  intros Hnone.
  unfold process_model_class, process_initializers, initializers. simpl.
  unfold bind at 1. unfold process_initializer at 1. unfold try_except.
  simpl. rewrite InjectAnyAsBaseForNestedMeta_run_spec.
  unfold bind, process_initializer, try_except, initializer_run, run.
  by rewrite Hnone.
Qed.

Lemma complete_run_of (l : list Initializer) (st st' : State) :
  final_iteration ctx = false →
  process_initializers l st = Ok tt st' →
  deferred st' = false →
  for_each initializer_run l st = Ok tt st'.
Proof.
  intros Hf. revert st. induction l as [|i l IH]; intros st Hrun Hd; [done|].
  unfold process_initializers in *. simpl in *. unfold bind in *.
  unfold process_initializer at 1 in Hrun. unfold try_except in Hrun.
  destruct (initializer_run i st) as [[] st1|[] st1]; [by apply IH| |done].
  rewrite Hf in Hrun. simpl in Hrun. exfalso.
  pose proof (keeps_process_initializers _ kept_deferred_stays l (set_deferred st1))
    as Hstays.
  unfold process_initializers in Hstays. rewrite Hrun in Hstays. simpl in Hstays.
  specialize (Hstays eq_refl). congruence.
Qed.

(** X6: Before the final pass, a run that returns without having asked for
    another pass has completed every step: none of them raised, so the
    run is what the eight steps do in sequence with no exception caught. *)
Theorem undeferred_run_is_complete (st st' : State) :
  final_iteration ctx = false →
  process_model_class st = Ok tt st' →
  deferred st' = false →
  for_each initializer_run initializers st = Ok tt st'.
Proof. apply complete_run_of. Qed.

(** *** The steps, case by case *)

(** X7: The shadow identifier of a foreign key whose related model is found
    (lines 121-136): nothing for an abstract related model; otherwise,
    with the class of the related primary key known, the attname is bound
    to that class instantiated with the oracle's pair at the field's own
    nullability; with the class unknown on the final pass, the field is
    passed over and the state stays as it was. *)
Theorem shadow_identifier_synthesis (field : Field) (related_model_cls : RelatedModel)
    (st : State) :
  isinstance_ForeignKey field = true →
  get_field_related_model_cls django_context field = Some related_model_cls →
  (related_abstract related_model_cls = true →
   AddRelatedModelsId_field field st = Ok tt st) ∧
  (related_abstract related_model_cls = false →
   ∀ field_info,
     modules st !! field_class_fullname
                     (get_primary_key_field django_context related_model_cls)
     = Some field_info →
     AddRelatedModelsId_field field st
     = Ok tt (set_info_names
                <[attname field :=
                    new_sym (attname field)
                      (Instance (fullname field_info)
                         [ (get_field_descriptor_types field_info
                              (get_field_nullability django_context field)).1;
                           (get_field_descriptor_types field_info
                              (get_field_nullability django_context field)).2 ])]>
                st)) ∧
  (related_abstract related_model_cls = false →
   modules st !! field_class_fullname
                   (get_primary_key_field django_context related_model_cls) = None →
   final_iteration ctx = true →
   AddRelatedModelsId_field field st = Ok tt st).
Proof.
  intros Hfk Hrel. unfold AddRelatedModelsId_field. rewrite Hfk, Hrel.
  split; [by intros ->|]. split.
  - intros -> info Hl.
    unfold bind, try_except, bind, lookup_class_typeinfo_or_incomplete_defn_error,
      lookup_typeinfo_or_incomplete_defn_error, lookup_typeinfo, bind.
    rewrite Hl. simpl. by destruct (get_field_descriptor_types info _).
  - intros -> Hl Hf.
    unfold bind, try_except, bind, lookup_class_typeinfo_or_incomplete_defn_error,
      lookup_typeinfo_or_incomplete_defn_error, lookup_typeinfo, bind.
    by rewrite Hl, Hf.
Qed.

(** X8: A manager whose type is resolved (lines 216-222): when its name is
    not a symbol of the declaration, the name is bound to the manager's
    type instantiated with the model, and no type is forged; when the name
    is a symbol and no transitive base of the manager's type is an
    [Any]-parametrized manager class, the state stays as it was. *)
Theorem manager_synthesis (manager_name : string) (manager : Manager) (st : State)
    (manager_info : TypeInfo) (manager_class_name : string) :
  resolve_manager manager st = Ok (Some (manager_info, manager_class_name)) st →
  (info_names st !! manager_name = None →
   AddManagers_manager (manager_name, manager) st
   = Ok tt (set_info_names
              <[manager_name :=
                  new_sym manager_name
                    (Instance (fullname manager_info)
                       [Instance (cls_fullname ctx) []])]> st)) ∧
  (is_Some (info_names st !! manager_name) →
   has_any_parametrized_manager_as_base manager_info = inr false →
   AddManagers_manager (manager_name, manager) st = Ok tt st).
Proof.
  intros Hres. unfold AddManagers_manager. rewrite (bind_Ok _ _ _ _ _ Hres).
  unfold bind, get_state. split.
  - intros ->. by rewrite bool_decide_eq_true_2.
  - intros [sym Hsym] Hany. rewrite Hsym, bool_decide_eq_false_2; [|done].
    unfold lift. by rewrite Hany.
Qed.

(** X9: [_default_manager] (lines 234-241): left alone when it is a symbol of
    the declaration; otherwise bound to the default manager's type
    instantiated with the model, or, with that type unknown, the step
    raises the unresolved-dependency exception and changes nothing. *)
Theorem default_manager_attribute (model_cls : ModelCls) (st : State) :
  (is_Some (info_names st !! "_default_manager") →
   AddDefaultManagerAttribute_run_with_model_cls model_cls st = Ok tt st) ∧
  (info_names st !! "_default_manager" = None →
   ∀ default_manager_info,
     modules st !! default_manager_class_fullname model_cls
     = Some default_manager_info →
     AddDefaultManagerAttribute_run_with_model_cls model_cls st
     = Ok tt (set_info_names
                <["_default_manager" :=
                    new_sym "_default_manager"
                      (Instance (fullname default_manager_info)
                         [Instance (cls_fullname ctx) []])]> st)) ∧
  (info_names st !! "_default_manager" = None →
   modules st !! default_manager_class_fullname model_cls = None →
   AddDefaultManagerAttribute_run_with_model_cls model_cls st
   = Raise IncompleteDefnException st).
Proof.
  unfold AddDefaultManagerAttribute_run_with_model_cls, bind, get_state.
  split; [|split].
  - intros [sym Hsym]. by rewrite Hsym, bool_decide_eq_false_2.
  - intros -> info Hl. rewrite bool_decide_eq_true_2; [|done].
    unfold lookup_typeinfo_or_incomplete_defn_error, lookup_typeinfo, bind.
    by rewrite Hl.
  - intros -> Hl. rewrite bool_decide_eq_true_2; [|done].
    unfold lookup_typeinfo_or_incomplete_defn_error, lookup_typeinfo, bind.
    by rewrite Hl.
Qed.

(** X10: [_meta] (lines 314-321): left alone when it is a symbol of the
    declaration; otherwise bound to the options class instantiated with
    the model, or, with the options class unknown, the step raises the
    unresolved-dependency exception and changes nothing. *)
Theorem meta_options_attribute (model_cls : ModelCls) (st : State) :
  (is_Some (info_names st !! "_meta") →
   AddMetaOptionsAttribute_run_with_model_cls model_cls st = Ok tt st) ∧
  (info_names st !! "_meta" = None →
   ∀ options_info,
     modules st !! OPTIONS_CLASS_FULLNAME = Some options_info →
     AddMetaOptionsAttribute_run_with_model_cls model_cls st
     = Ok tt (set_info_names
                <["_meta" :=
                    new_sym "_meta"
                      (Instance (fullname options_info)
                         [Instance (cls_fullname ctx) []])]> st)) ∧
  (info_names st !! "_meta" = None →
   modules st !! OPTIONS_CLASS_FULLNAME = None →
   AddMetaOptionsAttribute_run_with_model_cls model_cls st
   = Raise IncompleteDefnException st).
Proof.
  unfold AddMetaOptionsAttribute_run_with_model_cls, bind, get_state.
  split; [|split].
  - intros [sym Hsym]. by rewrite Hsym, bool_decide_eq_false_2.
  - intros -> info Hl. rewrite bool_decide_eq_true_2; [|done].
    unfold lookup_typeinfo_or_incomplete_defn_error, lookup_typeinfo, bind.
    by rewrite Hl.
  - intros -> Hl. rewrite bool_decide_eq_true_2; [|done].
    unfold lookup_typeinfo_or_incomplete_defn_error, lookup_typeinfo, bind.
    by rewrite Hl.
Qed.

(** X11: The second loop of [AddExtraFieldMethods] (lines 294-311) always
    returns; it binds [get_next_by_<attname>] and
    [get_previous_by_<attname>] of every non-nullable date or datetime
    field to a method that takes a [**kwargs] of any type and returns the
    model's own type, and leaves every other name, and the rest of the
    state, as it was. *)
Theorem date_methods_synthesis (fields : list Field) (st : State) :
  ∃ names',
    for_each AddExtraFieldMethods_date fields st
    = Ok tt (set_info_names (λ _, names') st) ∧
    ∀ name,
      names' !! name
      = if bool_decide (name ∈ date_method_names fields)
        then Some (new_method name [kwargs_argument]
                     (Instance (cls_fullname ctx) []))
        else info_names st !! name.
Proof.
  induction fields as [|field fields IH] using rev_ind.
  - exists (info_names st). split; [by destruct st|].
    intros name. rewrite bool_decide_eq_false_2; [done|].
    unfold date_method_names. simpl. apply not_elem_of_nil.
  - destruct IH as (nm & Hrun & Hnm).
    rewrite (for_each_app _ _ _ _ _ Hrun). simpl. unfold bind.
    rewrite date_method_names_snoc. unfold AddExtraFieldMethods_date.
    destruct (isinstance_DateField_DateTimeField field && negb (null field)).
    + eexists. split; [reflexivity|]. simpl. intros name.
      destruct (decide ("get_previous_by_" +:+ attname field = name)) as [<-|Hp].
      { rewrite lookup_insert_eq, bool_decide_eq_true_2; [done|].
        apply elem_of_app. right. apply elem_of_cons. right.
        apply elem_of_cons. by left. }
      rewrite lookup_insert_ne; [|done].
      destruct (decide ("get_next_by_" +:+ attname field = name)) as [<-|Hn].
      { rewrite lookup_insert_eq, bool_decide_eq_true_2; [done|].
        apply elem_of_app. right. apply elem_of_cons. by left. }
      rewrite lookup_insert_ne; [|done]. rewrite Hnm.
      rewrite (bool_decide_ext (name ∈ date_method_names fields)
                 (name ∈ date_method_names fields ++
                    ["get_next_by_" +:+ attname field;
                     "get_previous_by_" +:+ attname field])); [done|].
      rewrite elem_of_app, !elem_of_cons, elem_of_nil.
      split; [tauto|]. intros [H|[H|[H|H]]]; [done|congruence|congruence|done].
    + exists nm. split; [done|]. intros name. rewrite Hnm, app_nil_r. done.
Qed.

(** X12: The first loop looks [builtins.str] up once per field with choices
    (lines 285-292): with [builtins.str] unknown, a model with a field
    with choices makes the whole step raise before it has written
    anything, so the date methods of the second loop are not added
    either; a model none of whose fields has choices never needs
    [builtins.str], and the step is just its second loop. *)
Theorem choices_need_str (model_cls : ModelCls) (st : State) :
  modules st !! "builtins.str" = None →
  (Exists (λ field, choices field ≠ []) (get_model_fields django_context model_cls) →
   AddExtraFieldMethods_run_with_model_cls model_cls st
   = Raise IncompleteDefnException st) ∧
  (Forall (λ field, choices field = []) (get_model_fields django_context model_cls) →
   AddExtraFieldMethods_run_with_model_cls model_cls st
   = for_each AddExtraFieldMethods_date
       (get_model_fields django_context model_cls) st).
Proof.
  intros Hl. unfold AddExtraFieldMethods_run_with_model_cls.
  generalize (for_each AddExtraFieldMethods_date
                (get_model_fields django_context model_cls)).
  intros second_loop.
  induction (get_model_fields django_context model_cls) as [|field fields IH].
  - split; [by intros H%Exists_nil|done].
  - destruct IH as [IH1 IH2]. simpl. unfold bind at 1 3. unfold bind at 1 2.
    unfold AddExtraFieldMethods_display at 1 3.
    destruct (choices field) as [|c cs] eqn:Ec.
    + split.
      * intros H. apply Exists_cons in H as [H|H]; [done|]. by apply IH1.
      * intros H. apply Forall_cons in H as [_ H]. by apply IH2.
    + unfold bind, lookup_typeinfo_or_incomplete_defn_error, lookup_typeinfo, bind.
      rewrite Hl. simpl. split; [done|].
      intros H. apply Forall_cons in H as [H _]. congruence.
Qed.

(** *** The final pass *)

Lemma for_each_returns {A} (body : A → M unit) (xs : list A) :
  (∀ x st, ∃ st', body x st = Ok tt st') →
  ∀ st, ∃ st', for_each body xs st = Ok tt st'.
Proof.
  intros Hbody. induction xs as [|x xs IH]; intros st; simpl.
  - by exists st.
  - unfold bind. destruct (Hbody x st) as [st1 ->]. apply IH.
Qed.

Lemma for_each_returns_or_IndexError {A} (body : A → M unit) (xs : list A) :
  (∀ x st, (∃ st', body x st = Ok tt st') ∨
           (∃ st', body x st = Raise IndexError st')) →
  ∀ st, (∃ st', for_each body xs st = Ok tt st') ∨
        (∃ st', for_each body xs st = Raise IndexError st').
Proof.
  intros Hbody. induction xs as [|x xs IH]; intros st; simpl.
  - left. by exists st.
  - unfold bind. destruct (Hbody x st) as [[st1 ->]|[st1 ->]]; [apply IH|].
    right. by exists st1.
Qed.

Lemma is_any_parametrized_manager_exc type_fullname args e :
  is_any_parametrized_manager type_fullname args = inl e → e = IndexError.
Proof.
  unfold is_any_parametrized_manager. case_bool_decide; [|done].
  destruct args as [|[] ?]; congruence.
Qed.

Lemma any_parametrized_manager_in_exc l e :
  any_parametrized_manager_in l = inl e → e = IndexError.
Proof.
  induction l as [|[fn args] l IH]; simpl; [done|].
  destruct (is_any_parametrized_manager fn args) as [e'|[]] eqn:E; [|done|done].
  intros [= <-]. by apply (is_any_parametrized_manager_exc fn args).
Qed.

Lemma reparametrize_bases_exc l e :
  reparametrize_bases l = inl e → e = IndexError.
Proof.
  induction l as [|[fn args sub] l IH]; simpl; [done|].
  destruct (is_any_parametrized_manager fn args) as [e'|b] eqn:E.
  - intros [= <-]. by apply (is_any_parametrized_manager_exc fn args).
  - destruct (reparametrize_bases l); [|done]. intros [= <-]. by apply IH.
Qed.

Lemma resolve_manager_result_on_final_pass mods manager e :
  final_iteration ctx = true →
  resolve_manager_result mods manager = inl e → e = IndexError.
Proof.
  intros Hf. unfold resolve_manager_result. rewrite Hf. simpl.
  repeat match goal with
         | |- context [match ?x with _ => _ end] => destruct x
         end; congruence.
Qed.

Lemma AddRelatedManagers_relation_on_final_pass relation st :
  final_iteration ctx = true →
  ∃ st', AddRelatedManagers_relation relation st = Ok tt st'.
Proof.
  intros Hf. unfold AddRelatedManagers_relation.
  destruct (get_accessor_name relation) as [accessor|]; [|by exists st].
  destruct (get_relation_related_model_cls django_context relation) as [rm|];
    [|by exists st].
  unfold bind, try_except, bind, lookup_class_typeinfo_or_incomplete_defn_error,
    lookup_typeinfo_or_incomplete_defn_error, lookup_typeinfo, bind.
  destruct (modules st !! related_fullname rm) as [info|]; simpl.
  2:{ rewrite Hf. simpl. by exists st. }
  destruct (isinstance_OneToOneRel relation); [by eexists|].
  destruct (isinstance_ManyToOneRel_ManyToManyRel relation); [|by exists st].
  destruct (modules st !! RELATED_MANAGER_CLASS) as [minfo|]; simpl; [by eexists|].
  rewrite Hf. simpl. by exists st.
Qed.

Lemma AddManagers_manager_on_final_pass item st :
  final_iteration ctx = true →
  (∃ st', AddManagers_manager item st = Ok tt st') ∨
  (∃ st', AddManagers_manager item st = Raise IndexError st').
Proof.
  intros Hf. destruct item as [manager_name manager].
  remember (AddManagers_manager (manager_name, manager) st) as r eqn:Hr.
  unfold AddManagers_manager in Hr. unfold bind at 1 in Hr.
  rewrite resolve_manager_spec in Hr.
  destruct (resolve_manager_result (modules st) manager) as [e|[[info cn]|]] eqn:Er.
  - apply (resolve_manager_result_on_final_pass _ _ _ Hf) in Er as ->.
    right. by exists st.
  - unfold bind at 1 in Hr. unfold get_state in Hr.
    case_bool_decide; [left; by eexists|].
    unfold bind at 1 in Hr. unfold lift at 1 in Hr.
    destruct (has_any_parametrized_manager_as_base info) as [e|b] eqn:Ea.
    { apply any_parametrized_manager_in_exc in Ea as ->. right. by exists st. }
    destruct b; simpl in Hr; [|left; by exists st].
    unfold bind at 1 in Hr.
    unfold try_except, create_new_model_parametrized_manager in Hr.
    unfold bind at 1 in Hr. unfold bind at 1 in Hr. unfold lift in Hr.
    destruct (reparametrize_bases (bases info)) as [e|bases'] eqn:Eb.
    { apply reparametrize_bases_exc in Eb as ->. right. by exists st. }
    left. eexists. rewrite Hr. reflexivity.
  - left. by exists st.
Qed.

(** X13: On the final pass the three looping steps pass over what they cannot
    resolve instead of raising (lines 127-131, 201-213, 259-263, 272-276):
    the foreign keys step and the reverse relations step always return,
    and the managers step returns unless a manager type is ill-formed
    (IndexError); none of them raises the unresolved-dependency
    exception. *)
Theorem looping_steps_on_final_pass (st : State) :
  final_iteration ctx = true →
  (∃ st', initializer_run AddRelatedModelsId st = Ok tt st') ∧
  (∃ st', initializer_run AddRelatedManagers st = Ok tt st') ∧
  ((∃ st', initializer_run AddManagers st = Ok tt st') ∨
   (∃ st', initializer_run AddManagers st = Raise IndexError st')).
Proof.
  intros Hf. simpl. unfold run.
  destruct (get_model_class_by_fullname django_context (cls_fullname ctx)) as [m|].
  2:{ split; [by exists st|]. split; [by exists st|]. left. by exists st. }
  split; [|split].
  - apply for_each_returns. intros field st0.
    destruct (AddRelatedModelsId_field_on_final_pass field st0 Hf) as (st' & H & _).
    by exists st'.
  - apply for_each_returns. intros relation st0.
    by apply AddRelatedManagers_relation_on_final_pass.
  - apply for_each_returns_or_IndexError. intros item st0.
    by apply AddManagers_manager_on_final_pass.
Qed.

(** *** What a run that returns has bound *)

Lemma for_each_app_Ok_inv {A} (body : A → M unit) (xs ys : list A) st st' :
  for_each body (xs ++ ys) st = Ok tt st' →
  ∃ st1, for_each body xs st = Ok tt st1 ∧ for_each body ys st1 = Ok tt st'.
Proof.
  revert st. induction xs as [|x xs IH]; intros st; simpl.
  - intros H. by exists st.
  - unfold bind. destruct (body x st) as [[] st1|e st1]; [apply IH|done].
Qed.

(** What one step establishes, given a type known when the step starts,
    holds when the run ends, if later steps can only add names. *)
Lemma established_by_step (before after : list Initializer) (i : Initializer)
    (key : string) (P : State → Prop) :
  initializers = before ++ i :: after →
  (∀ st st', P st → dom (info_names st) ⊆ dom (info_names st') → P st') →
  (∀ st1 st2, is_Some (modules st1 !! key) →
              process_initializer i st1 = Ok tt st2 → P st2) →
  ∀ st st', is_Some (modules st !! key) →
            process_model_class st = Ok tt st' → P st'.
Proof.
  intros Hsplit Hmono Hstep st st' Hkey Hrun.
  unfold process_model_class, process_initializers in Hrun. rewrite Hsplit in Hrun.
  apply for_each_app_Ok_inv in Hrun as (st1 & Hbefore & Hrest).
  simpl in Hrest. unfold bind in Hrest.
  destruct (process_initializer i st1) as [[] st2|e st2] eqn:Hi; [|done].
  assert (Hkey1 : is_Some (modules st1 !! key)).
  { apply elem_of_dom. apply elem_of_dom in Hkey.
    pose proof (keeps_process_initializers _ kept_types_grow before st) as Hg.
    unfold process_initializers in Hg. rewrite Hbefore in Hg. simpl in Hg.
    by apply Hg. }
  apply (Hmono st2); [by apply (Hstep st1)|].
  pose proof (keeps_process_initializers _ kept_names_grow after st2) as Hg.
  unfold process_initializers in Hg. rewrite Hrest in Hg. exact Hg.
Qed.

Lemma is_Some_names_grow name (st st' : State) :
  is_Some (info_names st !! name) →
  dom (info_names st) ⊆ dom (info_names st') →
  is_Some (info_names st' !! name).
Proof. rewrite <-!elem_of_dom. intros H Hsub. by apply Hsub. Qed.

Lemma has_readable_member_grow name (st st' : State) :
  has_readable_member st name = true →
  dom (info_names st) ⊆ dom (info_names st') →
  has_readable_member st' name = true.
Proof.
  unfold has_readable_member, info_get. intros H Hsub.
  apply bool_decide_eq_true_1 in H. apply bool_decide_eq_true_2.
  destruct (info_names st !! name) as [sym|] eqn:E.
  - destruct (is_Some_names_grow name st st') as [sym' ->]; [by rewrite E|done|].
    eauto.
  - destruct (info_names st' !! name); [eauto|done].
Qed.

(** X14: For a declaration backed by a model, a run of the pipeline that
    returns leaves [_meta] bound if the options class was known when it
    started, [_default_manager] bound if the default manager's class was
    known, and the automatic identity field's attname readable if that
    field's class was known. *)
Theorem returned_run_has_bound (model_cls : ModelCls) (st st' : State) :
  get_model_class_by_fullname django_context (cls_fullname ctx) = Some model_cls →
  process_model_class st = Ok tt st' →
  (is_Some (modules st !! OPTIONS_CLASS_FULLNAME) →
   is_Some (info_names st' !! "_meta")) ∧
  (is_Some (modules st !! default_manager_class_fullname model_cls) →
   is_Some (info_names st' !! "_default_manager")) ∧
  (∀ field, auto_field model_cls = Some field →
            is_Some (modules st !! field_class_fullname field) →
            has_readable_member st' (attname field) = true).
Proof.
  intros Hmodel Hrun. split; [|split].
  - intros Hkey.
    apply (established_by_step
             [InjectAnyAsBaseForNestedMeta; AddDefaultPrimaryKey; AddRelatedModelsId;
              AddManagers; AddDefaultManagerAttribute; AddRelatedManagers;
              AddExtraFieldMethods] [] AddMetaOptionsAttribute
             OPTIONS_CLASS_FULLNAME
             (λ s, is_Some (info_names s !! "_meta"))) with (st := st);
      [done|apply is_Some_names_grow| |done|done].
    intros st1 st2 [info Hinfo].
    unfold process_initializer, try_except. simpl. unfold run. rewrite Hmodel.
    unfold AddMetaOptionsAttribute_run_with_model_cls, bind, get_state.
    destruct (info_names st1 !! "_meta") as [sym|] eqn:E.
    + rewrite bool_decide_eq_false_2; [|done]. intros [= <-]. by rewrite E.
    + rewrite bool_decide_eq_true_2; [|done].
      unfold lookup_typeinfo_or_incomplete_defn_error, lookup_typeinfo, bind.
      rewrite Hinfo. intros [= <-]. simpl. rewrite lookup_insert_eq. eauto.
  - intros Hkey.
    apply (established_by_step
             [InjectAnyAsBaseForNestedMeta; AddDefaultPrimaryKey; AddRelatedModelsId;
              AddManagers]
             [AddRelatedManagers; AddExtraFieldMethods; AddMetaOptionsAttribute]
             AddDefaultManagerAttribute
             (default_manager_class_fullname model_cls)
             (λ s, is_Some (info_names s !! "_default_manager"))) with (st := st);
      [done|apply is_Some_names_grow| |done|done].
    intros st1 st2 [info Hinfo].
    unfold process_initializer, try_except. simpl. unfold run. rewrite Hmodel.
    unfold AddDefaultManagerAttribute_run_with_model_cls, bind, get_state.
    destruct (info_names st1 !! "_default_manager") as [sym|] eqn:E.
    + rewrite bool_decide_eq_false_2; [|done]. intros [= <-]. by rewrite E.
    + rewrite bool_decide_eq_true_2; [|done].
      unfold lookup_typeinfo_or_incomplete_defn_error, lookup_typeinfo, bind.
      rewrite Hinfo. intros [= <-]. simpl. rewrite lookup_insert_eq. eauto.
  - intros field Hauto Hkey.
    apply (established_by_step
             [InjectAnyAsBaseForNestedMeta]
             [AddRelatedModelsId; AddManagers; AddDefaultManagerAttribute;
              AddRelatedManagers; AddExtraFieldMethods; AddMetaOptionsAttribute]
             AddDefaultPrimaryKey
             (field_class_fullname field)
             (λ s, has_readable_member s (attname field) = true)) with (st := st);
      [done|apply has_readable_member_grow| |done|done].
    intros st1 st2 [info Hinfo].
    unfold process_initializer, try_except. simpl. unfold run. rewrite Hmodel.
    unfold AddDefaultPrimaryKey_run_with_model_cls, bind, get_state. rewrite Hauto.
    destruct (has_readable_member st1 (attname field)) eqn:E; simpl.
    + by intros [= <-].
    + unfold lookup_typeinfo_or_incomplete_defn_error, lookup_typeinfo, bind.
      rewrite Hinfo. unfold ret.
      destruct (get_field_descriptor_types info false). intros [= <-].
      unfold has_readable_member, info_get. simpl. rewrite lookup_insert_eq.
      apply bool_decide_eq_true_2. eauto.
Qed.

(** *** The forge and its test *)

Lemma copy_members_lookup custom_manager_fullname custom_manager_type
    (template_names : SymbolTable) (member : string) :
  copy_members custom_manager_fullname custom_manager_type template_names !! member
  = copy_member custom_manager_fullname custom_manager_type member
      <$> template_names !! member.
Proof.
  unfold copy_members. revert member.
  apply (map_fold_weak_ind
           (λ r (m : SymbolTable),
              ∀ member, r !! member
                        = copy_member custom_manager_fullname custom_manager_type
                            member <$> m !! member)).
  - intros member. by rewrite !lookup_empty.
  - intros i x m r _ IH member. rewrite !lookup_insert.
    case_decide; [by subst|apply IH].
Qed.

(** X15: [create_new_model_parametrized_manager] (lines 156-193): when the
    loop over the template's bases raises, nothing has been registered
    and the state is as it was; otherwise the call returns the new type
    instantiated with the model, and the only change to the state is the
    new type, registered under the module of the declaration: its members
    are, name by name, the copies of the template's members, and every
    other known type, the template among them, the declaration's symbols,
    the diagnostics and the deferral flag are untouched. *)
Theorem forged_manager_type (name : string) (base_manager_info : TypeInfo)
    (st : State) :
  (∀ e, reparametrize_bases (bases base_manager_info) = inl e →
        create_new_model_parametrized_manager name base_manager_info st
        = Raise e st) ∧
  (∀ bases',
     reparametrize_bases (bases base_manager_info) = inr bases' →
     ∃ custom_manager_info,
       create_new_model_parametrized_manager name base_manager_info st
       = Ok (Instance (cls_module_name ctx +:+ "." +:+ name)
               [Instance (cls_fullname ctx) []])
            (set_modules
               <[cls_module_name ctx +:+ "." +:+ name := custom_manager_info]> st) ∧
       fullname custom_manager_info = cls_module_name ctx +:+ "." +:+ name ∧
       bases custom_manager_info = bases' ∧
       ∀ member,
         names custom_manager_info !! member
         = copy_member (cls_module_name ctx +:+ "." +:+ name)
             (Instance (cls_module_name ctx +:+ "." +:+ name)
                [Instance (cls_fullname ctx) []])
             member <$> names base_manager_info !! member).
Proof.
  unfold create_new_model_parametrized_manager. split.
  - intros e He. unfold bind at 1. unfold lift. by rewrite He.
  - intros bases' Hb.
    eexists {| fullname := _; bases := bases'; names := _;
               from_queryset_managers := None |}.
    split; [|split; [reflexivity|split; [reflexivity|]]].
    + unfold bind at 1. unfold lift. rewrite Hb.
      unfold bind, add_new_class_for_module, bind, modify, ret, set_modules. simpl.
      rewrite insert_insert_eq. reflexivity.
    + intros member. simpl. apply copy_members_lookup.
Qed.

Lemma any_parametrized_manager_in_false l :
  any_parametrized_manager_in l = inr false ↔
  Forall (λ b, is_any_parametrized_manager b.1 b.2 = inr false) l.
Proof.
  induction l as [|[fn args] l IH]; simpl.
  - split; [constructor|done].
  - destruct (is_any_parametrized_manager fn args) as [e|[]] eqn:E.
    + split; [done|]. intros H. apply Forall_cons in H as [H _]. simpl in H.
      congruence.
    + split; [done|]. intros H. apply Forall_cons in H as [H _]. simpl in H.
      congruence.
    + rewrite IH. split; [by constructor|]. intros H. by apply Forall_cons in H as [_ H].
Qed.

Lemma any_parametrized_manager_in_true l :
  any_parametrized_manager_in l = inr true →
  Exists (λ b, is_any_parametrized_manager b.1 b.2 = inr true) l.
Proof.
  induction l as [|[fn args] l IH]; simpl; [done|].
  destruct (is_any_parametrized_manager fn args) as [e|[]] eqn:E; [done| |].
  - intros _. by apply Exists_cons_hd.
  - intros H. apply Exists_cons_tl. by apply IH.
Qed.

(** X16: [has_any_parametrized_manager_as_base] (lines 140-147) answers false
    exactly when no transitive base of the type is a manager class
    instantiated with [Any]; when it answers true some transitive base is
    one; and the only exception it can raise is the IndexError of a
    manager class without type arguments. *)
Theorem any_parametrized_manager_test (info : TypeInfo) :
  (has_any_parametrized_manager_as_base info = inr false ↔
   Forall (λ b, is_any_parametrized_manager b.1 b.2 = inr false) (iter_bases info)) ∧
  (has_any_parametrized_manager_as_base info = inr true →
   Exists (λ b, is_any_parametrized_manager b.1 b.2 = inr true) (iter_bases info)) ∧
  (∀ e, has_any_parametrized_manager_as_base info = inl e → e = IndexError).
Proof.
  unfold has_any_parametrized_manager_as_base. split; [|split].
  - apply any_parametrized_manager_in_false.
  - apply any_parametrized_manager_in_true.
  - intros e. apply any_parametrized_manager_in_exc.
Qed.

Lemma reparametrize_bases_unchanged (l : list Bases) :
  Forall (λ b, is_any_parametrized_manager b.1 b.2 = inr false)
    (flat_map iter_bases_of l) →
  reparametrize_bases l = inr l.
Proof.
  induction l as [|[fn args sub] l IH]; simpl; [done|].
  intros H. apply Forall_cons in H as [Hhd H]. simpl in Hhd.
  apply Forall_app in H as [_ H]. rewrite Hhd, (IH H). done.
Qed.

(** X17: The test looks at all the transitive bases and the forge rewrites the
    direct ones (lines 141-143, 158-165): for a type that fails the test
    the forge would keep every base as it is, so passing such a manager
    over (lines 221-222) loses no specialization. *)
Theorem unspecializable_manager_keeps_its_bases (info : TypeInfo) :
  has_any_parametrized_manager_as_base info = inr false →
  reparametrize_bases (bases info) = inr (bases info).
Proof.
  intros H. apply reparametrize_bases_unchanged.
  by apply any_parametrized_manager_in_false.
Qed.

Lemma rsplit_dot_1_None (s : string) :
  rsplit_dot_1 s = None ↔ contains_dot s = false.
Proof.
  induction s as [|c s IH]; simpl; [done|].
  destruct (rsplit_dot_1 s) as [t|].
  - split; [done|]. intros H. apply orb_false_iff in H as [_ H].
    by apply IH in H.
  - destruct (Ascii.eqb c "."); simpl; [done|]. by rewrite <-IH.
Qed.

Lemma rsplit_dot_1_app (m n : string) :
  contains_dot n = false → rsplit_dot_1 (m +:+ "." +:+ n) = Some n.
Proof.
  intros Hn. induction m as [|c m IH].
  - change ("" +:+ "." +:+ n) with (String "."%char n). simpl.
    by rewrite (proj2 (rsplit_dot_1_None n) Hn).
  - change (String c m +:+ "." +:+ n) with (String c (m +:+ "." +:+ n)).
    simpl. by rewrite IH.
Qed.

(** X18: The class name taken from the real manager's full name (line 214) is
    what follows its last dot: [rsplit_dot_1] answers [n] exactly on the
    names [m.n] with no dot in [n], and fails, as the IndexError of
    [rsplit(...)[1]], exactly on the names without a dot. *)
Theorem rsplit_dot_1_spec (s : string) :
  (rsplit_dot_1 s = None ↔ contains_dot s = false) ∧
  (∀ n, rsplit_dot_1 s = Some n ↔
        contains_dot n = false ∧ ∃ m, s = m +:+ "." +:+ n).
Proof.
  split; [apply rsplit_dot_1_None|]. intros n. split.
  - revert n. induction s as [|c s IH]; intros n; simpl; [done|].
    destruct (rsplit_dot_1 s) as [t|] eqn:E.
    + intros [= <-]. destruct (IH t eq_refl) as (Ht & m & ->).
      split; [done|]. by exists (String c m).
    + destruct (Ascii.eqb c ".") eqn:Ec; [|done]. intros [= <-].
      apply Ascii.eqb_eq in Ec as ->. split; [by apply rsplit_dot_1_None|].
      by exists "".
  - intros (Hn & m & ->). by apply rsplit_dot_1_app.
Qed.

(** *** What is passed over, and what is not *)

(** X19: A reverse relation is passed over, with the state as it was and no
    exception, also before the final pass, when the introspection layer
    gives no related model for it (lines 253-255), and when its related
    model is known but the relation is of none of the three kinds (lines
    265-279); on the final pass it is passed over as well when the related
    model's type, or the related-manager type it needs, is unknown. *)
Theorem relation_passed_over (relation : Relation) (st : State) :
  (get_relation_related_model_cls django_context relation = None →
   AddRelatedManagers_relation relation st = Ok tt st) ∧
  (∀ accessor related_model_cls,
     get_accessor_name relation = Some accessor →
     get_relation_related_model_cls django_context relation = Some related_model_cls →
     (is_Some (modules st !! related_fullname related_model_cls) →
      relation_class relation = OtherRel →
      AddRelatedManagers_relation relation st = Ok tt st) ∧
     (final_iteration ctx = true →
      modules st !! related_fullname related_model_cls = None →
      AddRelatedManagers_relation relation st = Ok tt st) ∧
     (final_iteration ctx = true →
      is_Some (modules st !! related_fullname related_model_cls) →
      relation_class relation = ManyToOneRel ∨
      relation_class relation = ManyToManyRel →
      modules st !! RELATED_MANAGER_CLASS = None →
      AddRelatedManagers_relation relation st = Ok tt st)).
Proof.
  unfold AddRelatedManagers_relation. split.
  - intros ->. by destruct (get_accessor_name relation).
  - intros accessor rm -> ->.
    unfold bind, try_except, bind, lookup_class_typeinfo_or_incomplete_defn_error,
      lookup_typeinfo_or_incomplete_defn_error, lookup_typeinfo, bind,
      isinstance_OneToOneRel, isinstance_ManyToOneRel_ManyToManyRel.
    split; [|split].
    + intros [info ->] ->. done.
    + intros -> ->. done.
    + intros Hf [info ->] Hkind Hm. simpl.
      destruct Hkind as [-> | ->]; simpl; by rewrite Hm, Hf.
Qed.

(** X20: The default primary key of a model whose identity field's class is
    unknown (lines 96-97): the step raises the unresolved-dependency
    exception with the state as it was, on every pass; the controller
    turns that into a request for another pass before the final pass, and
    into nothing at all on the final pass. *)
Theorem default_primary_key_unresolved (model_cls : ModelCls) (field : Field)
    (st : State) :
  get_model_class_by_fullname django_context (cls_fullname ctx) = Some model_cls →
  auto_field model_cls = Some field →
  has_readable_member st (attname field) = false →
  modules st !! field_class_fullname field = None →
  initializer_run AddDefaultPrimaryKey st = Raise IncompleteDefnException st ∧
  process_initializer AddDefaultPrimaryKey st
  = Ok tt (if final_iteration ctx then st else set_deferred st).
Proof.
  intros Hm Ha Hr Hl.
  assert (H : initializer_run AddDefaultPrimaryKey st
              = Raise IncompleteDefnException st).
  { simpl. unfold run. rewrite Hm.
    unfold AddDefaultPrimaryKey_run_with_model_cls, bind, get_state.
    rewrite Ha, Hr. simpl.
    unfold lookup_typeinfo_or_incomplete_defn_error, lookup_typeinfo, bind.
    by rewrite Hl. }
  split; [done|]. by apply process_initializer_raise.
Qed.

End Transformers.

(** ** The transformers on the example declarations *)

Lemma run_without_model_is_noop_witness :
  initializer_run MANAGER_CLASSES_0 RELATED_MANAGER_CLASS_0 OPTIONS_CLASS_FULLNAME_0
    descriptor_types_0 no_model_context (book_ctx false)
    AddManagers abstract_base_state
  = Ok tt abstract_base_state.
Proof.
  apply (run_without_model_is_noop MANAGER_CLASSES_0 RELATED_MANAGER_CLASS_0
           OPTIONS_CLASS_FULLNAME_0 descriptor_types_0 no_model_context
           (book_ctx false) AddManagers abstract_base_state eq_refl).
  discriminate.
Defined.

(** C5 (as stated) fails for the nested-options step: the declaration has
    no model class, and its nested [Meta] is marked all the same. *)
Lemma nested_meta_marked_without_model :
  get_model_class_by_fullname no_model_context (cls_fullname (book_ctx false)) = None ∧
  info_names (result_state
    (initializer_run MANAGER_CLASSES_0 RELATED_MANAGER_CLASS_0 OPTIONS_CLASS_FULLNAME_0
       descriptor_types_0 no_model_context (book_ctx false)
       InjectAnyAsBaseForNestedMeta abstract_base_state)) !! "Meta"
  = Some (meta_symbol true) ∧
  info_names abstract_base_state !! "Meta" = Some (meta_symbol false) ∧
  meta_symbol true ≠ meta_symbol false.
Proof. repeat split; try reflexivity. discriminate. Qed.

Lemma default_primary_key_synthesis_witness :
  initializer_run MANAGER_CLASSES_0 RELATED_MANAGER_CLASS_0 OPTIONS_CLASS_FULLNAME_0
    descriptor_types_0 library (book_ctx false) AddDefaultPrimaryKey book_state
  = Ok tt (set_info_names
             <["id" := new_sym (book_ctx false) "id"
                         (Instance "django.db.models.fields.AutoField"
                            [int_type; int_type])]> book_state).
Proof.
  exact (proj1 (default_primary_key_synthesis MANAGER_CLASSES_0
                  RELATED_MANAGER_CLASS_0 OPTIONS_CLASS_FULLNAME_0 descriptor_types_0
                  library (book_ctx false)
                  (book_model book_fields [("objects", book_manager)])
                  book_state eq_refl)
               id_field (plain_class "django.db.models.fields.AutoField")
               eq_refl eq_refl eq_refl).
Defined.

Lemma related_manager_kind_dispatch_witness :
  AddRelatedManagers_relation RELATED_MANAGER_CLASS_0 library (book_ctx false)
    cover book_state
  = Ok tt (set_info_names
             <["cover" := new_sym (book_ctx false) "cover"
                            (Instance "app.models.Chapter" [])]> book_state) ∧
  AddRelatedManagers_relation RELATED_MANAGER_CLASS_0 library (book_ctx false)
    chapter_set book_state
  = Ok tt (set_info_names
             <["chapter_set" :=
                 new_sym (book_ctx false) "chapter_set"
                   (Instance "django.db.models.manager.RelatedManager"
                      [Instance "app.models.Chapter" []])]> book_state) ∧
  AddRelatedManagers_relation RELATED_MANAGER_CLASS_0 library (book_ctx true)
    chapter_set no_related_manager_state
  = Ok tt no_related_manager_state ∧
  AddRelatedManagers_relation RELATED_MANAGER_CLASS_0 library (book_ctx false)
    hidden_relation book_state
  = Ok tt book_state.
Proof.
  split; [|split; [|split]].
  - exact (proj1 (proj2 (related_manager_kind_dispatch RELATED_MANAGER_CLASS_0
                           library (book_ctx false) cover book_state)
                    "cover" chapter_model (plain_class "app.models.Chapter")
                    eq_refl eq_refl eq_refl) eq_refl).
  - exact (proj1 (proj2 (proj2 (related_manager_kind_dispatch RELATED_MANAGER_CLASS_0
                                  library (book_ctx false) chapter_set book_state)
                           "chapter_set" chapter_model (plain_class "app.models.Chapter")
                           eq_refl eq_refl eq_refl))
                 (or_introl eq_refl)
                 (plain_class "django.db.models.manager.RelatedManager") eq_refl).
  - exact (proj2 (proj2 (proj2 (related_manager_kind_dispatch RELATED_MANAGER_CLASS_0
                                  library (book_ctx true) chapter_set
                                  no_related_manager_state)
                           "chapter_set" chapter_model (plain_class "app.models.Chapter")
                           eq_refl eq_refl eq_refl))
                 (or_introl eq_refl) eq_refl).
  - exact (proj1 (related_manager_kind_dispatch RELATED_MANAGER_CLASS_0
                    library (book_ctx false) hidden_relation book_state) eq_refl).
Defined.

(** C7 (as stated) fails while the related-manager class is not known:
    [chapter_set] is a many-to-one relation with an accessor name, the
    class of its related model is known, and the step binds no
    [chapter_set]: on the final pass it passes the relation over, and
    before the final pass it raises. *)
Lemma related_manager_class_unknown :
  relation_class chapter_set = ManyToOneRel ∧
  get_accessor_name chapter_set = Some "chapter_set" ∧
  get_relation_related_model_cls library chapter_set = Some chapter_model ∧
  modules no_related_manager_state !! related_fullname chapter_model
  = Some (plain_class "app.models.Chapter") ∧
  info_names no_related_manager_state !! "chapter_set" = None ∧
  AddRelatedManagers_relation RELATED_MANAGER_CLASS_0 library (book_ctx true)
    chapter_set no_related_manager_state
  = Ok tt no_related_manager_state ∧
  info_names (result_state
    (initializer_run MANAGER_CLASSES_0 RELATED_MANAGER_CLASS_0 OPTIONS_CLASS_FULLNAME_0
       descriptor_types_0 library (book_ctx true) AddRelatedManagers
       no_related_manager_state)) !! "chapter_set"
  = None ∧
  AddRelatedManagers_relation RELATED_MANAGER_CLASS_0 library (book_ctx false)
    chapter_set no_related_manager_state
  = Raise IncompleteDefnException no_related_manager_state.
Proof. repeat split; vm_compute; reflexivity. Qed.

Lemma choice_accessor_synthesis_witness :
  info_names (result_state
    (initializer_run MANAGER_CLASSES_0 RELATED_MANAGER_CLASS_0 OPTIONS_CLASS_FULLNAME_0
       descriptor_types_0 library (book_ctx false) AddExtraFieldMethods book_state))
    !! "get_genre_display"
  = Some (new_method (book_ctx false) "get_genre_display" []
            (Instance "builtins.str" [])) ∧
  info_names (result_state
    (initializer_run MANAGER_CLASSES_0 RELATED_MANAGER_CLASS_0 OPTIONS_CLASS_FULLNAME_0
       descriptor_types_0 library (book_ctx false) AddExtraFieldMethods book_state))
    !! "get_id_display"
  = None.
Proof.
  destruct (choice_accessor_synthesis MANAGER_CLASSES_0 RELATED_MANAGER_CLASS_0
              OPTIONS_CLASS_FULLNAME_0 descriptor_types_0 library (book_ctx false)
              (book_model book_fields [("objects", book_manager)])
              book_state (plain_class "builtins.str") eq_refl eq_refl)
    as (st' & Hrun & Hsome & Hnone).
  change (get_model_fields library (book_model book_fields [("objects", book_manager)]))
    with book_fields in *.
  rewrite Hrun. simpl. split.
  - apply (Hsome genre_field); [|discriminate|apply not_elem_of_nil].
    apply elem_of_cons; right; apply elem_of_cons; by left.
  - transitivity (info_names book_state !! display_method_name id_field);
      [|reflexivity].
    apply (Hnone id_field);
      [apply elem_of_cons; by left|reflexivity| |apply not_elem_of_nil].
    intros other Hin Hchoices.
    apply elem_of_cons in Hin as [->|Hin]; [done|].
    apply elem_of_cons in Hin as [->|Hin]; [discriminate|].
    apply elem_of_cons in Hin as [->|Hin]; [done|].
    apply elem_of_cons in Hin as [->|Hin]; [done|].
    apply elem_of_cons in Hin as [->|Hin]; [done|].
    by apply elem_of_nil in Hin.
Defined.

(** C8 (as stated) fails when the accessor name of a field with choices
    is also the name of a date method: [next_by_pub] has choices,
    [pub_display] is a date that is never null, and after the step (and
    after the whole pipeline) [get_next_by_pub_display] is the date
    method, which takes [**kwargs] and returns the model.  It fails as
    well while [builtins.str] is not known: [genre] has choices, and the
    pipeline on its final pass leaves no [get_genre_display]. *)
Lemma choice_accessor_not_synthesized :
  next_by_pub_field ∈ get_model_fields clashing_library
                        (book_model clashing_fields [("objects", book_manager)]) ∧
  choices next_by_pub_field = [("A", "Alpha"); ("B", "Beta")] ∧
  display_method_name next_by_pub_field = "get_next_by_pub_display" ∧
  modules book_state !! "builtins.str" = Some (plain_class "builtins.str") ∧
  info_names (result_state
    (initializer_run MANAGER_CLASSES_0 RELATED_MANAGER_CLASS_0 OPTIONS_CLASS_FULLNAME_0
       descriptor_types_0 clashing_library (book_ctx false) AddExtraFieldMethods
       book_state)) !! "get_next_by_pub_display"
  = Some (new_method (book_ctx false) "get_next_by_pub_display" [kwargs_argument]
            (Instance "app.models.Book" [])) ∧
  info_names (result_state
    (process_model_class MANAGER_CLASSES_0 RELATED_MANAGER_CLASS_0
       OPTIONS_CLASS_FULLNAME_0 descriptor_types_0 clashing_library (book_ctx false)
       book_state)) !! "get_next_by_pub_display"
  = Some (new_method (book_ctx false) "get_next_by_pub_display" [kwargs_argument]
            (Instance "app.models.Book" [])) ∧
  new_method (book_ctx false) "get_next_by_pub_display" [kwargs_argument]
    (Instance "app.models.Book" [])
  ≠ new_method (book_ctx false) "get_next_by_pub_display" []
      (Instance "builtins.str" []) ∧
  genre_field ∈ get_model_fields library
                  (book_model book_fields [("objects", book_manager)]) ∧
  choices genre_field = [("A", "Alpha"); ("B", "Beta")] ∧
  modules no_str_state !! "builtins.str" = None ∧
  info_names (result_state
    (process_model_class MANAGER_CLASSES_0 RELATED_MANAGER_CLASS_0
       OPTIONS_CLASS_FULLNAME_0 descriptor_types_0 library (book_ctx true)
       no_str_state)) !! "get_genre_display"
  = None.
Proof.
  split; [apply elem_of_cons; right; apply elem_of_cons; by left|].
  do 5 (split; [vm_compute; reflexivity|]).
  split; [discriminate|].
  split; [apply elem_of_cons; right; apply elem_of_cons; by left|].
  repeat split; vm_compute; reflexivity.
Qed.

Lemma related_model_not_found_witness :
  AddRelatedModelsId_field descriptor_types_0 library (book_ctx false)
    publisher_field declared_publisher_state
  = Ok tt (set_info_names
             <["publisher_id" :=
                 new_sym (book_ctx false) "publisher_id" (AnyType explicit)]>
             (add_message
                "Cannot find model 'press.Publisher' referenced in field 'publisher' "
                (CtxNode (OtherNode 15)) declared_publisher_state)).
Proof.
  exact (proj1 (related_model_not_found descriptor_types_0 library (book_ctx false)
                  publisher_field declared_publisher_state eq_refl eq_refl)).
Defined.

(** C2 (as stated) fails on the place of the diagnostic: [publisher] is a
    field of the model with no symbol in the class, and the diagnostic
    goes to the class definition. *)
Lemma diagnostic_at_class_definition :
  isinstance_ForeignKey publisher_field = true ∧
  get_field_related_model_cls library publisher_field = None ∧
  info_get (book_ctx false) book_state (field_name publisher_field) = None ∧
  messages (result_state
    (AddRelatedModelsId_field descriptor_types_0 library (book_ctx false)
       publisher_field book_state))
  = [("Cannot find model 'press.Publisher' referenced in field 'publisher' ",
      CtxClassDef "app.models.Book")].
Proof. repeat split. Qed.

Lemma unresolved_manager_on_final_pass_witness :
  resolve_manager (book_ctx true) generated_manager generated_manager_state
  = Ok (Some (book_manager_class, "BookManager")) generated_manager_state.
Proof.
  exact (proj1 (unresolved_manager_on_final_pass MANAGER_CLASSES_0
                  (book_ctx true) "objects" generated_manager generated_manager_state
                  {[ "django.db.models.manager.ManagerFromBookQuerySet"
                     := "app.models.BookManager" ]}
                  eq_refl eq_refl eq_refl)
               "app.models.BookManager" book_manager_class "BookManager"
               eq_refl eq_refl eq_refl).
Defined.

(** C9 (as stated) fails before the final pass: the manager was made from
    a queryset, the mapping has it and the real name is known, and still
    the round raises instead of looking the real name up. *)
Lemma no_alternate_lookup_before_final_pass :
  modules generated_manager_state !! manager_class_fullname generated_manager = None ∧
  get_generated_manager_mappings (manager_first_base_fullname generated_manager)
    generated_manager_state
  = Ok {[ "django.db.models.manager.ManagerFromBookQuerySet"
          := "app.models.BookManager" ]} generated_manager_state ∧
  modules generated_manager_state !! "app.models.BookManager"
  = Some book_manager_class ∧
  AddManagers_manager MANAGER_CLASSES_0 (book_ctx false)
    ("objects", generated_manager) generated_manager_state
  = Raise IncompleteDefnException generated_manager_state.
Proof. repeat split. Qed.

Lemma rest_of_step_not_processed_witness :
  process_initializer MANAGER_CLASSES_0 RELATED_MANAGER_CLASS_0
    OPTIONS_CLASS_FULLNAME_0 descriptor_types_0 library (book_ctx false)
    AddRelatedModelsId book_state
  = Ok tt (set_deferred
             (set_info_names
                <["author_id" :=
                    new_sym (book_ctx false) "author_id"
                      (Instance "django.db.models.fields.AutoField"
                         [int_type; int_type])]> book_state)).
Proof.
  exact (proj1 (rest_of_step_not_processed MANAGER_CLASSES_0 RELATED_MANAGER_CLASS_0
                  OPTIONS_CLASS_FULLNAME_0 descriptor_types_0 library (book_ctx false)
                  (book_model book_fields [("objects", book_manager)])
                  book_state _ eq_refl eq_refl)
               [id_field; genre_field; author_field] reviewer_field [publisher_field]
               reviewer_model eq_refl eq_refl eq_refl eq_refl eq_refl eq_refl).
Defined.

Lemma controller_on_unresolved_dependency_witness :
  ∃ st3,
    process_model_class MANAGER_CLASSES_0 RELATED_MANAGER_CLASS_0
      OPTIONS_CLASS_FULLNAME_0 descriptor_types_0 library (book_ctx false) book_state
    = process_initializers MANAGER_CLASSES_0 RELATED_MANAGER_CLASS_0
        OPTIONS_CLASS_FULLNAME_0 descriptor_types_0 library (book_ctx false)
        [AddManagers; AddDefaultManagerAttribute; AddRelatedManagers;
         AddExtraFieldMethods; AddMetaOptionsAttribute] st3 ∧
    info_names st3 = info_names book_state_at_raise ∧
    modules st3 = modules book_state_at_raise ∧
    messages st3 = messages book_state_at_raise ∧
    deferred st3 = true.
Proof.
  exact (controller_on_unresolved_dependency MANAGER_CLASSES_0 RELATED_MANAGER_CLASS_0
           OPTIONS_CLASS_FULLNAME_0 descriptor_types_0 library (book_ctx false)
           [InjectAnyAsBaseForNestedMeta; AddDefaultPrimaryKey]
           [AddManagers; AddDefaultManagerAttribute; AddRelatedManagers;
            AddExtraFieldMethods; AddMetaOptionsAttribute]
           AddRelatedModelsId book_state book_state_before_foreign_keys
           book_state_at_raise eq_refl eq_refl eq_refl).
Defined.

(** C1 (as stated) fails on what the failing step leaves behind: before
    the final pass the foreign keys step raises on [reviewer], after it
    has bound [author_id]; the binding stays. *)
Lemma failing_step_keeps_its_writes :
  final_iteration (book_ctx false) = false ∧
  initializer_run MANAGER_CLASSES_0 RELATED_MANAGER_CLASS_0 OPTIONS_CLASS_FULLNAME_0
    descriptor_types_0 library (book_ctx false) AddRelatedModelsId
    book_state_before_foreign_keys
  = Raise IncompleteDefnException book_state_at_raise ∧
  info_names book_state_before_foreign_keys !! "author_id" = None ∧
  info_names book_state_at_raise !! "author_id"
  = Some (new_sym (book_ctx false) "author_id"
            (Instance "django.db.models.fields.AutoField" [int_type; int_type])).
Proof. repeat split. Qed.

Lemma manager_specialization_witness :
  ∃ custom_manager_info,
    AddManagers_manager MANAGER_CLASSES_0 (book_ctx false)
      ("objects", book_manager) declared_objects_state
    = Ok tt (set_info_names
               <["objects" :=
                   new_sym (book_ctx false) "objects"
                     (Instance "app.models.Book_BookManager"
                        [Instance "app.models.Book" []])]>
               (set_modules <["app.models.Book_BookManager" := custom_manager_info]>
                  declared_objects_state)) ∧
    fullname custom_manager_info = "app.models.Book_BookManager" ∧
    bases custom_manager_info
    = [BaseNode "django.db.models.manager.Manager" [Instance "app.models.Book" []]
         [BaseNode "django.db.models.manager.BaseManager" [TypeVarType "_T"] []]] ∧
    Forall2 (specialized_base MANAGER_CLASSES_0 (book_ctx false))
      (bases book_manager_class) (bases custom_manager_info) ∧
    dom (names custom_manager_info) = dom (names book_manager_class).
Proof.
  exact (manager_specialization MANAGER_CLASSES_0 (book_ctx false)
           "objects" book_manager declared_objects_state book_manager_class
           "BookManager"
           [BaseNode "django.db.models.manager.Manager" [Instance "app.models.Book" []]
              [BaseNode "django.db.models.manager.BaseManager" [TypeVarType "_T"] []]]
           eq_refl (ex_intro _ (field_symbol "objects" 16) eq_refl) eq_refl eq_refl).
Defined.

(** The test for forging looks at all the transitive bases, the forge at
    the direct ones: with [Manager[Any]] further up, a type is forged
    whose bases are those of the template, none of them specialized. *)
Lemma indirect_manager_base_is_kept :
  has_any_parametrized_manager_as_base MANAGER_CLASSES_0 special_manager_class
  = inr true ∧
  reparametrize_bases MANAGER_CLASSES_0 (book_ctx false) (bases special_manager_class)
  = inr (bases special_manager_class).
Proof. split; reflexivity. Qed.

(** C4 (as stated) fails on the name: the forged type is
    [Book_BookManager], with an underscore, and no type [BookBookManager]
    comes to exist. *)
Lemma forged_manager_name_has_underscore :
  info_names (result_state
    (AddManagers_manager MANAGER_CLASSES_0 (book_ctx false)
       ("objects", book_manager) declared_objects_state)) !! "objects"
  = Some (new_sym (book_ctx false) "objects"
            (Instance "app.models.Book_BookManager" [Instance "app.models.Book" []])) ∧
  modules (result_state
    (AddManagers_manager MANAGER_CLASSES_0 (book_ctx false)
       ("objects", book_manager) declared_objects_state))
    !! "app.models.BookBookManager" = None ∧
  "app.models.Book_BookManager" ≠ "app.models.BookBookManager".
Proof. repeat split. discriminate. Qed.

Lemma pipeline_idempotent_witness :
  rebound_manager_names MANAGER_CLASSES_0 custom_manager_library (book_ctx false)
    (modules declared_objects_state) (info_names declared_objects_state) = [] ∧
  info_names (result_state
    (process_model_class MANAGER_CLASSES_0 RELATED_MANAGER_CLASS_0
       OPTIONS_CLASS_FULLNAME_0 descriptor_types_0 custom_manager_library
       (book_ctx false) declared_objects_state)) !! "objects"
  = Some (new_sym (book_ctx false) "objects"
            (Instance "app.models.Book_BookManager" [Instance "app.models.Book" []])) ∧
  info_names (result_state
    (process_model_class MANAGER_CLASSES_0 RELATED_MANAGER_CLASS_0
       OPTIONS_CLASS_FULLNAME_0 descriptor_types_0 custom_manager_library
       (book_ctx false)
       (result_state
          (process_model_class MANAGER_CLASSES_0 RELATED_MANAGER_CLASS_0
             OPTIONS_CLASS_FULLNAME_0 descriptor_types_0 custom_manager_library
             (book_ctx false) declared_objects_state))))
  = info_names (result_state
      (process_model_class MANAGER_CLASSES_0 RELATED_MANAGER_CLASS_0
         OPTIONS_CLASS_FULLNAME_0 descriptor_types_0 custom_manager_library
         (book_ctx false) declared_objects_state)).
Proof.
  split; [reflexivity|]. split; [vm_compute; reflexivity|].
  refine (proj1 (proj2 (pipeline_idempotent MANAGER_CLASSES_0 RELATED_MANAGER_CLASS_0
                          OPTIONS_CLASS_FULLNAME_0 descriptor_types_0
                          custom_manager_library (book_ctx false)
                          declared_objects_state _)) eq_refl).
  intros model_cls Hmodel. injection Hmodel as <-.
  apply Forall_cons. split; [|by apply Forall_nil].
  assert (Hr : resolve_manager_result (book_ctx false)
                 (modules declared_objects_state) book_manager
               = inr (Some (book_manager_class, "BookManager"))) by reflexivity.
  assert (Hany : has_any_parametrized_manager_as_base MANAGER_CLASSES_0
                   book_manager_class = inr true) by reflexivity.
  unfold manager_settled. cbn [fst snd]. rewrite Hr, Hany. split.
  - refine (bool_decide_unpack _ _). vm_compute. exact I.
  - intros H. vm_compute in H. discriminate H.
Defined.

(** C3 (as stated) fails when the model has a manager of a class written
    as [class BookManager(models.Manager)]: every dependency is known and
    the first run raises nothing and asks for no other pass; it binds
    [objects] to [BookManager[Book]]; the second run finds [objects]
    bound, forges [Book_BookManager] and binds [objects] to that. *)
Lemma second_run_specializes_manager :
  (∃ st1,
     process_model_class MANAGER_CLASSES_0 RELATED_MANAGER_CLASS_0
       OPTIONS_CLASS_FULLNAME_0 descriptor_types_0 custom_manager_library
       (book_ctx false) book_state = Ok tt st1 ∧
     deferred st1 = false ∧
     messages st1 = [] ∧
     info_names st1 !! "objects"
     = Some (new_sym (book_ctx false) "objects"
               (Instance "app.models.BookManager" [Instance "app.models.Book" []])) ∧
     info_names (result_state
       (process_model_class MANAGER_CLASSES_0 RELATED_MANAGER_CLASS_0
          OPTIONS_CLASS_FULLNAME_0 descriptor_types_0 custom_manager_library
          (book_ctx false) st1)) !! "objects"
     = Some (new_sym (book_ctx false) "objects"
               (Instance "app.models.Book_BookManager"
                  [Instance "app.models.Book" []]))) ∧
  new_sym (book_ctx false) "objects"
    (Instance "app.models.BookManager" [Instance "app.models.Book" []])
  ≠ new_sym (book_ctx false) "objects"
      (Instance "app.models.Book_BookManager" [Instance "app.models.Book" []]).
Proof.
  split; [|discriminate].
  eexists. split; [vm_compute; reflexivity|]. repeat split.
Qed.
(** Why the forged type must not take a name that a step looks up: the
    primary key of [Author] is of a class called [Book_BookManager] that
    is not known yet.  The first run leaves [author_id] unbound and
    forges the manager type of [Book] under that very name; the second
    run finds the name among the known types and binds [author_id]. *)
Lemma forged_name_is_looked_up :
  forged_fullname (book_ctx false) book_manager "BookManager"
    ∈ looked_up_names RELATED_MANAGER_CLASS_0 OPTIONS_CLASS_FULLNAME_0
        name_clash_library (book_ctx false) (modules declared_objects_state) ∧
  rebound_manager_names MANAGER_CLASSES_0 name_clash_library (book_ctx false)
    (modules declared_objects_state) (info_names declared_objects_state) = [] ∧
  info_names (result_state
    (process_model_class MANAGER_CLASSES_0 RELATED_MANAGER_CLASS_0
       OPTIONS_CLASS_FULLNAME_0 descriptor_types_0 name_clash_library
       (book_ctx false) declared_objects_state)) !! "author_id"
  = None ∧
  info_names (result_state
    (process_model_class MANAGER_CLASSES_0 RELATED_MANAGER_CLASS_0
       OPTIONS_CLASS_FULLNAME_0 descriptor_types_0 name_clash_library
       (book_ctx false)
       (result_state
          (process_model_class MANAGER_CLASSES_0 RELATED_MANAGER_CLASS_0
             OPTIONS_CLASS_FULLNAME_0 descriptor_types_0 name_clash_library
             (book_ctx false) declared_objects_state)))) !! "author_id"
  = Some (new_sym (book_ctx false) "author_id"
            (Instance "app.models.Book_BookManager" [int_type; int_type])).
Proof.
  split; [refine (bool_decide_unpack _ _); vm_compute; exact I|].
  repeat split; vm_compute; reflexivity.
Qed.

(** ** Further runs on the example declarations *)

Lemma no_deferral_on_final_pass_witness :
  deferred (result_state
    (process_model_class MANAGER_CLASSES_0 RELATED_MANAGER_CLASS_0
       OPTIONS_CLASS_FULLNAME_0 descriptor_types_0 library (book_ctx true) book_state))
  = deferred book_state.
Proof.
  exact (no_deferral_on_final_pass MANAGER_CLASSES_0 RELATED_MANAGER_CLASS_0
           OPTIONS_CLASS_FULLNAME_0 descriptor_types_0 library (book_ctx true)
           book_state eq_refl).
Defined.

Lemma pipeline_without_model_witness :
  process_model_class MANAGER_CLASSES_0 RELATED_MANAGER_CLASS_0
    OPTIONS_CLASS_FULLNAME_0 descriptor_types_0 no_model_context (book_ctx false)
    abstract_base_state
  = Ok tt (set_info_names (alter set_fallback_to_any "Meta") abstract_base_state).
Proof.
  exact (pipeline_without_model MANAGER_CLASSES_0 RELATED_MANAGER_CLASS_0
           OPTIONS_CLASS_FULLNAME_0 descriptor_types_0 no_model_context
           (book_ctx false) abstract_base_state eq_refl).
Defined.

Lemma undeferred_run_is_complete_witness :
  for_each
    (initializer_run MANAGER_CLASSES_0 RELATED_MANAGER_CLASS_0
       OPTIONS_CLASS_FULLNAME_0 descriptor_types_0 custom_manager_library
       (book_ctx false))
    initializers book_state
  = Ok tt (result_state
             (process_model_class MANAGER_CLASSES_0 RELATED_MANAGER_CLASS_0
                OPTIONS_CLASS_FULLNAME_0 descriptor_types_0 custom_manager_library
                (book_ctx false) book_state)).
Proof.
  apply (undeferred_run_is_complete MANAGER_CLASSES_0 RELATED_MANAGER_CLASS_0
           OPTIONS_CLASS_FULLNAME_0 descriptor_types_0 custom_manager_library
           (book_ctx false) book_state);
    [reflexivity|vm_compute; reflexivity|vm_compute; reflexivity].
Defined.

Lemma shadow_identifier_synthesis_witness :
  AddRelatedModelsId_field descriptor_types_0 library (book_ctx false)
    author_field book_state
  = Ok tt (set_info_names
             <["author_id" := book_attribute "author_id" auto_field_type]>
             book_state).
Proof.
  exact (proj1 (proj2 (shadow_identifier_synthesis descriptor_types_0 library
                         (book_ctx false) author_field author_model book_state
                         eq_refl eq_refl))
               eq_refl (plain_class "django.db.models.fields.AutoField") eq_refl).
Defined.

Lemma manager_synthesis_witness :
  AddManagers_manager MANAGER_CLASSES_0 (book_ctx false)
    ("objects", book_manager) book_state
  = Ok tt (set_info_names
             <["objects" :=
                 book_attribute "objects"
                   (Instance "app.models.BookManager" [Instance "app.models.Book" []])]>
             book_state).
Proof.
  exact (proj1 (manager_synthesis MANAGER_CLASSES_0 (book_ctx false) "objects"
                  book_manager book_state book_manager_class "BookManager" eq_refl)
               eq_refl).
Defined.

Lemma default_manager_attribute_witness :
  AddDefaultManagerAttribute_run_with_model_cls (book_ctx false)
    (book_model book_fields [("objects", book_manager)]) book_state
  = Ok tt (set_info_names
             <["_default_manager" :=
                 book_attribute "_default_manager"
                   (Instance "app.models.BookManager" [Instance "app.models.Book" []])]>
             book_state).
Proof.
  exact (proj1 (proj2 (default_manager_attribute (book_ctx false)
                         (book_model book_fields [("objects", book_manager)])
                         book_state))
               eq_refl book_manager_class eq_refl).
Defined.

Lemma meta_options_attribute_witness :
  AddMetaOptionsAttribute_run_with_model_cls OPTIONS_CLASS_FULLNAME_0 (book_ctx false)
    (book_model book_fields [("objects", book_manager)]) book_state
  = Ok tt (set_info_names
             <["_meta" :=
                 book_attribute "_meta"
                   (Instance "django.db.models.options.Options"
                      [Instance "app.models.Book" []])]>
             book_state).
Proof.
  exact (proj1 (proj2 (meta_options_attribute OPTIONS_CLASS_FULLNAME_0 (book_ctx false)
                         (book_model book_fields [("objects", book_manager)])
                         book_state))
               eq_refl (plain_class "django.db.models.options.Options") eq_refl).
Defined.

Lemma choices_need_str_witness :
  AddExtraFieldMethods_run_with_model_cls library (book_ctx false)
    (book_model book_fields [("objects", book_manager)]) no_str_state
  = Raise IncompleteDefnException no_str_state.
Proof.
  apply (choices_need_str library (book_ctx false)
           (book_model book_fields [("objects", book_manager)]) no_str_state eq_refl).
  apply Exists_cons_tl, Exists_cons_hd. discriminate.
Defined.

Lemma looping_steps_on_final_pass_witness :
  (∃ st', initializer_run MANAGER_CLASSES_0 RELATED_MANAGER_CLASS_0
            OPTIONS_CLASS_FULLNAME_0 descriptor_types_0 library (book_ctx true)
            AddRelatedModelsId book_state = Ok tt st') ∧
  (∃ st', initializer_run MANAGER_CLASSES_0 RELATED_MANAGER_CLASS_0
            OPTIONS_CLASS_FULLNAME_0 descriptor_types_0 library (book_ctx true)
            AddRelatedManagers book_state = Ok tt st') ∧
  ((∃ st', initializer_run MANAGER_CLASSES_0 RELATED_MANAGER_CLASS_0
             OPTIONS_CLASS_FULLNAME_0 descriptor_types_0 library (book_ctx true)
             AddManagers book_state = Ok tt st') ∨
   (∃ st', initializer_run MANAGER_CLASSES_0 RELATED_MANAGER_CLASS_0
             OPTIONS_CLASS_FULLNAME_0 descriptor_types_0 library (book_ctx true)
             AddManagers book_state = Raise IndexError st')).
Proof.
  exact (looping_steps_on_final_pass MANAGER_CLASSES_0 RELATED_MANAGER_CLASS_0
           OPTIONS_CLASS_FULLNAME_0 descriptor_types_0 library (book_ctx true)
           book_state eq_refl).
Defined.

Lemma returned_run_has_bound_witness :
  is_Some (info_names (result_state
    (process_model_class MANAGER_CLASSES_0 RELATED_MANAGER_CLASS_0
       OPTIONS_CLASS_FULLNAME_0 descriptor_types_0 custom_manager_library
       (book_ctx false) book_state)) !! "_meta").
Proof.
  apply (returned_run_has_bound MANAGER_CLASSES_0 RELATED_MANAGER_CLASS_0
           OPTIONS_CLASS_FULLNAME_0 descriptor_types_0 custom_manager_library
           (book_ctx false) (book_model resolved_fields [("objects", book_manager)])
           book_state _ eq_refl);
    [vm_compute; reflexivity|].
  exists (plain_class "django.db.models.options.Options"). reflexivity.
Defined.

Lemma forged_manager_type_witness :
  ∃ custom_manager_info,
    create_new_model_parametrized_manager MANAGER_CLASSES_0 (book_ctx false)
      "Book_BookManager" book_manager_class book_state
    = Ok (Instance "app.models.Book_BookManager" [Instance "app.models.Book" []])
         (set_modules <["app.models.Book_BookManager" := custom_manager_info]>
            book_state) ∧
    fullname custom_manager_info = "app.models.Book_BookManager" ∧
    bases custom_manager_info
    = [BaseNode "django.db.models.manager.Manager" [Instance "app.models.Book" []]
         [BaseNode "django.db.models.manager.BaseManager" [TypeVarType "_T"] []]] ∧
    ∀ member,
      names custom_manager_info !! member
      = copy_member "app.models.Book_BookManager"
          (Instance "app.models.Book_BookManager" [Instance "app.models.Book" []])
          member <$> names book_manager_class !! member.
Proof.
  exact (proj2 (forged_manager_type MANAGER_CLASSES_0 (book_ctx false)
                  "Book_BookManager" book_manager_class book_state)
               [BaseNode "django.db.models.manager.Manager"
                  [Instance "app.models.Book" []]
                  [BaseNode "django.db.models.manager.BaseManager"
                     [TypeVarType "_T"] []]]
               eq_refl).
Defined.

Lemma any_parametrized_manager_test_witness :
  Exists (λ b, is_any_parametrized_manager MANAGER_CLASSES_0 b.1 b.2 = inr true)
    (iter_bases special_manager_class).
Proof.
  exact (proj1 (proj2 (any_parametrized_manager_test MANAGER_CLASSES_0
                         special_manager_class)) eq_refl).
Defined.

Lemma unspecializable_manager_keeps_its_bases_witness :
  reparametrize_bases MANAGER_CLASSES_0 (book_ctx false) (bases manager_class)
  = inr (bases manager_class).
Proof.
  exact (unspecializable_manager_keeps_its_bases MANAGER_CLASSES_0 (book_ctx false)
           manager_class eq_refl).
Defined.

Lemma rsplit_dot_1_spec_witness :
  rsplit_dot_1 "app.models.BookManager" = Some "BookManager".
Proof.
  exact (proj2 (proj2 (rsplit_dot_1_spec "app.models.BookManager") "BookManager")
               (conj eq_refl (ex_intro _ "app.models" eq_refl))).
Defined.

Lemma relation_passed_over_witness :
  AddRelatedManagers_relation RELATED_MANAGER_CLASS_0 library (book_ctx false)
    other_relation book_state
  = Ok tt book_state.
Proof.
  exact (proj1 (proj2 (relation_passed_over RELATED_MANAGER_CLASS_0 library
                         (book_ctx false) other_relation book_state)
                    "tags" chapter_model eq_refl eq_refl)
               (ex_intro _ (plain_class "app.models.Chapter") eq_refl) eq_refl).
Defined.

Lemma default_primary_key_unresolved_witness :
  initializer_run MANAGER_CLASSES_0 RELATED_MANAGER_CLASS_0 OPTIONS_CLASS_FULLNAME_0
    descriptor_types_0 library (book_ctx false) AddDefaultPrimaryKey
    no_auto_field_state
  = Raise IncompleteDefnException no_auto_field_state ∧
  process_initializer MANAGER_CLASSES_0 RELATED_MANAGER_CLASS_0
    OPTIONS_CLASS_FULLNAME_0 descriptor_types_0 library (book_ctx false)
    AddDefaultPrimaryKey no_auto_field_state
  = Ok tt (set_deferred no_auto_field_state).
Proof.
  exact (default_primary_key_unresolved MANAGER_CLASSES_0 RELATED_MANAGER_CLASS_0
           OPTIONS_CLASS_FULLNAME_0 descriptor_types_0 library (book_ctx false)
           (book_model book_fields [("objects", book_manager)]) id_field
           no_auto_field_state eq_refl eq_refl eq_refl eq_refl).
Defined.

Lemma foreign_keys_step_on_final_pass_witness :
  ∃ st',
    for_each (AddRelatedModelsId_field descriptor_types_0 library (book_ctx true))
      book_fields book_state = Ok tt st' ∧
    modules st' = modules book_state ∧
    length (messages st')
    = length (messages book_state)
      + length (filter (related_model_missing library) book_fields).
Proof.
  exact (foreign_keys_step_on_final_pass descriptor_types_0 library (book_ctx true)
           book_fields book_state eq_refl).
Defined.
